(** * Via Labs V4 SDK (TypeScript): a shallow embedding

    The development follows the source files of the SDK:

    - [encoding.ts]   canonical message codec ([encodeViaMessage],
                      [decodeViaMessage]);
    - [signatures.ts] message hashing and Ed25519 verification instructions;
    - [pdas.ts], [types.ts], [constants.ts] deterministic address seeds;
    - [sdk.ts]        signature-enabled submissions, the retry wrapper, the
                      gateway, registry and counter operations and the
                      lookup table;
    - [abi.ts]        token bridge data of the EVM side;
    - [validation.ts] checks on amounts, keys and stored messages.

    JavaScript values are modelled as follows: a [Buffer] is a list of bytes,
    a [BN] is an integer of [Z] (bn.js numbers are unbounded and signed), a
    JavaScript number that holds a length or an offset is an integer of [Z],
    a string is a [string], and an exception is an explicit [Throw] result. *)

From Stdlib Require Import ZArith List String Ascii Lia Bool DecimalString.
From coqutil Require Import Byte Word.LittleEndianList.
Import ListNotations.

Local Open Scope string_scope.
Local Open Scope Z_scope.

(* ===================================================================== *)
(** * JavaScript runtime: exceptions, template strings, string search     *)
(* ===================================================================== *)

Module JS.

(** A thrown value.  [ErrorObj m] is [new Error(m)]; [Other s] is any other
    non-nullish value without a [message] property, [s] being what
    [String(value)] prints. *)
Inductive thrown : Type :=
| ErrorObj (message : string)
| Other (shown : string).

(** The outcome of evaluating an expression that may throw. *)
Inductive completion (A : Type) : Type :=
| Ok (a : A)
| Throw (e : thrown).
Arguments Ok {A} a.
Arguments Throw {A} e.

Definition bind {A B : Type} (c : completion A) (k : A -> completion B)
  : completion B :=
  match c with
  | Ok a => k a
  | Throw e => Throw e
  end.

Definition throws {A : Type} (c : completion A) : Prop :=
  exists e, c = Throw e.

(** [error.message] ([None] is [undefined]). *)
Definition message (e : thrown) : option string :=
  match e with
  | ErrorObj m => Some m
  | Other _ => None
  end.

(** [String(error)], as a template string prints the value: for an [Error]
    the name, followed by the message when there is one. *)
Definition toString (e : thrown) : string :=
  match e with
  | ErrorObj "" => "Error"
  | ErrorObj m => "Error: " ++ m
  | Other s => s
  end.

(** [`${error.message || error}`]: the empty message is falsy. *)
Definition messageOrSelf (e : thrown) : string :=
  match message e with
  | Some "" | None => toString e
  | Some m => m
  end.

(** [`${n}`] for an integral number. *)
Definition showZ (n : Z) : string := NilZero.string_of_int (Z.to_int n).

(** [c.toLowerCase()] on one ASCII character. *)
Definition lowerAscii (c : ascii) : ascii :=
  let n := nat_of_ascii c in
  if ((65 <=? n) && (n <=? 90))%nat then ascii_of_nat (n + 32) else c.

(** [s.toLowerCase()], for strings of ASCII characters. *)
Fixpoint toLowerCase (s : string) : string :=
  match s with
  | EmptyString => EmptyString
  | String c s' => String (lowerAscii c) (toLowerCase s')
  end.

(** [hay.includes(needle)]. *)
Fixpoint includes (hay needle : string) : bool :=
  String.prefix needle hay ||
  match hay with
  | EmptyString => false
  | String _ hay' => includes hay' needle
  end.

(** The double quote, for messages that print one. *)
Definition dquote : string := String (ascii_of_nat 34) EmptyString.

(** [error instanceof Error ? error.message : String(error)]. *)
Definition messageOrString (e : thrown) : string :=
  match e with
  | ErrorObj m => m
  | Other s => s
  end.

(** The characters that [trim] removes, among the ASCII characters: tab,
    line feed, vertical tab, form feed, carriage return and space. *)
Definition isWhiteSpace (c : ascii) : bool :=
  let n := nat_of_ascii c in
  (((9 <=? n) && (n <=? 13)) || (n =? 32))%nat.

Fixpoint trimStart (s : string) : string :=
  match s with
  | EmptyString => EmptyString
  | String c s' => if isWhiteSpace c then trimStart s' else s
  end.

Fixpoint trimEnd (s : string) : string :=
  match s with
  | EmptyString => EmptyString
  | String c s' =>
      match trimEnd s' with
      | EmptyString => if isWhiteSpace c then EmptyString
                       else String c EmptyString
      | kept => String c kept
      end
  end.

(** [s.trim()], for strings of ASCII characters. *)
Definition trim (s : string) : string := trimEnd (trimStart s).

(** Every character of [s] is an ASCII character. *)
Definition isAscii (s : string) : Prop :=
  Forall (fun c => (nat_of_ascii c < 128)%nat) (list_ascii_of_string s).

End JS.

Export JS(completion, Ok, Throw, thrown, ErrorObj, Other).

Declare Scope js_scope.
Delimit Scope js_scope with js.
Notation "x <- c ;; k" := (JS.bind c (fun x => k))
  (at level 61, c at next level, right associativity) : js_scope.
Notation "' p <- c ;; k" := (JS.bind c (fun x => let p := x in k))
  (at level 61, p pattern, c at next level, right associativity) : js_scope.
Local Open Scope js_scope.

(* ===================================================================== *)
(** * Node.js Buffer                                                       *)
(* ===================================================================== *)

Definition Buffer : Type := list byte.

Module Buf.

(** [buf.length]. *)
Definition length (b : Buffer) : Z := Z.of_nat (List.length b).

(** [buf.slice(start, end)] for [0 <= start <= end]; like the original it
    stops at the end of the buffer. *)
Definition slice (b : Buffer) (start stop : Z) : Buffer :=
  firstn (Z.to_nat (stop - start)) (skipn (Z.to_nat start) b).

(** [buf.readUInt32LE(offset)], called with [offset + 4 <= buf.length]. *)
Definition readUInt32LE (b : Buffer) (offset : Z) : Z :=
  le_combine (slice b offset (offset + 4)).

Definition outOfRange (value : Z) : string :=
  "The value of " ++ JS.dquote ++ "value" ++ JS.dquote ++
  " is out of range. It must be >= 0 and <= 4294967295. Received " ++
  JS.showZ value.

(** [Buffer.alloc(4)] followed by [writeUInt32LE(value)]: Node refuses a
    value that is not an unsigned 32-bit integer. *)
Definition writeUInt32LE (value : Z) : completion Buffer :=
  if (0 <=? value) && (value <=? 4294967295)
  then Ok (le_split 4 value)
  else Throw (ErrorObj (outOfRange value)).

(** [Buffer.concat(list)]. *)
Definition concat (bs : list Buffer) : Buffer := List.concat bs.

(** [Buffer.from(text)] for ASCII text (the seed tags). *)
Definition fromString (s : string) : Buffer := list_byte_of_string s.

(** One byte as two lower-case hexadecimal digits, and back. *)
Definition hexDigit (n : Z) : ascii :=
  if n <? 10 then ascii_of_nat (Z.to_nat (48 + n))
  else ascii_of_nat (Z.to_nat (87 + n)).

Definition hexValue (c : ascii) : option Z :=
  let n := Z.of_nat (nat_of_ascii c) in
  if (48 <=? n) && (n <=? 57) then Some (n - 48)
  else if (97 <=? n) && (n <=? 102) then Some (n - 87)
  else if (65 <=? n) && (n <=? 70) then Some (n - 55)
  else None.

(** The lower-case hexadecimal text of a buffer. *)
Fixpoint toHex (b : Buffer) : string :=
  match b with
  | [] => EmptyString
  | x :: b' =>
      String (hexDigit (byte.unsigned x / 16))
        (String (hexDigit (byte.unsigned x mod 16)) (toHex b'))
  end.

(** [Buffer.from(text, 'hex')]: pairs of digits are decoded until the first
    pair that is not hexadecimal. *)
Fixpoint fromHex (s : string) : Buffer :=
  match s with
  | String c1 (String c2 s') =>
      match hexValue c1, hexValue c2 with
      | Some h, Some l => byte.of_Z (16 * h + l) :: fromHex s'
      | _, _ => []
      end
  | _ => []
  end.

(** [n.toString(16)] for the value of a byte. *)
Definition hexOfByte (n : Z) : string :=
  if n <? 16 then String (hexDigit n) EmptyString
  else String (hexDigit (n / 16)) (String (hexDigit (n mod 16)) EmptyString).

(** [buf[i]] for an index inside the buffer. *)
Definition at_ (b : Buffer) (i : Z) : Z :=
  byte.unsigned (nth (Z.to_nat i) b Byte.x00).

(** [a.equals(b)]: the same bytes. *)
Definition equals (a b : Buffer) : bool :=
  if list_eq_dec Byte.byte_eq_dec a b then true else false.

End Buf.

(* ===================================================================== *)
(** * bn.js                                                                *)
(* ===================================================================== *)

Module BN.

(** A [BN] is an unbounded signed integer. *)
Definition t : Type := Z.

Definition isNeg (v : t) : bool := v <? 0.

(** [v.bitLength()] and [v.byteLength()], both of the magnitude. *)
Definition bitLength (v : t) : Z :=
  if v =? 0 then 0 else Z.log2 (Z.abs v) + 1.

Definition byteLength (v : t) : Z := (bitLength v + 7) / 8.

(** [v.toArrayLike(Buffer, 'le', length)] for a positive [length]: bn.js
    asserts that the magnitude fits and writes it little-endian, padded
    with zero bytes. *)
Definition toArrayLike_le (v : t) (length : nat) : completion Buffer :=
  if byteLength v <=? Z.of_nat length
  then Ok (le_split length (Z.abs v))
  else Throw (ErrorObj "byte array longer than desired length").

(** [new BN(bytes, 'le')]. *)
Definition ofBuffer_le (b : Buffer) : t := le_combine b.

(** [a.eq(b)]. *)
Definition eq (a b : t) : bool := a =? b.

(** [new BN(bytes)] and [new BN(bytes, 'be')]: the bytes as a big-endian
    number. *)
Definition ofBuffer_be (b : Buffer) : t := le_combine (rev b).

Definition isZero (v : t) : bool := v =? 0.

(** [a.gt(b)]. *)
Definition gt (a b : t) : bool := a >? b.

(** [v.toString()], in base ten. *)
Definition toString (v : t) : string := JS.showZ v.

(** [v.toArrayLike(Buffer)] padded on the left to [length] bytes, for a
    value that fits: the big-endian bytes. *)
Definition toBuffer_be (v : t) (length : nat) : Buffer :=
  rev (le_split length (Z.abs v)).

End BN.

(* ===================================================================== *)
(** * encoding.ts                                                          *)
(* ===================================================================== *)

Module Encoding.

Definition MAX_SENDER_SIZE : Z := 64.
Definition MAX_RECIPIENT_SIZE : Z := 64.
Definition MAX_ON_CHAIN_DATA : Z := 1024.
Definition MAX_OFF_CHAIN_DATA : Z := 1024.

Record DecodedViaMessage : Type := {
  txId : BN.t;
  sourceChainId : BN.t;
  destChainId : BN.t;
  sender : Buffer;
  recipient : Buffer;
  onChainData : Buffer;
  offChainData : Buffer
}.

(** [encodeLengthPrefixed]: [[u32 length (little-endian)][data bytes]]. *)
Definition encodeLengthPrefixed (data : Buffer) : completion Buffer :=
  lengthBuffer <- Buf.writeUInt32LE (Buf.length data) ;;
  Ok (Buf.concat [lengthBuffer; data]).

Definition encodeViaMessage (txId sourceChainId destChainId : BN.t)
    (sender recipient onChainData offChainData : Buffer)
  : completion Buffer :=
  if Buf.length sender >? MAX_SENDER_SIZE then
    Throw (ErrorObj ("Sender too long: " ++ JS.showZ (Buf.length sender) ++
                     " bytes (max " ++ JS.showZ MAX_SENDER_SIZE ++ ")"))
  else if Buf.length recipient >? MAX_RECIPIENT_SIZE then
    Throw (ErrorObj ("Recipient too long: " ++
                     JS.showZ (Buf.length recipient) ++
                     " bytes (max " ++ JS.showZ MAX_RECIPIENT_SIZE ++ ")"))
  else if Buf.length onChainData >? MAX_ON_CHAIN_DATA then
    Throw (ErrorObj ("On-chain data too large: " ++
                     JS.showZ (Buf.length onChainData) ++
                     " bytes (max " ++ JS.showZ MAX_ON_CHAIN_DATA ++ ")"))
  else if Buf.length offChainData >? MAX_OFF_CHAIN_DATA then
    Throw (ErrorObj ("Off-chain data too large: " ++
                     JS.showZ (Buf.length offChainData) ++
                     " bytes (max " ++ JS.showZ MAX_OFF_CHAIN_DATA ++ ")"))
  else
    e1 <- BN.toArrayLike_le txId 16 ;;
    e2 <- BN.toArrayLike_le sourceChainId 8 ;;
    e3 <- BN.toArrayLike_le destChainId 8 ;;
    e4 <- encodeLengthPrefixed sender ;;
    e5 <- encodeLengthPrefixed recipient ;;
    e6 <- encodeLengthPrefixed onChainData ;;
    e7 <- encodeLengthPrefixed offChainData ;;
    Ok (Buf.concat [e1; e2; e3; e4; e5; e6; e7]).

(** The closure [readBytes] of [decodeViaMessage]; the captured [offset] is
    passed in and the updated one returned. *)
Definition readBytes (encoded : Buffer) (offset : Z) (length : Z)
    (fieldName : string) : completion (Buffer * Z) :=
  if offset + length >? Buf.length encoded then
    Throw (ErrorObj ("Buffer too short: cannot read " ++ fieldName ++
                     " (need " ++ JS.showZ length ++ " bytes at offset " ++
                     JS.showZ offset ++ ", have " ++
                     JS.showZ (Buf.length encoded - offset) ++ ")"))
  else Ok (Buf.slice encoded offset (offset + length), offset + length).

Definition decodeLengthPrefixed (buffer : Buffer) (offset : Z)
    (fieldName : string) : completion Buffer :=
  if offset + 4 >? Buf.length buffer then
    Throw (ErrorObj ("Buffer too short: cannot read " ++ fieldName ++
                     " length prefix at offset " ++ JS.showZ offset))
  else
    let length := Buf.readUInt32LE buffer offset in
    let dataOffset := offset + 4 in
    if dataOffset + length >? Buf.length buffer then
      Throw (ErrorObj ("Buffer too short: cannot read " ++ fieldName ++
                       " data (need " ++ JS.showZ length ++
                       " bytes at offset " ++ JS.showZ dataOffset ++
                       ", have " ++
                       JS.showZ (Buf.length buffer - dataOffset) ++ ")"))
    else Ok (Buf.slice buffer dataOffset (dataOffset + length)).

Definition decodeViaMessage (encoded : Buffer) : completion DecodedViaMessage :=
  let offset := 0 in
  '(txIdBytes, offset) <- readBytes encoded offset 16 "txId" ;;
  let txId := BN.ofBuffer_le txIdBytes in
  '(sourceChainIdBytes, offset) <- readBytes encoded offset 8 "sourceChainId" ;;
  let sourceChainId := BN.ofBuffer_le sourceChainIdBytes in
  '(destChainIdBytes, offset) <- readBytes encoded offset 8 "destChainId" ;;
  let destChainId := BN.ofBuffer_le destChainIdBytes in
  sender <- decodeLengthPrefixed encoded offset "sender" ;;
  let offset := offset + (4 + Buf.length sender) in
  recipient <- decodeLengthPrefixed encoded offset "recipient" ;;
  let offset := offset + (4 + Buf.length recipient) in
  onChainData <- decodeLengthPrefixed encoded offset "onChainData" ;;
  let offset := offset + (4 + Buf.length onChainData) in
  offChainData <- decodeLengthPrefixed encoded offset "offChainData" ;;
  let offset := offset + (4 + Buf.length offChainData) in
  if negb (offset =? Buf.length encoded) then
    Throw (ErrorObj ("Buffer has extra data: decoded " ++ JS.showZ offset ++
                     " bytes but buffer is " ++
                     JS.showZ (Buf.length encoded) ++ " bytes"))
  else
    Ok {| txId := txId;
          sourceChainId := sourceChainId;
          destChainId := destChainId;
          sender := sender;
          recipient := recipient;
          onChainData := onChainData;
          offChainData := offChainData |}.

(** [encodeViaMessage] applied to the fields of a message record. *)
Definition encode (m : DecodedViaMessage) : completion Buffer :=
  encodeViaMessage (txId m) (sourceChainId m) (destChainId m)
    (sender m) (recipient m) (onChainData m) (offChainData m).

(** [validateMessageEncoding]: whatever is thrown inside the [try] block
    makes the answer [false]. *)
Definition validateMessageEncoding (txId sourceChainId destChainId : BN.t)
    (sender recipient onChainData offChainData : Buffer) : bool :=
  match
    (encoded <- encodeViaMessage txId sourceChainId destChainId
                  sender recipient onChainData offChainData ;;
     decoded <- decodeViaMessage encoded ;;
     Ok (BN.eq (Encoding.txId decoded) txId &&
         BN.eq (Encoding.sourceChainId decoded) sourceChainId &&
         BN.eq (Encoding.destChainId decoded) destChainId &&
         Buf.equals (Encoding.sender decoded) sender &&
         Buf.equals (Encoding.recipient decoded) recipient &&
         Buf.equals (Encoding.onChainData decoded) onChainData &&
         Buf.equals (Encoding.offChainData decoded) offChainData))
  with
  | Ok answer => answer
  | Throw _ => false
  end.

End Encoding.

(* ===================================================================== *)
(** * types.ts, constants.ts                                               *)
(* ===================================================================== *)

Module Types.

Definition ChainId : Type := BN.t.
Definition TxId : Type := BN.t.

(** [RegistryType] is the union of the string literals "via", "chain" and
    "project"; at run time it is a string. *)
Definition RegistryType : Type := string.

Definition validateChainId (chainId : ChainId) : completion unit :=
  if BN.isNeg chainId
  then Throw (ErrorObj ("Invalid chain ID: " ++ JS.showZ chainId))
  else Ok tt.

Definition validateTxId (txId : TxId) : completion unit :=
  if BN.isNeg txId
  then Throw (ErrorObj ("Invalid TX ID: " ++ JS.showZ txId))
  else Ok tt.

End Types.

Module Constants.
Definition CHAIN_ID_BYTES : nat := 8.
Definition TX_ID_BYTES : nat := 16.
End Constants.

(** A [PublicKey] of @solana/web3.js, by its bytes. *)
Record PublicKey : Type := mkPublicKey { toBuffer : Buffer }.

(* ===================================================================== *)
(** * pdas.ts                                                              *)
(* ===================================================================== *)

Module Pdas.
Import Types Constants.

Definition registryTypeToDiscriminant (registryType : RegistryType)
  : completion Z :=
  if String.eqb registryType "via" then Ok 0
  else if String.eqb registryType "chain" then Ok 1
  else if String.eqb registryType "project" then Ok 2
  else Throw (ErrorObj ("Invalid registry type: " ++ registryType)).

Section WithWeb3.
(** [PublicKey.findProgramAddressSync(seeds, programId)] of
    @solana/web3.js: the derived address and its bump. *)
Variable findProgramAddressSync :
  list Buffer -> PublicKey -> completion (PublicKey * Z).

(** [this.program.programId] of [ViaLabsPDAs]. *)
Variable programId : PublicKey.

Definition getGatewayPda (chainId : ChainId) : completion PublicKey :=
  _ <- validateChainId chainId ;;
  idBytes <- BN.toArrayLike_le chainId CHAIN_ID_BYTES ;;
  '(gatewayPda, _) <-
    findProgramAddressSync [Buf.fromString "gateway"; idBytes] programId ;;
  Ok gatewayPda.

Definition getSignerRegistryPda (registryType : RegistryType)
    (chainId : ChainId) : completion PublicKey :=
  _ <- validateChainId chainId ;;
  discriminant <- registryTypeToDiscriminant registryType ;;
  let discriminantBuffer : Buffer := [byte.of_Z discriminant] in
  idBytes <- BN.toArrayLike_le chainId CHAIN_ID_BYTES ;;
  '(signerRegistryPda, _) <-
    findProgramAddressSync
      [Buf.fromString "signer_registry"; discriminantBuffer; idBytes]
      programId ;;
  Ok signerRegistryPda.

Definition getCounterPda (sourceChainId : ChainId) : completion PublicKey :=
  _ <- validateChainId sourceChainId ;;
  idBytes <- BN.toArrayLike_le sourceChainId CHAIN_ID_BYTES ;;
  '(counterPda, _) <-
    findProgramAddressSync [Buf.fromString "counter"; idBytes] programId ;;
  Ok counterPda.

Definition getTxCounterPda (chainId : ChainId) : completion PublicKey :=
  _ <- validateChainId chainId ;;
  idBytes <- BN.toArrayLike_le chainId CHAIN_ID_BYTES ;;
  '(txCounterPda, _) <-
    findProgramAddressSync [Buf.fromString "tx_counter"; idBytes] programId ;;
  Ok txCounterPda.

Definition getTxIdPda (sourceChainId : ChainId) (txId : TxId)
  : completion PublicKey :=
  _ <- validateChainId sourceChainId ;;
  _ <- validateTxId txId ;;
  chainBytes <- BN.toArrayLike_le sourceChainId CHAIN_ID_BYTES ;;
  txBytes <- BN.toArrayLike_le txId TX_ID_BYTES ;;
  '(txIdPda, _) <-
    findProgramAddressSync [Buf.fromString "tx"; chainBytes; txBytes]
      programId ;;
  Ok txIdPda.

Definition getGasConfigPda (gatewayKey gasHandlerProgramId : PublicKey)
  : completion PublicKey :=
  '(gasConfigPda, _) <-
    findProgramAddressSync
      [Buf.fromString "gas_config"; toBuffer gatewayKey]
      gasHandlerProgramId ;;
  Ok gasConfigPda.

Definition getClientGasConfigPda
    (gatewayKey clientProgramId gasHandlerProgramId : PublicKey)
  : completion PublicKey :=
  '(clientGasConfigPda, _) <-
    findProgramAddressSync
      [Buf.fromString "client_gas_config"; toBuffer gatewayKey;
       toBuffer clientProgramId]
      gasHandlerProgramId ;;
  Ok clientGasConfigPda.

Definition getGasPoolPda (gatewayKey gasHandlerProgramId : PublicKey)
  : completion PublicKey :=
  '(gasPoolPda, _) <-
    findProgramAddressSync
      [Buf.fromString "gas_pool"; toBuffer gatewayKey]
      gasHandlerProgramId ;;
  Ok gasPoolPda.

Definition getFeeConfigPda (gatewayKey feeHandlerProgramId : PublicKey)
  : completion PublicKey :=
  '(feeConfigPda, _) <-
    findProgramAddressSync
      [Buf.fromString "fee_config"; toBuffer gatewayKey]
      feeHandlerProgramId ;;
  Ok feeConfigPda.

Definition getClientFeeConfigPda
    (gatewayKey clientProgramId feeHandlerProgramId : PublicKey)
  : completion PublicKey :=
  '(clientFeeConfigPda, _) <-
    findProgramAddressSync
      [Buf.fromString "client_fee_config"; toBuffer gatewayKey;
       toBuffer clientProgramId]
      feeHandlerProgramId ;;
  Ok clientFeeConfigPda.

(** The exported helper [deriveDecodedMessagePda]. *)
Definition deriveDecodedMessagePda (txId : TxId)
    (clientProgramId : PublicKey) : completion (PublicKey * Z) :=
  _ <- validateTxId txId ;;
  txBytes <- BN.toArrayLike_le txId 8 ;;
  '(decodedMessagePda, bump) <-
    findProgramAddressSync [Buf.fromString "decoded"; txBytes]
      clientProgramId ;;
  Ok (decodedMessagePda, bump).

End WithWeb3.

End Pdas.

(* ===================================================================== *)
(** * js-sha3: Keccak-256                                                  *)
(* ===================================================================== *)

(** The sponge over Keccak-f[1600] with a rate of 136 bytes, the original
    Keccak padding and 32 bytes of output. *)
Module Keccak.
Local Open Scope list_scope.

(** A state of Keccak-f[1600]: 25 lanes of 64 bits, lane [(x, y)] at
    position [x + 5 * y]. *)
Definition state : Type := list Z.

Definition lane (a : state) (x y : nat) : Z :=
  nth (x mod 5 + 5 * (y mod 5)) a 0.

Definition lanes (f : nat -> nat -> Z) : state :=
  map (fun i => f (i mod 5)%nat (i / 5)%nat) (seq 0 25).

Definition mask64 : Z := 2 ^ 64 - 1.

Definition rotl64 (v : Z) (n : Z) : Z :=
  Z.land (Z.lor (Z.shiftl v n) (Z.shiftr v (64 - n))) mask64.

Definition roundConstants : list Z :=
  [ 0x0000000000000001; 0x0000000000008082; 0x800000000000808A;
    0x8000000080008000; 0x000000000000808B; 0x0000000080000001;
    0x8000000080008081; 0x8000000000008009; 0x000000000000008A;
    0x0000000000000088; 0x0000000080008009; 0x000000008000000A;
    0x000000008000808B; 0x800000000000008B; 0x8000000000008089;
    0x8000000000008003; 0x8000000000008002; 0x8000000000000080;
    0x000000000000800A; 0x800000008000000A; 0x8000000080008081;
    0x8000000000008080; 0x0000000080000001; 0x8000000080008008 ].

(** Rotation offsets, at position [x + 5 * y]. *)
Definition rotationOffsets : list Z :=
  [ 0; 1; 62; 28; 27;
    36; 44; 6; 55; 20;
    3; 10; 43; 25; 39;
    41; 45; 15; 21; 8;
    18; 2; 61; 56; 14 ].

Definition theta (a : state) : state :=
  let c x := Z.lxor (lane a x 0) (Z.lxor (lane a x 1) (Z.lxor (lane a x 2)
               (Z.lxor (lane a x 3) (lane a x 4)))) in
  let d x := Z.lxor (c (x + 4)%nat) (rotl64 (c (x + 1)%nat) 1) in
  lanes (fun x y => Z.lxor (lane a x y) (d x)).

(** [B[y, 2x + 3y] = rot(A[x, y], r[x, y])], read at the target: the lane
    that lands on [(x, y)] comes from [(x + 3y, x)]. *)
Definition rhoPi (a : state) : state :=
  lanes (fun x y =>
           let sx := ((x + 3 * y) mod 5)%nat in
           let sy := x in
           rotl64 (lane a sx sy) (nth (sx + 5 * sy) rotationOffsets 0)).

Definition chi (b : state) : state :=
  lanes (fun x y =>
           Z.lxor (lane b x y)
             (Z.land (Z.lxor (lane b (x + 1) y) mask64) (lane b (x + 2) y))).

Definition iota (rc : Z) (a : state) : state :=
  match a with
  | [] => []
  | a0 :: rest => Z.lxor a0 rc :: rest
  end.

Definition round (a : state) (rc : Z) : state :=
  iota rc (chi (rhoPi (theta a))).

Definition keccakF (a : state) : state := fold_left round roundConstants a.

(** Bytes of rate of Keccak-256. *)
Definition rate : nat := 136.

(** The padding of Keccak ([0x01], zeros, [0x80]) up to a multiple of the
    rate. *)
Definition pad (len : nat) : list byte :=
  let fill := (rate - 1 - len mod rate)%nat in
  match fill with
  | O => [Byte.x81]
  | S k => Byte.x01 :: repeat Byte.x00 k ++ [Byte.x80]
  end.

(** One block of the rate, as 17 little-endian lanes, mixed into the
    state. *)
Definition absorbBlock (a : state) (block : list byte) : state :=
  map (fun i =>
         let v := nth i a 0 in
         if (i <? 17)%nat
         then Z.lxor v (le_combine (firstn 8 (skipn (8 * i) block)))
         else v)
      (seq 0 25).

Fixpoint absorb (blocks : nat) (a : state) (data : list byte) : state :=
  match blocks with
  | O => a
  | S blocks' =>
      absorb blocks' (keccakF (absorbBlock a (firstn rate data)))
        (skipn rate data)
  end.

Definition keccak256 (data : list byte) : list byte :=
  let padded := data ++ pad (List.length data) in
  let final := absorb (List.length padded / rate)%nat (repeat 0 25) padded in
  List.concat (map (fun i => le_split 8 (nth i final 0)) (seq 0 4)).

End Keccak.

(* ===================================================================== *)
(** * signatures.ts                                                        *)
(* ===================================================================== *)

Module Signatures.
Import Encoding.

Record MessageSignature : Type := {
  signature : Buffer;
  signer : PublicKey
}.

(** [sha3.keccak_256] returns the digest as hexadecimal text. *)
Definition keccak_256 (data : Buffer) : string :=
  Buf.toHex (Keccak.keccak256 data).

Section WithLibraries.

Definition createMessageHash (txId sourceChainId destChainId : BN.t)
    (sender recipient onChainData offChainData : Buffer)
  : completion Buffer :=
  encoded <- encodeViaMessage txId sourceChainId destChainId
               sender recipient onChainData offChainData ;;
  let hash := keccak_256 encoded in
  Ok (Buf.fromHex hash).

(** [Ed25519Program.createInstructionWithPublicKey] of @solana/web3.js,
    applied to the public key, the message and the signature. *)
Context {Instruction : Type}.
Variable createInstructionWithPublicKey :
  Buffer -> Buffer -> Buffer -> completion Instruction.

Definition createEd25519Instruction (signature : Buffer)
    (publicKey : PublicKey) (message : Buffer) : completion Instruction :=
  createInstructionWithPublicKey (toBuffer publicKey) message signature.

End WithLibraries.

(** A [Keypair] of @solana/web3.js. *)
Record Keypair : Type := {
  publicKey : PublicKey;
  secretKey : Buffer
}.

Section WithNacl.
(** [nacl.sign.detached(message, secretKey)] of tweetnacl. *)
Variable detached : Buffer -> Buffer -> completion Buffer.

Definition signMessage (message : Buffer) (keypair : Keypair)
  : completion Buffer :=
  signature <- detached message (secretKey keypair) ;;
  Ok signature.

Definition createMessageSignature (txId sourceChainId destChainId : BN.t)
    (sender recipient onChainData offChainData : Buffer)
    (keypair : Keypair) : completion MessageSignature :=
  messageHash <- createMessageHash txId sourceChainId destChainId
                   sender recipient onChainData offChainData ;;
  signature <- signMessage messageHash keypair ;;
  Ok {| signature := signature; signer := publicKey keypair |}.

End WithNacl.

End Signatures.

(* ===================================================================== *)
(** * sdk.ts                                                               *)
(* ===================================================================== *)

Module Sdk.
Import Types Encoding Signatures.

(** An entry of [remainingAccounts] and the part of an account read that the
    SDK looks at. *)
Record AccountMeta : Type := {
  pubkey : PublicKey;
  isSigner : bool;
  isWritable : bool
}.

Record AccountInfo : Type := { executable : bool }.

(** An Anchor method call as [.instruction()] receives it: the method, its
    seven message arguments, the object given to [accountsPartial] (keys in
    insertion order, [None] for [null]) and the remaining accounts. *)
Record MethodCall : Type := {
  method : string;
  args : DecodedViaMessage;
  accounts : list (string * option PublicKey);
  remainingAccounts : list AccountMeta
}.

(** The entries of the fixed vocabulary of [executeWithRetry]. *)
Definition nonRetryableErrors : list string :=
  [ "already in use"; "invalid"; "insufficient"; "TxIdAlreadyExists";
    "TxIdNotFound"; "SystemDisabled"; "SignerNotRegistered" ].

Definition isNonRetryable (error : thrown) : bool :=
  existsb
    (fun err =>
       match JS.message error with
       | Some m => JS.includes (JS.toLowerCase m) (JS.toLowerCase err)
       | None => false
       end)
    nonRetryableErrors.

(** [`${lastError?.message || lastError}`]. *)
Definition lastErrorText (lastError : option thrown) : string :=
  match lastError with
  | Some e => JS.messageOrSelf e
  | None => "undefined"
  end.

Definition MAX_SIGNATURES_V0 : Z := 3.

Definition tooManySignatures (n : Z) : thrown :=
  ErrorObj ("Too many signatures for V0 transaction: " ++ JS.showZ n ++
            " provided, " ++ "maximum " ++ JS.showZ MAX_SIGNATURES_V0 ++
            " supported. V0 transactions have a 1232 byte " ++
            "limit, and each Ed25519 instruction uses ~200 bytes.").

Definition noSignatures : thrown :=
  ErrorObj "At least one signature is required".

(** [source.copy(target)]: the bytes of [source] that fit overwrite the
    start of [target]. *)
Definition copyInto (source target : Buffer) : Buffer :=
  (firstn (List.length target) source ++
   skipn (List.length source) target)%list.

(** ** Libraries and the network

    What the SDK calls and does not define: @solana/web3.js, js-sha3,
    Anchor and the cluster behind the connection. *)
Class Runtime : Type := {
  Instruction : Type;
  (** The state of everything outside the SDK (the cluster, the clock). *)
  World : Type;
  (** An [AddressLookupTableAccount]. *)
  LookupTable : Type;
  findProgramAddressSync :
    list Buffer -> PublicKey -> completion (PublicKey * Z);
  createInstructionWithPublicKey :
    Buffer -> Buffer -> Buffer -> completion Instruction;
  (** [builder.instruction()] of Anchor. *)
  anchorInstruction :
    MethodCall -> World -> completion Instruction * World;
  (** [provider.sendAndConfirm(tx)] on the instructions of [tx]. *)
  sendAndConfirm :
    list Instruction -> World -> completion string * World;
  (** [connection.getAccountInfo(key)]. *)
  getAccountInfo :
    PublicKey -> World -> completion (option AccountInfo) * World;
  (** One run of the operation of [executeV0Transaction]: latest blockhash,
      V0 message compiled against the table, signature, send, confirm. *)
  sendV0 :
    LookupTable -> list Instruction -> World -> completion string * World;
  (** The passing of [ms] milliseconds ([setTimeout]). *)
  elapse : Z -> World -> World;
  SYSVAR_INSTRUCTIONS_PUBKEY : PublicKey;
  SystemProgram_programId : PublicKey
}.

(** The fields of [this] that the operations read. *)
Record ViaLabsSDK {rt : Runtime} : Type := {
  programId : PublicKey;
  walletPublicKey : PublicKey;
  gasHandlerProgramId : PublicKey;
  lookupTableAccount : option LookupTable
}.

Section WithRuntime.
Context {rt : Runtime}.
Variable this : ViaLabsSDK.

(** ** Effects: calls that leave the SDK, in the order they happen *)

Inductive Event : Type :=
| EvInstruction (call : MethodCall)
| EvSendAndConfirm (tx : list Instruction)
| EvGetAccountInfo (key : PublicKey)
| EvSendV0 (instructions : list Instruction)
| EvWarn (text : string)
| EvSleep (ms : Z).

(** An asynchronous computation: from the world before to its outcome,
    the world after and the calls it made. *)
Definition M (A : Type) : Type :=
  World -> completion A * World * list Event.

Definition ret {A : Type} (a : A) : M A := fun w => (Ok a, w, []).

Definition raise {A : Type} (e : thrown) : M A :=
  fun w => (Throw e, w, []).

Definition lift {A : Type} (c : completion A) : M A := fun w => (c, w, []).

Definition bindM {A B : Type} (m : M A) (k : A -> M B) : M B :=
  fun w =>
    let '(r, w1, t1) := m w in
    match r with
    | Ok a => let '(r2, w2, t2) := k a w1 in (r2, w2, (t1 ++ t2)%list)
    | Throw e => (Throw e, w1, t1)
    end.

Definition call {A : Type} (ev : Event)
    (f : World -> completion A * World) : M A :=
  fun w => let '(r, w1) := f w in (r, w1, [ev]).

Notation "x <~ c ;; k" := (bindM c (fun x => k))
  (at level 61, c at next level, right associativity).

Definition instruction (c : MethodCall) : M Instruction :=
  call (EvInstruction c) (anchorInstruction c).

(** [this.pdas]. *)
Definition pdaGateway :=
  Pdas.getGatewayPda findProgramAddressSync (programId this).
Definition pdaSignerRegistry :=
  Pdas.getSignerRegistryPda findProgramAddressSync (programId this).
Definition pdaCounter :=
  Pdas.getCounterPda findProgramAddressSync (programId this).
Definition pdaTxId :=
  Pdas.getTxIdPda findProgramAddressSync (programId this).
Definition pdaGasConfig := Pdas.getGasConfigPda findProgramAddressSync.
Definition pdaClientGasConfig :=
  Pdas.getClientGasConfigPda findProgramAddressSync.
Definition pdaGasPool := Pdas.getGasPoolPda findProgramAddressSync.

(** ** executeWithRetry *)

Section Retry.
Context {T : Type}.
Variable name : string.
Variable operation : M T.
Variable maxRetries : Z.

Definition backoffMs (attempt : Z) : Z := 1000 * 2 ^ (attempt - 1).

Definition exhausted (lastError : option thrown) : thrown :=
  ErrorObj (name ++ " failed after " ++ JS.showZ maxRetries ++
            " attempts: " ++ lastErrorText lastError).

(** The [for] loop, on the attempt numbers still to run. *)
Fixpoint retryLoop (attempts : list Z) (lastError : option thrown)
  : M T :=
  match attempts with
  | [] => raise (exhausted lastError)
  | attempt :: rest =>
      fun w =>
        let '(r, w1, t1) := operation w in
        match r with
        | Ok v => (Ok v, w1, t1)
        | Throw error =>
            if isNonRetryable error then
              (Throw (ErrorObj (name ++ " failed: " ++
                                JS.messageOrSelf error)), w1, t1)
            else if attempt <? maxRetries then
              let '(r2, w2, t2) :=
                retryLoop rest (Some error)
                  (elapse (backoffMs attempt) w1) in
              (r2, w2,
               (t1 ++
                [EvWarn (name ++ " attempt " ++ JS.showZ attempt ++
                         " failed, retrying in " ++
                         JS.showZ (backoffMs attempt) ++ "ms...");
                 EvSleep (backoffMs attempt)] ++ t2)%list)
            else
              let '(r2, w2, t2) := retryLoop rest (Some error) w1 in
              (r2, w2, (t1 ++ t2)%list)
        end
  end.

(** [for (let attempt = 1; attempt <= maxRetries; attempt++)]. *)
Definition attemptNumbers : list Z :=
  map Z.of_nat (seq 1 (Z.to_nat maxRetries)).

Definition executeWithRetry : M T := retryLoop attemptNumbers None.

End Retry.

Definition executeV0Transaction (name : string)
    (instructions : list Instruction) (maxRetries : Z) : M string :=
  match lookupTableAccount this with
  | None =>
      raise (ErrorObj "Lookup table not loaded. Call loadLookupTable() first.")
  | Some table =>
      executeWithRetry name
        (call (EvSendV0 instructions) (sendV0 table instructions))
        maxRetries
  end.

(** ** Message operations with signatures *)

Definition messageHash (m : DecodedViaMessage) : completion Buffer :=
  createMessageHash (txId m) (sourceChainId m) (destChainId m)
    (sender m) (recipient m) (onChainData m) (offChainData m).

(** [for (const sig of signatures) tx.add(createEd25519Instruction(...))],
    [instructions] being what the transaction holds so far. *)
Fixpoint addEd25519Instructions (instructions : list Instruction)
    (signatures : list MessageSignature) (hash : Buffer)
  : completion (list Instruction) :=
  match signatures with
  | [] => Ok instructions
  | sig :: rest =>
      ix <- createEd25519Instruction createInstructionWithPublicKey
              (signature sig) (signer sig) hash ;;
      addEd25519Instructions (instructions ++ [ix])%list rest hash
  end.

Definition createTxPdaAccounts (m : DecodedViaMessage)
  : completion (list (string * option PublicKey)) :=
  txIdPda <- pdaTxId (sourceChainId m) (txId m) ;;
  counterPda <- pdaCounter (sourceChainId m) ;;
  Ok [ ("txIdPda", Some txIdPda);
       ("counterPda", Some counterPda);
       ("relayer", Some (walletPublicKey this));
       ("instructions", Some SYSVAR_INSTRUCTIONS_PUBKEY) ].

(** The instructions of [createTxPdaWithSignatures] and of its V0
    variant, which build them by the same statements: the Ed25519
    instructions, then the main instruction. *)
Definition createTxPdaInstructions (m : DecodedViaMessage)
    (signatures : list MessageSignature) : M (list Instruction) :=
  hash <~ lift (messageHash m) ;;
  tx <~ lift (addEd25519Instructions [] signatures hash) ;;
  accts <~ lift (createTxPdaAccounts m) ;;
  ix <~ instruction {| method := "createTxPda"; args := m;
                       accounts := accts; remainingAccounts := [] |} ;;
  ret (tx ++ [ix])%list.

Definition createTxPdaWithSignatures (m : DecodedViaMessage)
    (signatures : list MessageSignature) : M string :=
  tx <~ createTxPdaInstructions m signatures ;;
  call (EvSendAndConfirm tx) (sendAndConfirm tx).

Definition processMessageAccounts (m : DecodedViaMessage)
    (includeProjectRegistry : bool)
  : completion (list (string * option PublicKey)) :=
  gateway <- pdaGateway (destChainId m) ;;
  txIdPda <- pdaTxId (sourceChainId m) (txId m) ;;
  viaRegistry <- pdaSignerRegistry "via" (destChainId m) ;;
  chainRegistry <- pdaSignerRegistry "chain" (sourceChainId m) ;;
  gatewayKey <- pdaGateway (destChainId m) ;;
  gasConfig <- pdaGasConfig gatewayKey (gasHandlerProgramId this) ;;
  gatewayKey' <- pdaGateway (destChainId m) ;;
  gasPool <- pdaGasPool gatewayKey' (gasHandlerProgramId this) ;;
  projectRegistry <-
    (if includeProjectRegistry
     then (p <- pdaSignerRegistry "project" (destChainId m) ;; Ok (Some p))
     else Ok None) ;;
  Ok [ ("gateway", Some gateway);
       ("txIdPda", Some txIdPda);
       ("viaRegistry", Some viaRegistry);
       ("chainRegistry", Some chainRegistry);
       ("relayer", Some (walletPublicKey this));
       ("instructions", Some SYSVAR_INSTRUCTIONS_PUBKEY);
       ("systemProgram", Some SystemProgram_programId);
       ("gasHandlerProgram", Some (gasHandlerProgramId this));
       ("gasConfig", Some gasConfig);
       ("clientGasConfig", None);
       ("gasPool", Some gasPool);
       ("projectRegistry", projectRegistry) ].

Definition processMessageInstructions (m : DecodedViaMessage)
    (signatures : list MessageSignature) (includeProjectRegistry : bool)
  : M (list Instruction) :=
  hash <~ lift (messageHash m) ;;
  tx <~ lift (addEd25519Instructions [] signatures hash) ;;
  accts <~ lift (processMessageAccounts m includeProjectRegistry) ;;
  ix <~ instruction {| method := "processMessage"; args := m;
                       accounts := accts; remainingAccounts := [] |} ;;
  ret (tx ++ [ix])%list.

Definition processMessageWithSignatures (m : DecodedViaMessage)
    (signatures : list MessageSignature) (includeProjectRegistry : bool)
  : M string :=
  tx <~ processMessageInstructions m signatures includeProjectRegistry ;;
  call (EvSendAndConfirm tx) (sendAndConfirm tx).

(** The two checks that open both V0 operations. *)
Definition validateSignatureCountV0 (signatures : list MessageSignature)
  : completion unit :=
  let n := Z.of_nat (List.length signatures) in
  if n >? MAX_SIGNATURES_V0 then Throw (tooManySignatures n)
  else if n =? 0 then Throw noSignatures
  else Ok tt.

Definition createTxPdaWithSignaturesV0 (m : DecodedViaMessage)
    (signatures : list MessageSignature) : M string :=
  _ <~ lift (validateSignatureCountV0 signatures) ;;
  instructions <~ createTxPdaInstructions m signatures ;;
  executeV0Transaction "createTxPda" instructions 3.

(** The accounts derived from [remainingAccounts[0]], when there is one:
    the client program, its config address and the DecodedMessage
    address. *)
Definition decodedSeeds (txId : BN.t) : completion (list Buffer) :=
  le16 <- BN.toArrayLike_le txId 16 ;;
  let txIdBytes := copyInto le16 (repeat Byte.x00 16) in
  Ok [Buf.fromString "decoded"; txIdBytes].

Definition clientAccounts (m : DecodedViaMessage)
    (remaining : option (list PublicKey))
  : completion (option PublicKey * option PublicKey * option PublicKey) :=
  match remaining with
  | Some (clientProgramId :: _) =>
      '(clientConfigPda, _) <-
        findProgramAddressSync [Buf.fromString "client_config"]
          clientProgramId ;;
      seeds <- decodedSeeds (txId m) ;;
      '(decodedMessagePda, _) <-
        findProgramAddressSync seeds clientProgramId ;;
      Ok (Some decodedMessagePda, Some clientConfigPda, Some clientProgramId)
  | _ => Ok (None, None, None)
  end.

Definition noGasHandlerAccounts : list (string * option PublicKey) :=
  [ ("gasHandlerProgram", None); ("gasConfig", None);
    ("clientGasConfig", None); ("gasPool", None) ].

Definition deployedGasHandlerAccounts (m : DecodedViaMessage)
    (clientProgramId : option PublicKey)
  : completion (list (string * option PublicKey)) :=
  gatewayKey <- pdaGateway (destChainId m) ;;
  gasConfig <- pdaGasConfig gatewayKey (gasHandlerProgramId this) ;;
  clientGasConfig <-
    match clientProgramId with
    | Some client =>
        gatewayKey' <- pdaGateway (destChainId m) ;;
        p <- pdaClientGasConfig gatewayKey' client
               (gasHandlerProgramId this) ;;
        Ok (Some p)
    | None => Ok None
    end ;;
  gatewayKey'' <- pdaGateway (destChainId m) ;;
  gasPool <- pdaGasPool gatewayKey'' (gasHandlerProgramId this) ;;
  Ok [ ("gasHandlerProgram", Some (gasHandlerProgramId this));
       ("gasConfig", Some gasConfig);
       ("clientGasConfig", clientGasConfig);
       ("gasPool", Some gasPool) ].

(** The [try] block around the gas handler lookup: whatever is thrown
    inside leaves the four accounts [null]. *)
Definition gasHandlerAccounts (m : DecodedViaMessage)
    (clientProgramId : option PublicKey)
  : M (list (string * option PublicKey)) :=
  fun w =>
    let '(r, w1) := getAccountInfo (gasHandlerProgramId this) w in
    let found :=
      match r with
      | Ok (Some info) =>
          if executable info then
            match deployedGasHandlerAccounts m clientProgramId with
            | Ok accts => accts
            | Throw _ => noGasHandlerAccounts
            end
          else noGasHandlerAccounts
      | _ => noGasHandlerAccounts
      end in
    (Ok found, w1, [EvGetAccountInfo (gasHandlerProgramId this)]).

Definition processMessageV0Accounts (m : DecodedViaMessage)
    (includeProjectRegistry : bool)
    (decodedMessagePda clientConfigPda : option PublicKey)
    (gasAccounts : list (string * option PublicKey))
  : completion (list (string * option PublicKey)) :=
  gateway <- pdaGateway (destChainId m) ;;
  txIdPda <- pdaTxId (sourceChainId m) (txId m) ;;
  viaRegistry <- pdaSignerRegistry "via" (destChainId m) ;;
  chainRegistry <- pdaSignerRegistry "chain" (sourceChainId m) ;;
  projectRegistry <-
    (if includeProjectRegistry
     then (p <- pdaSignerRegistry "project" (destChainId m) ;; Ok (Some p))
     else Ok None) ;;
  Ok ([ ("gateway", Some gateway);
        ("txIdPda", Some txIdPda);
        ("viaRegistry", Some viaRegistry);
        ("chainRegistry", Some chainRegistry);
        ("projectRegistry", projectRegistry);
        ("relayer", Some (walletPublicKey this));
        ("decodedMessagePda", decodedMessagePda);
        ("clientConfig", clientConfigPda);
        ("instructions", Some SYSVAR_INSTRUCTIONS_PUBKEY);
        ("systemProgram", Some SystemProgram_programId) ]
      ++ gasAccounts)%list.

Definition remainingMetas (remaining : option (list PublicKey))
  : list AccountMeta :=
  match remaining with
  | Some keys =>
      map (fun k => {| pubkey := k; isSigner := false; isWritable := true |})
        keys
  | None => []
  end.

Definition processMessageV0Instructions (m : DecodedViaMessage)
    (signatures : list MessageSignature) (includeProjectRegistry : bool)
    (remaining : option (list PublicKey)) : M (list Instruction) :=
  hash <~ lift (messageHash m) ;;
  instructions <~ lift (addEd25519Instructions [] signatures hash) ;;
  client <~ lift (clientAccounts m remaining) ;;
  let '(decodedMessagePda, clientConfigPda, clientProgramId) := client in
  gasAccounts <~ gasHandlerAccounts m clientProgramId ;;
  accts <~ lift (processMessageV0Accounts m includeProjectRegistry
                   decodedMessagePda clientConfigPda gasAccounts) ;;
  mainInstruction <~
    instruction {| method := "processMessage"; args := m;
                   accounts := accts;
                   remainingAccounts := remainingMetas remaining |} ;;
  ret (instructions ++ [mainInstruction])%list.

Definition processMessageWithSignaturesV0 (m : DecodedViaMessage)
    (signatures : list MessageSignature) (includeProjectRegistry : bool)
    (remaining : option (list PublicKey)) : M string :=
  _ <~ lift (validateSignatureCountV0 signatures) ;;
  instructions <~
    processMessageV0Instructions m signatures includeProjectRegistry
      remaining ;;
  executeV0Transaction "processMessage" instructions 3.

End WithRuntime.

End Sdk.

(* ===================================================================== *)
(** * bs58 and the [PublicKey] of @solana/web3.js                          *)
(* ===================================================================== *)

Module Bs58.

Definition ALPHABET : string :=
  "123456789ABCDEFGHJKLMNPQRSTUVWXYZabcdefghijkmnopqrstuvwxyz".

Definition digit (n : Z) : ascii :=
  match String.get (Z.to_nat n) ALPHABET with
  | Some c => c
  | None => "1"%char
  end.

(** The digits of [n] in base 58, most significant first, in front of
    [acc]. *)
Fixpoint digits (fuel : nat) (n : Z) (acc : string) : string :=
  match fuel with
  | O => acc
  | S fuel' =>
      if n =? 0 then acc
      else digits fuel' (n / 58) (String (digit (n mod 58)) acc)
  end.

Fixpoint leadingZeroes (source : Buffer) : nat :=
  match source with
  | x :: rest =>
      if byte.unsigned x =? 0 then S (leadingZeroes rest) else O
  | [] => O
  end.

Fixpoint leader (zeroes : nat) : string :=
  match zeroes with
  | O => EmptyString
  | S z => String "1"%char (leader z)
  end.

(** [bs58.encode(source)]: one "1" for each leading zero byte, then the
    bytes as a big-endian number in base 58. *)
Definition encode (source : Buffer) : string :=
  leader (leadingZeroes source) ++
  digits (2 * List.length source) (BN.ofBuffer_be source) EmptyString.

End Bs58.

Module Web3.

Definition PUBLIC_KEY_LENGTH : Z := 32.

(** [new PublicKey(value)] for a buffer: the bytes are read as a
    big-endian number, which must fit 32 bytes. *)
Definition newPublicKey (value : Buffer) : completion PublicKey :=
  let bn := BN.ofBuffer_be value in
  if BN.byteLength bn >? PUBLIC_KEY_LENGTH
  then Throw (ErrorObj "Invalid public key input")
  else Ok (mkPublicKey (BN.toBuffer_be bn 32)).

(** [a.equals(b)] compares the numbers the keys hold. *)
Definition equals (a b : PublicKey) : bool :=
  BN.eq (BN.ofBuffer_be (toBuffer a)) (BN.ofBuffer_be (toBuffer b)).

(** [PublicKey.default], the key of 32 zero bytes. *)
Definition default : PublicKey := mkPublicKey (repeat Byte.x00 32).

Definition toBase58 (key : PublicKey) : string :=
  Bs58.encode (toBuffer key).

End Web3.

(* ===================================================================== *)
(** * abi.ts                                                               *)
(* ===================================================================== *)

Module Abi.

Record TokenBridgeData : Type := {
  recipient : PublicKey;
  amount : BN.t;
  tokenMint : PublicKey
}.

(** [new BN("18446744073709551615")]. *)
Definition U64_MAX : BN.t := 18446744073709551615.

(** The error for the high byte at index [i], whose value is
    [byteValue]. *)
Definition highByteError (i byteValue : Z) : thrown :=
  ErrorObj ("Amount overflow: uint256 value exceeds u64::MAX (2^64-1). " ++
            "High bytes must be zero, but byte " ++ JS.showZ i ++
            " is 0x" ++ Buf.hexOfByte byteValue).

(** [for (let i = 0; i < 24; i++)], on the [count] indices from [i]. *)
Fixpoint highBytesAreZero (uint256Bytes : Buffer) (i : Z) (count : nat)
  : completion unit :=
  match count with
  | O => Ok tt
  | S count' =>
      if negb (Buf.at_ uint256Bytes i =? 0) then
        Throw (highByteError i (Buf.at_ uint256Bytes i))
      else highBytesAreZero uint256Bytes (i + 1) count'
  end.

Definition u256ToU64 (uint256Bytes : Buffer) : completion BN.t :=
  if negb (Buf.length uint256Bytes =? 32) then
    Throw (ErrorObj ("Invalid uint256 size: expected 32 bytes, got " ++
                     JS.showZ (Buf.length uint256Bytes) ++ " bytes"))
  else
    _ <- highBytesAreZero uint256Bytes 0 24 ;;
    let u64Bytes := Buf.slice uint256Bytes 24 32 in
    let amount := BN.ofBuffer_be u64Bytes in
    if BN.gt amount U64_MAX then
      Throw (ErrorObj ("Amount overflow: value " ++ BN.toString amount ++
                       " exceeds u64::MAX (" ++ BN.toString U64_MAX ++ ")"))
    else Ok amount.

(** The error for data shorter than the three words. *)
Definition tooShort (onChainData : Buffer) : thrown :=
  ErrorObj ("Invalid onChainData size: expected at least 96 bytes, got " ++
            JS.showZ (Buf.length onChainData) ++ " bytes").

Definition decodeTokenBridgeData (onChainData : Buffer)
  : completion TokenBridgeData :=
  if Buf.length onChainData <? 96 then Throw (tooShort onChainData)
  else
    match
      (let recipientBytes := Buf.slice onChainData 0 32 in
       recipient <- Web3.newPublicKey recipientBytes ;;
       let amountBytes := Buf.slice onChainData 32 64 in
       amount <- u256ToU64 amountBytes ;;
       let tokenMintBytes := Buf.slice onChainData 64 96 in
       tokenMint <- Web3.newPublicKey tokenMintBytes ;;
       Ok {| recipient := recipient; amount := amount;
             tokenMint := tokenMint |})
    with
    | Ok data => Ok data
    | Throw error =>
        Throw (ErrorObj ("Failed to decode token bridge data: " ++
                         JS.messageOrString error))
    end.

Definition validateTokenBridgeData (data : TokenBridgeData)
  : completion unit :=
  if Web3.equals (recipient data) Web3.default then
    Throw (ErrorObj "Invalid recipient: cannot be default pubkey")
  else if BN.isZero (amount data) then
    Throw (ErrorObj "Invalid amount: cannot be zero")
  else if BN.isNeg (amount data) then
    Throw (ErrorObj "Invalid amount: cannot be negative")
  else if Web3.equals (tokenMint data) Web3.default then
    Throw (ErrorObj "Invalid token mint: cannot be default pubkey")
  else Ok tt.

End Abi.

(* ===================================================================== *)
(** * validation.ts                                                        *)
(* ===================================================================== *)

Module Validation.

(** The [DecodedMessagePda] of types.ts. *)
Record DecodedMessagePda : Type := {
  txId : BN.t;
  sender : Buffer;
  destChainId : string;
  recipient : PublicKey;
  amount : BN.t;
  tokenMint : PublicKey;
  gatewayAuthority : PublicKey;
  createdAt : BN.t;
  bump : Z
}.

Definition validateGatewayAuthority
    (providedAuthority expectedGatewayProgramId : PublicKey)
  : completion unit :=
  if negb (Web3.equals providedAuthority expectedGatewayProgramId) then
    Throw (ErrorObj
             ("Invalid gateway authority: expected " ++
              Web3.toBase58 expectedGatewayProgramId ++ ", " ++
              "got " ++ Web3.toBase58 providedAuthority ++ ". " ++
              "This DecodedMessage PDA was not created by the " ++
              "legitimate MessageGateway."))
  else Ok tt.

Definition validateAmount (amount : BN.t) : completion unit :=
  if BN.isZero amount then Throw (ErrorObj "Amount cannot be zero")
  else if BN.isNeg amount then
    Throw (ErrorObj "Amount cannot be negative")
  else
    let U64_MAX : BN.t := 18446744073709551615 in
    if BN.gt amount U64_MAX then
      Throw (ErrorObj ("Amount overflow: " ++ BN.toString amount ++
                       " exceeds u64::MAX (" ++ BN.toString U64_MAX ++ ")"))
    else Ok tt.

Definition validatePublicKey (key : PublicKey) (fieldName : string)
  : completion unit :=
  if Web3.equals key Web3.default then
    Throw (ErrorObj ("Invalid " ++ fieldName ++
                     ": cannot be default pubkey " ++
                     "(11111111111111111111111111111111)"))
  else Ok tt.

Definition validateDecodedMessage (decodedMessage : DecodedMessagePda)
    (expectedGatewayProgramId : PublicKey) : completion unit :=
  _ <- validateGatewayAuthority (gatewayAuthority decodedMessage)
         expectedGatewayProgramId ;;
  _ <- validateAmount (amount decodedMessage) ;;
  _ <- validatePublicKey (recipient decodedMessage) "recipient" ;;
  _ <- validatePublicKey (tokenMint decodedMessage) "tokenMint" ;;
  if BN.isZero (txId decodedMessage) || BN.isNeg (txId decodedMessage) then
    Throw (ErrorObj "Invalid txId: must be positive")
  else if (String.length (destChainId decodedMessage) =? 0)%nat ||
          (String.length (JS.trim (destChainId decodedMessage)) =? 0)%nat
  then Throw (ErrorObj "Invalid destChainId: cannot be empty")
  else if negb (Buf.length (sender decodedMessage) =? 32) then
    Throw (ErrorObj "Invalid sender: must be 32 bytes")
  else Ok tt.

Definition validateDecodeAndStoreCaller
    (gatewayProgramId expectedGatewayProgramId : PublicKey)
  : completion unit :=
  if negb (Web3.equals gatewayProgramId expectedGatewayProgramId) then
    Throw (ErrorObj
             ("Unauthorized caller: decode_and_store can only be called " ++
              "by MessageGateway. " ++
              "Expected " ++ Web3.toBase58 expectedGatewayProgramId ++
              ", got " ++ Web3.toBase58 gatewayProgramId))
  else Ok tt.

End Validation.

(* ===================================================================== *)
(** * sdk.ts: the operations sent with [rpc], and the lookup table         *)
(* ===================================================================== *)

Module SdkOps.
Import Types Sdk.

(** An argument of an Anchor method. *)
Inductive Arg : Type :=
| ArgBN (v : BN.t)
| ArgNumber (n : Z)
| ArgBoolean (b : bool)
| ArgBuffer (b : Buffer)
| ArgPublicKey (key : PublicKey)
| ArgPublicKeys (keys : list PublicKey)
| ArgEnum (variant : string).

(** A method call of the gateway program as [.rpc()] receives it: the
    method, its arguments and the object given to [accountsPartial]. *)
Record RpcCall : Type := {
  rpcMethod : string;
  rpcArgs : list Arg;
  rpcAccounts : list (string * option PublicKey)
}.

(** The gateway program and the connection of [this.client]. *)
Class Client {rt : Runtime} : Type := {
  (** [builder.rpc()]: the transaction is sent and its signature
      returned. *)
  rpc : RpcCall -> World -> completion string * World;
  (** [connection.confirmTransaction(signature, 'confirmed')], as far as
      the SDK reads it: [None] when [confirmation.value.err] is [null],
      else what [JSON.stringify] prints for it. *)
  confirmTransaction :
    string -> World -> completion (option string) * World;
  (** [connection.getAddressLookupTable(address)], its [value]. *)
  getAddressLookupTable :
    PublicKey -> World -> completion (option LookupTable) * World;
  (** [table.state.addresses]. *)
  addresses : LookupTable -> list PublicKey
}.

(** The warning and the sleep that follow a failed attempt. *)
Definition warned {rt : Runtime} (name : string) (attempt ms : Z)
  : list Event :=
  [EvWarn (name ++ " attempt " ++ JS.showZ attempt ++
           " failed, retrying in " ++ JS.showZ ms ++ "ms...");
   EvSleep ms].

(** What [executeV0Transaction] throws while no table is loaded. *)
Definition notLoaded : thrown :=
  ErrorObj "Lookup table not loaded. Call loadLookupTable() first.".

Section WithClient.
Context {rt : Runtime} {client : Client}.
Variable this : ViaLabsSDK.

Notation "x <~ c ;; k" := (bindM c (fun x => k))
  (at level 61, c at next level, right associativity).

(** A call to the cluster; the trace of events keeps warnings, sleeps and
    the submissions of the signature-enabled operations only. *)
Definition request {A : Type} (f : World -> completion A * World) : M A :=
  fun w => let '(r, w1) := f w in (r, w1, []).

Definition executeTransaction (name : string) (txBuilder : M string)
    (maxRetries : Z) : M string :=
  executeWithRetry name
    (signature <~ txBuilder ;;
     confirmation <~ request (confirmTransaction signature) ;;
     match confirmation with
     | Some err => raise (ErrorObj ("Transaction failed: " ++ err))
     | None => ret signature
     end)
    maxRetries.

Definition pdaTxCounter :=
  Pdas.getTxCounterPda findProgramAddressSync (programId this).

(** ** Gateway operations *)

Definition initializeGateway (chainId : ChainId) : M string :=
  executeTransaction "initializeGateway"
    (gateway <~ lift (pdaGateway this chainId) ;;
     counter <~ lift (pdaTxCounter chainId) ;;
     request
       (rpc {| rpcMethod := "initializeGateway";
               rpcArgs := [ArgBN chainId];
               rpcAccounts :=
                 [ ("gateway", Some gateway);
                   ("counter", Some counter);
                   ("authority", Some (walletPublicKey this)) ] |}))
    3.

Definition setSystemEnabled (chainId : ChainId) (enabled : bool)
  : M string :=
  executeTransaction "setSystemEnabled"
    (gateway <~ lift (pdaGateway this chainId) ;;
     request
       (rpc {| rpcMethod := "setSystemEnabled";
               rpcArgs := [ArgBoolean enabled];
               rpcAccounts :=
                 [ ("gateway", Some gateway);
                   ("authority", Some (walletPublicKey this)) ] |}))
    3.

(** [confirmations] is [None] when the caller leaves it out. *)
Definition _sendMessageInternal (chainId : ChainId) (programId : PublicKey)
    (recipient : Buffer) (destChainId : ChainId) (chainData : Buffer)
    (confirmations : option Z) : M string :=
  let confirmations :=
    match confirmations with Some n => n | None => 32 end in
  executeTransaction "_sendMessageInternal"
    (gateway <~ lift (pdaGateway this chainId) ;;
     counter <~ lift (pdaTxCounter chainId) ;;
     request
       (rpc {| rpcMethod := "sendMessage";
               rpcArgs :=
                 [ ArgPublicKey programId; ArgBuffer recipient;
                   ArgBN destChainId; ArgBuffer chainData;
                   ArgNumber confirmations ];
               rpcAccounts :=
                 [ ("gateway", Some gateway);
                   ("counter", Some counter);
                   ("sender", Some (walletPublicKey this));
                   ("senderProgram", Some programId) ] |}))
    3.

(** ** Registry operations *)

(** [getRegistryEnum]: the object with the one key that names the
    variant. *)
Definition getRegistryEnum (type : RegistryType) : completion Arg :=
  if String.eqb type "via" then Ok (ArgEnum "via")
  else if String.eqb type "chain" then Ok (ArgEnum "chain")
  else if String.eqb type "project" then Ok (ArgEnum "project")
  else Throw (ErrorObj ("Invalid registry type: " ++ type)).

(** The object that the six registry operations give to
    [accountsPartial]. *)
Definition registryAccounts (type : RegistryType) (chainId : ChainId)
  : completion (list (string * option PublicKey)) :=
  (gateway <- pdaGateway this chainId ;;
   signerRegistry <- pdaSignerRegistry this type chainId ;;
   Ok [ ("gateway", Some gateway);
        ("signerRegistry", Some signerRegistry);
        ("authority", Some (walletPublicKey this)) ])%js.

(** [signers] and [threshold] are [None] when the caller leaves them
    out. *)
Definition initializeRegistry (type : RegistryType) (chainId : ChainId)
    (signers : option (list PublicKey)) (threshold : option Z)
  : M string :=
  let signers :=
    match signers with
    | Some keys => keys
    | None => [walletPublicKey this]
    end in
  let threshold := match threshold with Some n => n | None => 0 end in
  executeTransaction ("initializeRegistry(" ++ type ++ ")")
    (variant <~ lift (getRegistryEnum type) ;;
     accts <~ lift (registryAccounts type chainId) ;;
     request
       (rpc {| rpcMethod := "initializeSignerRegistry";
               rpcArgs :=
                 [ variant; ArgBN chainId; ArgPublicKeys signers;
                   ArgNumber threshold ];
               rpcAccounts := accts |}))
    3.

Definition addSigner (type : RegistryType) (chainId : ChainId)
    (signer : PublicKey) : M string :=
  executeTransaction ("addSigner(" ++ type ++ ")")
    (variant <~ lift (getRegistryEnum type) ;;
     accts <~ lift (registryAccounts type chainId) ;;
     request
       (rpc {| rpcMethod := "addSigner";
               rpcArgs := [variant; ArgBN chainId; ArgPublicKey signer];
               rpcAccounts := accts |}))
    3.

Definition removeSigner (type : RegistryType) (chainId : ChainId)
    (signer : PublicKey) : M string :=
  executeTransaction ("removeSigner(" ++ type ++ ")")
    (variant <~ lift (getRegistryEnum type) ;;
     accts <~ lift (registryAccounts type chainId) ;;
     request
       (rpc {| rpcMethod := "removeSigner";
               rpcArgs := [variant; ArgBN chainId; ArgPublicKey signer];
               rpcAccounts := accts |}))
    3.

Definition updateSigners (type : RegistryType) (chainId : ChainId)
    (signers : list PublicKey) (threshold : Z) : M string :=
  executeTransaction ("updateSigners(" ++ type ++ ")")
    (variant <~ lift (getRegistryEnum type) ;;
     accts <~ lift (registryAccounts type chainId) ;;
     request
       (rpc {| rpcMethod := "updateSigners";
               rpcArgs :=
                 [ variant; ArgBN chainId; ArgPublicKeys signers;
                   ArgNumber threshold ];
               rpcAccounts := accts |}))
    3.

Definition updateThreshold (type : RegistryType) (chainId : ChainId)
    (threshold : Z) : M string :=
  executeTransaction ("updateThreshold(" ++ type ++ ")")
    (variant <~ lift (getRegistryEnum type) ;;
     accts <~ lift (registryAccounts type chainId) ;;
     request
       (rpc {| rpcMethod := "updateThreshold";
               rpcArgs := [variant; ArgBN chainId; ArgNumber threshold];
               rpcAccounts := accts |}))
    3.

Definition setRegistryEnabled (type : RegistryType) (chainId : ChainId)
    (enabled : bool) : M string :=
  executeTransaction ("setRegistryEnabled(" ++ type ++ ")")
    (variant <~ lift (getRegistryEnum type) ;;
     accts <~ lift (registryAccounts type chainId) ;;
     request
       (rpc {| rpcMethod := "setRegistryEnabled";
               rpcArgs := [variant; ArgBN chainId; ArgBoolean enabled];
               rpcAccounts := accts |}))
    3.

(** ** Counter operations *)

Definition initializeCounter (sourceChainId : ChainId) : M string :=
  executeTransaction "initializeCounter"
    (gateway <~ lift (pdaGateway this sourceChainId) ;;
     request
       (rpc {| rpcMethod := "initializeCounter";
               rpcArgs := [ArgBN sourceChainId];
               rpcAccounts :=
                 [ ("gateway", Some gateway);
                   ("authority", Some (walletPublicKey this)) ] |}))
    3.

(** ** The lookup table *)

Definition newline : string := String (ascii_of_nat 10) EmptyString.

(** The warning sign that opens the message, in UTF-8. *)
Definition warningSign : string :=
  String (ascii_of_nat 226) (String (ascii_of_nat 154)
    (String (ascii_of_nat 160) (String (ascii_of_nat 239)
      (String (ascii_of_nat 184) (String (ascii_of_nat 143) EmptyString))))).

Definition gasHandlerMissing (lookupTableAddress : PublicKey) : string :=
  warningSign ++ "  WARNING: Gas handler program not found in ALT." ++
  newline ++
  "   This deployment appears to be from a version before v2.0.0." ++
  newline ++
  "   Gas handler operations may fail." ++ newline ++
  "   Please redeploy the gateway to add gas accounts to ALT." ++
  newline ++
  "   ALT address: " ++ Web3.toBase58 lookupTableAddress ++ newline ++
  "   Expected gas handler: " ++
  Web3.toBase58 (gasHandlerProgramId this).

(** [this] after [this.lookupTableAccount = table]. *)
Definition withLookupTable (table : LookupTable) : ViaLabsSDK :=
  {| programId := programId this;
     walletPublicKey := walletPublicKey this;
     gasHandlerProgramId := gasHandlerProgramId this;
     lookupTableAccount := Some table |}.

(** [loadLookupTable]; the result is [this] as the call leaves it.  The
    two lines that [console.log] prints are not part of the trace. *)
Definition loadLookupTable (lookupTableAddress : PublicKey)
  : M ViaLabsSDK :=
  lookupTableAccountInfo <~
    request (getAddressLookupTable lookupTableAddress) ;;
  match lookupTableAccountInfo with
  | None =>
      raise (ErrorObj ("Lookup table not found: " ++
                       Web3.toBase58 lookupTableAddress))
  | Some table =>
      let hasGasHandler :=
        existsb (fun addr => Web3.equals addr (gasHandlerProgramId this))
          (addresses table) in
      if negb hasGasHandler then
        fun w =>
          (Ok (withLookupTable table), w,
           [EvWarn (gasHandlerMissing lookupTableAddress)])
      else ret (withLookupTable table)
  end.

End WithClient.

End SdkOps.

(* ===================================================================== *)
(** * The specification's vocabulary                                       *)
(* ===================================================================== *)

Module Spec.
Import Encoding.
Local Open Scope list_scope.

(** Every variable-length field is within its bound: sender and recipient
    of at most 64 bytes, both payloads of at most 1024 bytes. *)
Definition withinBounds (m : DecodedViaMessage) : Prop :=
  Buf.length (sender m) <= 64 /\ Buf.length (recipient m) <= 64 /\
  Buf.length (onChainData m) <= 1024 /\ Buf.length (offChainData m) <= 1024.

(** A valid message of the data model: [txId] an unsigned 128-bit integer,
    the chain identifiers unsigned 64-bit integers, and every
    variable-length field within its bound. *)
Definition validMessage (m : DecodedViaMessage) : Prop :=
  0 <= txId m < 2 ^ 128 /\
  0 <= sourceChainId m < 2 ^ 64 /\
  0 <= destChainId m < 2 ^ 64 /\
  withinBounds m.

(** The magnitudes of the three integers fit their fixed widths. *)
Definition integersFit (m : DecodedViaMessage) : Prop :=
  Z.abs (txId m) < 2 ^ 128 /\
  Z.abs (sourceChainId m) < 2 ^ 64 /\
  Z.abs (destChainId m) < 2 ^ 64.

(** Some variable-length field exceeds its bound. *)
Definition oversized (m : DecodedViaMessage) : Prop :=
  Buf.length (sender m) > 64 \/ Buf.length (recipient m) > 64 \/
  Buf.length (onChainData m) > 1024 \/ Buf.length (offChainData m) > 1024.

(** [LP(x) = length(x) as 4-byte little-endian || x]. *)
Definition LP (x : Buffer) : Buffer := le_split 4 (Buf.length x) ++ x.

(** [txId(16B) || sourceChainId(8B) || destChainId(8B) || LP(sender) ||
    LP(recipient) || LP(onChainData) || LP(offChainData)], on the
    magnitudes of the integers. *)
Definition layout (m : DecodedViaMessage) : Buffer :=
  le_split 16 (Z.abs (txId m)) ++
  le_split 8 (Z.abs (sourceChainId m)) ++
  le_split 8 (Z.abs (destChainId m)) ++
  LP (sender m) ++ LP (recipient m) ++
  LP (onChainData m) ++ LP (offChainData m).

(** The number of bytes the fields of a message occupy. *)
Definition consumed (m : DecodedViaMessage) : Z :=
  16 + 8 + 8 + (4 + Buf.length (sender m)) + (4 + Buf.length (recipient m)) +
  (4 + Buf.length (onChainData m)) + (4 + Buf.length (offChainData m)).

(** Reading a buffer field after field, on the bytes that remain: a
    fixed-width field needs its width, a length-prefixed field needs the
    four bytes of its prefix and then as many bytes as the prefix
    declares. *)
Inductive Field : Type :=
| FixedWidth (width : Z)
| LengthPrefixed.

Definition fields : list Field :=
  [FixedWidth 16; FixedWidth 8; FixedWidth 8;
   LengthPrefixed; LengthPrefixed; LengthPrefixed; LengthPrefixed].

Inductive Framing : Type :=
| Truncated
| Complete (remaining : Buffer).

Fixpoint frame (fs : list Field) (remaining : Buffer) : Framing :=
  match fs with
  | [] => Complete remaining
  | FixedWidth width :: fs' =>
      if Buf.length remaining <? width then Truncated
      else frame fs' (skipn (Z.to_nat width) remaining)
  | LengthPrefixed :: fs' =>
      if Buf.length remaining <? 4 then Truncated
      else
        let declared := le_combine (firstn 4 remaining) in
        if Buf.length remaining - 4 <? declared then Truncated
        else frame fs' (skipn (Z.to_nat (4 + declared)) remaining)
  end.

(** The address that a derivation yields from the seeds it is given. *)
Definition address
    (findProgramAddressSync :
       list Buffer -> PublicKey -> completion (PublicKey * Z))
    (seeds : list Buffer) (owner : PublicKey) : completion PublicKey :=
  ('(pda, _) <- findProgramAddressSync seeds owner ;; Ok pda)%js.

(** The two decoding failures, told apart by their messages. *)
Definition isTruncatedBuffer (e : thrown) : bool :=
  match e with
  | ErrorObj m => String.prefix "Buffer too short: " m
  | Other _ => false
  end.

Definition isTrailingBytes (e : thrown) : bool :=
  match e with
  | ErrorObj m => String.prefix "Buffer has extra data: " m
  | Other _ => false
  end.

(** A message with the magnitudes of its integers: what bn.js writes and
    reads back. *)
Definition magnitudes (m : DecodedViaMessage) : DecodedViaMessage :=
  {| txId := Z.abs (txId m);
     sourceChainId := Z.abs (sourceChainId m);
     destChainId := Z.abs (destChainId m);
     sender := sender m;
     recipient := recipient m;
     onChainData := onChainData m;
     offChainData := offChainData m |}.

(** A computation that ends in one of the two decoding failures. *)
Definition truncationError {A : Type} (c : completion A) : Prop :=
  exists e, c = Throw e /\ isTruncatedBuffer e = true.

Definition trailingError {A : Type} (c : completion A) : Prop :=
  exists e, c = Throw e /\ isTrailingBytes e = true.

End Spec.

(* ===================================================================== *)
(** * The retry policy, attempt by attempt                                 *)
(* ===================================================================== *)

Module RetrySchedule.
Import Sdk.
Local Open Scope list_scope.

Section WithOperation.
Context {rt : Runtime} {T : Type}.
Variable name : string.
Variable operation : M T.
(** The world in which the first attempt starts. *)
Variable w0 : World.

Definition resultOf (o : completion T * World * list Event)
  : completion T := fst (fst o).
Definition worldOf (o : completion T * World * list Event)
  : World := snd (fst o).
Definition eventsOf (o : completion T * World * list Event)
  : list Event := snd o.

(** The delay after the attempt numbered [k + 1] fails: the base delay of
    1000 ms doubled [k] times. *)
Definition delayAfter (k : nat) : Z := 1000 * 2 ^ Z.of_nat k.

(** The world in which the attempt numbered [k + 1] starts when every
    attempt before it failed and was retried: each failure is followed by
    its delay. *)
Fixpoint startOf (k : nat) : World :=
  match k with
  | O => w0
  | S k' => elapse (delayAfter k') (worldOf (operation (startOf k')))
  end.

(** What the attempt numbered [k + 1] does. *)
Definition outcomeOf (k : nat) : completion T * World * list Event :=
  operation (startOf k).

(** The attempt numbered [k + 1] fails with an error that is retried. *)
Definition retriedFailure (k : nat) : Prop :=
  exists e, resultOf (outcomeOf k) = Throw e /\ isNonRetryable e = false.

Definition warning (k : nat) : Event :=
  EvWarn (name ++ " attempt " ++ JS.showZ (Z.of_nat (S k)) ++
          " failed, retrying in " ++ JS.showZ (delayAfter k) ++
          "ms...")%string.

(** The calls made by [d] failed and retried attempts, the first of them
    numbered [j + 1]: what each attempt does, then the warning and the
    sleep. *)
Fixpoint eventsFrom (j d : nat) : list Event :=
  match d with
  | O => []
  | S d' =>
      eventsOf (outcomeOf j) ++ [warning j; EvSleep (delayAfter j)] ++
      eventsFrom (S j) d'
  end.

Definition eventsBefore (k : nat) : list Event := eventsFrom 0 k.

End WithOperation.

(** The attempt numbers from [j + 1] to the cap. *)
Definition attemptsFrom (maxRetries : Z) (j : nat) : list Z :=
  map Z.of_nat (seq (S j) (Z.to_nat maxRetries - j)).

End RetrySchedule.

(* ===================================================================== *)
(** * Signature assembly: what a submission is made of                     *)
(* ===================================================================== *)

Module AssemblySpec.
Import Sdk Signatures Encoding.

Section WithRuntime.
Context {rt : Runtime}.

(** [ix] is the Ed25519 verification instruction of [sig] over [hash]. *)
Definition verificationOf (hash : Buffer) (sig : MessageSignature)
    (ix : Instruction) : Prop :=
  createEd25519Instruction createInstructionWithPublicKey
    (signature sig) (signer sig) hash = Ok ix.

(** One verification instruction per signature, in the order of the
    signatures. *)
Definition verificationsOf (hash : Buffer)
    (signatures : list MessageSignature) (ixs : list Instruction) : Prop :=
  Forall2 (verificationOf hash) signatures ixs.

(** The main operation of the two kinds of submission. *)
Definition createTxPdaCall (m : DecodedViaMessage)
    (accts : list (string * option PublicKey)) : MethodCall :=
  {| method := "createTxPda"; args := m; accounts := accts;
     remainingAccounts := [] |}.

Definition processMessageCall (m : DecodedViaMessage)
    (accts : list (string * option PublicKey))
    (metas : list AccountMeta) : MethodCall :=
  {| method := "processMessage"; args := m; accounts := accts;
     remainingAccounts := metas |}.

(** A list of instructions made of the verification instructions of the
    signatures, in their order, and then one main instruction. *)
Definition orderedBeforeMain (m : DecodedViaMessage)
    (signatures : list MessageSignature) (built : list Instruction) : Prop :=
  exists hash eds main,
    messageHash m = Ok hash /\ verificationsOf hash signatures eds /\
    built = (eds ++ [main])%list.

End WithRuntime.

End AssemblySpec.

(* ===================================================================== *)
(** * A simulated runtime, to run the operations on concrete inputs        *)
(* ===================================================================== *)

Module Sim.
Import Sdk Signatures Encoding.
Local Open Scope list_scope.

(** Instructions are kept as the requests that build them. *)
Inductive instruction : Type :=
| Ed25519Verify (publicKey message signature : Buffer)
| AnchorCall (call : MethodCall).

(** The simulated cluster counts the submissions it receives and the
    milliseconds that pass. *)
Record world : Type := { submissions : nat; clock : Z }.

Definition submit (w : world) : world :=
  {| submissions := S (submissions w); clock := clock w |}.

(** A stand-in for the address derivation of @solana/web3.js: the seeds,
    each behind its length, and the owner. *)
Definition derive (seeds : list Buffer) (owner : PublicKey)
  : completion (PublicKey * Z) :=
  Ok (mkPublicKey
        (List.concat
           (map (fun seed => byte.of_Z (Buf.length seed) :: seed) seeds) ++
         toBuffer owner),
      255).

(** Every call succeeds, except that the cluster answers a V0 submission
    with [outcome]. *)
Definition runtime (outcome : completion string) : Runtime :=
  {| Instruction := instruction;
     World := world;
     LookupTable := list PublicKey;
     findProgramAddressSync := derive;
     createInstructionWithPublicKey :=
       fun publicKey message signature =>
         Ok (Ed25519Verify publicKey message signature);
     anchorInstruction := fun call w => (Ok (AnchorCall call), w);
     sendAndConfirm := fun tx w => (Ok "signature", submit w);
     getAccountInfo := fun key w => (Ok None, w);
     sendV0 := fun table instructions w => (outcome, submit w);
     elapse :=
       fun ms w =>
         {| submissions := submissions w; clock := clock w + ms |};
     SYSVAR_INSTRUCTIONS_PUBKEY := mkPublicKey (repeat Byte.x01 32);
     SystemProgram_programId := mkPublicKey (repeat Byte.x00 32) |}.

Definition sdk (outcome : completion string)
    (table : option (list PublicKey)) : @ViaLabsSDK (runtime outcome) :=
  @Build_ViaLabsSDK (runtime outcome)
    (mkPublicKey (repeat Byte.x02 32))   (* programId *)
    (mkPublicKey (repeat Byte.x03 32))   (* walletPublicKey *)
    (mkPublicKey (repeat Byte.x04 32))   (* gasHandlerProgramId *)
    table.                               (* lookupTableAccount *)

Definition start : world := {| submissions := 0; clock := 0 |}.

(** The message of the end-to-end scenario (its 96 bytes of payload taken
    to be zero), a message whose variable-length fields are all empty, and a
    message with every field at its bound. *)
Definition scenario : DecodedViaMessage :=
  {| txId := 1;
     sourceChainId := 43113;
     destChainId := 9999999999999999999;
     sender := repeat Byte.x00 20;
     recipient := repeat Byte.x00 32;
     onChainData := repeat Byte.x00 96;
     offChainData := [] |}.

Definition blank : DecodedViaMessage :=
  {| txId := 0;
     sourceChainId := 43113;
     destChainId := 9999999999999999999;
     sender := [];
     recipient := [];
     onChainData := [];
     offChainData := [] |}.

Definition largest : DecodedViaMessage :=
  {| txId := 2 ^ 128 - 1;
     sourceChainId := 2 ^ 64 - 1;
     destChainId := 2 ^ 64 - 1;
     sender := repeat Byte.xff 64;
     recipient := repeat Byte.xff 64;
     onChainData := repeat Byte.xff 1024;
     offChainData := repeat Byte.xff 1024 |}.

Definition signatureOf (b : byte) : MessageSignature :=
  {| signature := repeat b 64; signer := mkPublicKey (repeat b 32) |}.

(** The cluster that answers no V0 submission in time. *)
Definition timeout : completion string := Throw (ErrorObj "timeout").
Definition simulated : Runtime := runtime timeout.

(** Two signers, the digest they sign and their verification
    instructions. *)
Definition sigA : MessageSignature := signatureOf Byte.x0a.
Definition sigB : MessageSignature := signatureOf Byte.x0b.
Definition digest : Buffer := Keccak.keccak256 (Spec.layout scenario).

Definition verifyA : instruction :=
  Ed25519Verify (repeat Byte.x0a 32) digest (repeat Byte.x0a 64).
Definition verifyB : instruction :=
  Ed25519Verify (repeat Byte.x0b 32) digest (repeat Byte.x0b 64).

(** An operation that always times out, and one that the program rejects. *)
Definition timesOut : @M simulated string :=
  fun w => (Throw (ErrorObj "timeout"), submit w, []).

Definition unknownTx : @M simulated string :=
  fun w =>
    (Throw (ErrorObj "custom program error: TxIdNotFound"), submit w, []).

Definition someProgram : PublicKey := mkPublicKey (repeat Byte.x02 32).

End Sim.

(* ===================================================================== *)
(** * A simulated cluster for the operations sent with [rpc]               *)
(* ===================================================================== *)

Module SimOps.
Import Encoding Sdk SdkOps Sim.

(** The cluster takes every transaction; what it confirms depends on the
    submissions it has received so far, and it answers a search for a
    lookup table with [stored]. *)
Definition client (confirmation : world -> option string)
    (stored : option (list PublicKey)) : @Client simulated :=
  @Build_Client simulated
    (fun call w => (Ok "signature", submit w))
    (fun signature w => (Ok (confirmation w), w))
    (fun address w => (Ok stored, w))
    (fun table => table).

(** A cluster on which every transaction succeeds, and one on which the
    program fails the first transaction it receives. *)
Definition healthy : world -> option string := fun _ => None.

(** [{"InstructionError":[0,{"Custom":6001}]}]. *)
Definition programError : string :=
  "{" ++ JS.dquote ++ "InstructionError" ++ JS.dquote ++ ":[0,{" ++
  JS.dquote ++ "Custom" ++ JS.dquote ++ ":6001}]}".

Definition failsOnce : world -> option string :=
  fun w => if (submissions w <=? 1)%nat then Some programError else None.

(** ** Inputs for the codec, the resolvers and the validators *)

(** The message of the scenario with a sender of 65 bytes, and with the
    transaction identifier negated. *)
Definition longSender : DecodedViaMessage :=
  {| Encoding.txId := 1;
     Encoding.sourceChainId := 43113;
     Encoding.destChainId := 9999999999999999999;
     Encoding.sender := repeat Byte.x00 65;
     Encoding.recipient := repeat Byte.x00 32;
     Encoding.onChainData := repeat Byte.x00 96;
     Encoding.offChainData := [] |}.

Definition negated : DecodedViaMessage :=
  {| Encoding.txId := -1;
     Encoding.sourceChainId := 43113;
     Encoding.destChainId := 9999999999999999999;
     Encoding.sender := repeat Byte.x00 20;
     Encoding.recipient := repeat Byte.x00 32;
     Encoding.onChainData := repeat Byte.x00 96;
     Encoding.offChainData := [] |}.

(** A signer that writes the secret key in front of the message, in place
    of tweetnacl. *)
Definition sign (message secretKey : Buffer) : completion Buffer :=
  Ok (secretKey ++ message)%list.

Definition keypair : Signatures.Keypair :=
  {| Signatures.publicKey := mkPublicKey (repeat Byte.x0a 32);
     Signatures.secretKey := repeat Byte.x0c 64 |}.

(** Token bridge data: a recipient, 1000 tokens and a mint. *)
Definition recipientKey : PublicKey := mkPublicKey (repeat Byte.x05 32).
Definition mintKey : PublicKey := mkPublicKey (repeat Byte.x06 32).

Definition bridged : Buffer :=
  (toBuffer recipientKey ++ BN.toBuffer_be 1000 32 ++ toBuffer mintKey)%list.

(** A stored message that passes every check against the gateway
    [someProgram]. *)
Definition stored : Validation.DecodedMessagePda :=
  {| Validation.txId := 1;
     Validation.sender := repeat Byte.x00 32;
     Validation.destChainId := "43113";
     Validation.recipient := recipientKey;
     Validation.amount := 1000;
     Validation.tokenMint := mintKey;
     Validation.gatewayAuthority := someProgram;
     Validation.createdAt := 1700000000;
     Validation.bump := 255 |}.

(** The SDK and the client of the operations sent with [rpc]. *)
Definition sdk : @ViaLabsSDK simulated := Sim.sdk timeout None.

(** A lookup table that lists the gas handler program of [sdk]. *)
Definition table : list PublicKey :=
  [mkPublicKey (repeat Byte.x04 32); someProgram].

End SimOps.

(* ===================================================================== *)
(** * Facts about buffers and big numbers                                  *)
(* ===================================================================== *)

Module BufFacts.
Local Open Scope list_scope.

Lemma length_nonneg (b : Buffer) : 0 <= Buf.length b.
Proof. unfold Buf.length. lia. Qed.

Lemma length_app (a b : Buffer) :
  Buf.length (a ++ b) = Buf.length a + Buf.length b.
Proof. unfold Buf.length. rewrite List.length_app. lia. Qed.

Lemma length_nil : Buf.length [] = 0.
Proof. reflexivity. Qed.

Lemma length_le_split (n : nat) (v : Z) :
  Buf.length (le_split n v) = Z.of_nat n.
Proof. unfold Buf.length. now rewrite length_le_split. Qed.

Lemma length_skipn (b : Buffer) (off : Z) :
  0 <= off <= Buf.length b ->
  Buf.length (skipn (Z.to_nat off) b) = Buf.length b - off.
Proof. unfold Buf.length. intros H. rewrite List.length_skipn. lia. Qed.

(** The slice that starts where [pre] ends and is as long as [x]. *)
Lemma slice_app (pre x post : Buffer) :
  Buf.slice (pre ++ x ++ post) (Buf.length pre)
    (Buf.length pre + Buf.length x) = x.
Proof.
  unfold Buf.slice, Buf.length.
  rewrite Nat2Z.id.
  replace (Z.to_nat (Z.of_nat (List.length pre) + Z.of_nat (List.length x)
                     - Z.of_nat (List.length pre)))
    with (List.length x + 0)%nat by lia.
  rewrite skipn_app, skipn_all, Nat.sub_diag. cbn [skipn app].
  rewrite firstn_app_2. cbn [firstn]. apply app_nil_r.
Qed.

Lemma slice_as_remaining (b : Buffer) (off n : Z) :
  Buf.slice b off (off + n) = firstn (Z.to_nat n) (skipn (Z.to_nat off) b).
Proof. unfold Buf.slice. do 2 f_equal. lia. Qed.

Lemma length_slice (b : Buffer) (off n : Z) :
  0 <= off -> 0 <= n -> off + n <= Buf.length b ->
  Buf.length (Buf.slice b off (off + n)) = n.
Proof.
  intros Hoff Hn Hle. rewrite slice_as_remaining. unfold Buf.length in *.
  rewrite List.length_firstn, List.length_skipn. lia.
Qed.

(** Hexadecimal text read back. *)
Lemma hexValue_hexDigit (n : Z) :
  0 <= n < 16 -> Buf.hexValue (Buf.hexDigit n) = Some n.
Proof.
  intros H. rewrite <- (Z2Nat.id n) by lia.
  assert (Hk : (Z.to_nat n < 16)%nat) by lia.
  revert Hk. generalize (Z.to_nat n) as k. intros k Hk.
  do 16 (destruct k as [ | k]; [reflexivity | ]). lia.
Qed.

Lemma fromHex_toHex (b : Buffer) : Buf.fromHex (Buf.toHex b) = b.
Proof.
  induction b as [| x b IH]; [reflexivity | ].
  cbn [Buf.toHex Buf.fromHex].
  pose proof (byte.unsigned_range x) as Hx.
  rewrite !hexValue_hexDigit, IH.
  - f_equal. rewrite <- Z.div_mod by lia. apply byte.of_Z_unsigned.
  - apply Z.mod_pos_bound. lia.
  - split; [apply Z.div_pos; lia | apply Z.div_lt_upper_bound; lia].
Qed.

End BufFacts.

Module BNFacts.

(** bn.js accepts a width exactly when the magnitude is below [256^width]. *)
Lemma byteLength_le (v : Z) (n : nat) :
  BN.byteLength v <= Z.of_nat n <-> Z.abs v < 2 ^ (8 * Z.of_nat n).
Proof.
  unfold BN.byteLength, BN.bitLength.
  destruct (Z.eqb_spec v 0) as [-> | Hv].
  - change ((0 + 7) / 8) with 0. change (Z.abs 0) with 0.
    split; intros _; [apply Z.pow_pos_nonneg; lia | lia].
  - assert (Hpos : 0 < Z.abs v) by lia.
    rewrite (Z.log2_lt_pow2 _ _ Hpos).
    pose proof (Z.log2_nonneg (Z.abs v)) as HL.
    generalize dependent (Z.log2 (Z.abs v)). intros L HL.
    split; intros H1; Z.div_mod_to_equations; lia.
Qed.

Lemma toArrayLike_le_fits (v : Z) (n : nat) :
  Z.abs v < 2 ^ (8 * Z.of_nat n) ->
  BN.toArrayLike_le v n = Ok (le_split n (Z.abs v)).
Proof.
  intros H. unfold BN.toArrayLike_le.
  apply byteLength_le in H. apply Z.leb_le in H. now rewrite H.
Qed.

Lemma toArrayLike_le_too_long (v : Z) (n : nat) :
  2 ^ (8 * Z.of_nat n) <= Z.abs v ->
  BN.toArrayLike_le v n =
  Throw (ErrorObj "byte array longer than desired length").
Proof.
  intros H. unfold BN.toArrayLike_le.
  destruct (Z.leb_spec (BN.byteLength v) (Z.of_nat n)) as [Hle | Hgt];
    [ | reflexivity].
  apply byteLength_le in Hle. lia.
Qed.

Lemma toArrayLike_le_inv (v : Z) (n : nat) (b : Buffer) :
  BN.toArrayLike_le v n = Ok b ->
  b = le_split n (Z.abs v) /\ Z.abs v < 2 ^ (8 * Z.of_nat n).
Proof.
  unfold BN.toArrayLike_le.
  destruct (Z.leb_spec (BN.byteLength v) (Z.of_nat n)) as [Hle | Hgt];
    [ | discriminate].
  intros [= <-]. split; [reflexivity | now apply byteLength_le].
Qed.

(** Reading back what was written, for a value that fits. *)
Lemma ofBuffer_le_split (v : Z) (n : nat) :
  0 <= v < 2 ^ (8 * Z.of_nat n) ->
  BN.ofBuffer_le (le_split n v) = v.
Proof.
  intros H. unfold BN.ofBuffer_le. rewrite le_combine_split.
  apply Z.mod_small. now rewrite Z.mul_comm.
Qed.

End BNFacts.

(* ===================================================================== *)
(** * The codec                                                            *)
(* ===================================================================== *)

Module EncodingFacts.
Import Encoding Spec BufFacts BNFacts.
Local Open Scope list_scope.

Lemma writeUInt32LE_ok (v : Z) :
  0 <= v <= 4294967295 -> Buf.writeUInt32LE v = Ok (le_split 4 v).
Proof.
  intros [H0 H1]. unfold Buf.writeUInt32LE.
  apply Z.leb_le in H0, H1. now rewrite H0, H1.
Qed.

Lemma encodeLengthPrefixed_ok (data : Buffer) :
  Buf.length data <= 4294967295 -> encodeLengthPrefixed data = Ok (LP data).
Proof.
  intros H. unfold encodeLengthPrefixed.
  rewrite writeUInt32LE_ok by (pose proof (length_nonneg data); lia).
  cbn. unfold LP. now rewrite app_nil_r.
Qed.

(** Within the size bounds the only possible failure is an integer that
    does not fit its width. *)
Lemma encode_withinBounds (m : DecodedViaMessage) :
  withinBounds m ->
  encode m =
  (e1 <- BN.toArrayLike_le (txId m) 16 ;;
   e2 <- BN.toArrayLike_le (sourceChainId m) 8 ;;
   e3 <- BN.toArrayLike_le (destChainId m) 8 ;;
   Ok (e1 ++ e2 ++ e3 ++ LP (sender m) ++ LP (recipient m) ++
       LP (onChainData m) ++ LP (offChainData m)))%js.
Proof.
  intros (Hs & Hr & Hon & Hoff). unfold encode, encodeViaMessage.
  unfold MAX_SENDER_SIZE, MAX_RECIPIENT_SIZE, MAX_ON_CHAIN_DATA,
    MAX_OFF_CHAIN_DATA.
  repeat match goal with
         | |- context [?a >? ?b] =>
             destruct (Z.gtb_spec a b); [lia | ]
         end.
  rewrite !encodeLengthPrefixed_ok by lia.
  destruct (BN.toArrayLike_le (txId m) 16); [ | reflexivity].
  destruct (BN.toArrayLike_le (sourceChainId m) 8); [ | reflexivity].
  destruct (BN.toArrayLike_le (destChainId m) 8); [ | reflexivity].
  cbn. now rewrite app_nil_r.
Qed.

Lemma encode_layout (m : DecodedViaMessage) :
  integersFit m -> withinBounds m -> encode m = Ok (layout m).
Proof.
  intros (H1 & H2 & H3) Hb. rewrite encode_withinBounds by assumption.
  rewrite !toArrayLike_le_fits by assumption. reflexivity.
Qed.

(** ** Reading at the end of a known prefix *)

Lemma readBytes_at (buf pre x post : Buffer) (off n : Z) (name : string) :
  buf = pre ++ x ++ post -> off = Buf.length pre -> n = Buf.length x ->
  readBytes buf off n name = Ok (x, off + n).
Proof.
  intros -> -> ->. unfold readBytes.
  rewrite slice_app, !length_app.
  pose proof (length_nonneg post).
  destruct (Z.gtb_spec (Buf.length pre + Buf.length x)
              (Buf.length pre + (Buf.length x + Buf.length post)));
    [lia | reflexivity].
Qed.

Lemma readUInt32LE_at (buf pre post : Buffer) (off v : Z) :
  buf = pre ++ le_split 4 v ++ post -> off = Buf.length pre ->
  0 <= v < 2 ^ 32 ->
  Buf.readUInt32LE buf off = v.
Proof.
  intros -> -> Hv. unfold Buf.readUInt32LE.
  replace 4 with (Buf.length (le_split 4 v)) at 1
    by apply BufFacts.length_le_split.
  rewrite slice_app, le_combine_split. now apply Z.mod_small.
Qed.

Lemma decodeLengthPrefixed_at (buf pre data post : Buffer) (off : Z)
    (name : string) :
  buf = pre ++ LP data ++ post -> off = Buf.length pre ->
  Buf.length data < 2 ^ 32 ->
  decodeLengthPrefixed buf off name = Ok data.
Proof.
  intros Hbuf Hoff Hlen. unfold decodeLengthPrefixed.
  pose proof (length_nonneg data) as Hd.
  pose proof (length_nonneg post) as Hp.
  assert (Htotal : Buf.length buf =
                   Buf.length pre + (4 + Buf.length data) + Buf.length post).
  { subst buf. unfold LP.
    rewrite !length_app, BufFacts.length_le_split. lia. }
  rewrite (readUInt32LE_at buf pre (data ++ post) off (Buf.length data));
    [ | subst buf; unfold LP; now rewrite <- app_assoc | assumption | lia].
  destruct (Z.gtb_spec (off + 4) (Buf.length buf)); [lia | ].
  destruct (Z.gtb_spec (off + 4 + Buf.length data) (Buf.length buf));
    [lia | ].
  f_equal. subst buf off. unfold LP.
  replace (Buf.length pre + 4)
    with (Buf.length (pre ++ le_split 4 (Buf.length data)))
    by (rewrite length_app, BufFacts.length_le_split; lia).
  replace (pre ++ (le_split 4 (Buf.length data) ++ data) ++ post)
    with ((pre ++ le_split 4 (Buf.length data)) ++ data ++ post)
    by now rewrite <- !app_assoc.
  apply slice_app.
Qed.

(** ** Decoding a canonical layout *)

Lemma length_LP (x : Buffer) : Buf.length (LP x) = 4 + Buf.length x.
Proof. unfold LP. now rewrite length_app, BufFacts.length_le_split. Qed.

Lemma length_layout (m : DecodedViaMessage) :
  Buf.length (layout m) = consumed m.
Proof.
  unfold layout, consumed.
  rewrite !length_app, !length_LP, !BufFacts.length_le_split. lia.
Qed.

Ltac regroup :=
  repeat rewrite <- app_assoc; cbn [app]; reflexivity.

Lemma decode_layout (m : DecodedViaMessage) :
  integersFit m ->
  Buf.length (sender m) < 2 ^ 32 -> Buf.length (recipient m) < 2 ^ 32 ->
  Buf.length (onChainData m) < 2 ^ 32 ->
  Buf.length (offChainData m) < 2 ^ 32 ->
  decodeViaMessage (layout m) = Ok (magnitudes m).
Proof.
  intros (Ht & Hs & Hd) H1 H2 H3 H4.
  set (t := le_split 16 (Z.abs (txId m))).
  set (s := le_split 8 (Z.abs (sourceChainId m))).
  set (d := le_split 8 (Z.abs (destChainId m))).
  assert (Et : Buf.length t = 16) by apply BufFacts.length_le_split.
  assert (Es : Buf.length s = 8) by apply BufFacts.length_le_split.
  assert (Ed : Buf.length d = 8) by apply BufFacts.length_le_split.
  unfold decodeViaMessage.
  rewrite (readBytes_at (layout m) [] t
             (s ++ d ++ LP (sender m) ++ LP (recipient m) ++
              LP (onChainData m) ++ LP (offChainData m)) 0 16);
    [ | reflexivity | reflexivity | now rewrite Et].
  cbn [JS.bind].
  rewrite (readBytes_at (layout m) t s
             (d ++ LP (sender m) ++ LP (recipient m) ++
              LP (onChainData m) ++ LP (offChainData m)) (0 + 16) 8);
    [ | reflexivity | now rewrite Et | now rewrite Es].
  cbn [JS.bind].
  rewrite (readBytes_at (layout m) (t ++ s) d
             (LP (sender m) ++ LP (recipient m) ++
              LP (onChainData m) ++ LP (offChainData m)) (0 + 16 + 8) 8);
    [ | unfold layout; regroup | rewrite length_app; lia | now rewrite Ed].
  cbn [JS.bind].
  rewrite (decodeLengthPrefixed_at (layout m) (t ++ s ++ d) (sender m)
             (LP (recipient m) ++ LP (onChainData m) ++
              LP (offChainData m)));
    [ | unfold layout; regroup | rewrite !length_app; lia | assumption].
  cbn [JS.bind].
  rewrite (decodeLengthPrefixed_at (layout m)
             (t ++ s ++ d ++ LP (sender m)) (recipient m)
             (LP (onChainData m) ++ LP (offChainData m)));
    [ | unfold layout; regroup
      | rewrite !length_app, length_LP; lia | assumption].
  cbn [JS.bind].
  rewrite (decodeLengthPrefixed_at (layout m)
             (t ++ s ++ d ++ LP (sender m) ++ LP (recipient m))
             (onChainData m) (LP (offChainData m)));
    [ | unfold layout; regroup
      | rewrite !length_app, !length_LP; lia | assumption].
  cbn [JS.bind].
  rewrite (decodeLengthPrefixed_at (layout m)
             (t ++ s ++ d ++ LP (sender m) ++ LP (recipient m) ++
              LP (onChainData m))
             (offChainData m) []);
    [ | unfold layout; rewrite app_nil_r; regroup
      | rewrite !length_app, !length_LP; lia | assumption].
  cbn [JS.bind].
  rewrite length_layout. unfold consumed.
  match goal with
  | |- context [negb (?a =? ?b)] =>
      replace (a =? b) with true by (symmetry; apply Z.eqb_eq; lia)
  end.
  cbn [negb]. unfold magnitudes, BN.ofBuffer_le, t, s, d.
  rewrite !le_combine_split.
  rewrite !Z.mod_small by (split; [apply Z.abs_nonneg | assumption]).
  reflexivity.
Qed.

(** ** Size rejection *)

Lemma bounds_dec (m : DecodedViaMessage) : withinBounds m \/ oversized m.
Proof. unfold withinBounds, oversized. lia. Qed.

Lemma encode_sender_too_long (m : DecodedViaMessage) :
  Buf.length (sender m) > 64 ->
  encode m =
  Throw (ErrorObj ("Sender too long: " ++ JS.showZ (Buf.length (sender m)) ++
                   " bytes (max 64)")%string).
Proof.
  intros H. unfold encode, encodeViaMessage, MAX_SENDER_SIZE.
  destruct (Z.gtb_spec (Buf.length (sender m)) 64); [reflexivity | lia].
Qed.

Lemma encode_recipient_too_long (m : DecodedViaMessage) :
  Buf.length (sender m) <= 64 -> Buf.length (recipient m) > 64 ->
  encode m =
  Throw (ErrorObj ("Recipient too long: " ++
                   JS.showZ (Buf.length (recipient m)) ++
                   " bytes (max 64)")%string).
Proof.
  intros H0 H. unfold encode, encodeViaMessage, MAX_SENDER_SIZE,
    MAX_RECIPIENT_SIZE.
  destruct (Z.gtb_spec (Buf.length (sender m)) 64); [lia | ].
  destruct (Z.gtb_spec (Buf.length (recipient m)) 64); [reflexivity | lia].
Qed.

Lemma encode_onChainData_too_large (m : DecodedViaMessage) :
  Buf.length (sender m) <= 64 -> Buf.length (recipient m) <= 64 ->
  Buf.length (onChainData m) > 1024 ->
  encode m =
  Throw (ErrorObj ("On-chain data too large: " ++
                   JS.showZ (Buf.length (onChainData m)) ++
                   " bytes (max 1024)")%string).
Proof.
  intros H0 H1 H. unfold encode, encodeViaMessage, MAX_SENDER_SIZE,
    MAX_RECIPIENT_SIZE, MAX_ON_CHAIN_DATA.
  destruct (Z.gtb_spec (Buf.length (sender m)) 64); [lia | ].
  destruct (Z.gtb_spec (Buf.length (recipient m)) 64); [lia | ].
  destruct (Z.gtb_spec (Buf.length (onChainData m)) 1024);
    [reflexivity | lia].
Qed.

Lemma encode_offChainData_too_large (m : DecodedViaMessage) :
  Buf.length (sender m) <= 64 -> Buf.length (recipient m) <= 64 ->
  Buf.length (onChainData m) <= 1024 ->
  Buf.length (offChainData m) > 1024 ->
  encode m =
  Throw (ErrorObj ("Off-chain data too large: " ++
                   JS.showZ (Buf.length (offChainData m)) ++
                   " bytes (max 1024)")%string).
Proof.
  intros H0 H1 H2 H. unfold encode, encodeViaMessage, MAX_SENDER_SIZE,
    MAX_RECIPIENT_SIZE, MAX_ON_CHAIN_DATA, MAX_OFF_CHAIN_DATA.
  destruct (Z.gtb_spec (Buf.length (sender m)) 64); [lia | ].
  destruct (Z.gtb_spec (Buf.length (recipient m)) 64); [lia | ].
  destruct (Z.gtb_spec (Buf.length (onChainData m)) 1024); [lia | ].
  destruct (Z.gtb_spec (Buf.length (offChainData m)) 1024);
    [reflexivity | lia].
Qed.

Lemma encode_oversized_throws (m : DecodedViaMessage) :
  oversized m -> JS.throws (encode m).
Proof.
  intros H.
  destruct (Z.le_gt_cases (Buf.length (sender m)) 64) as [Hs | Hs];
    [ | eexists; apply encode_sender_too_long; lia].
  destruct (Z.le_gt_cases (Buf.length (recipient m)) 64) as [Hr | Hr];
    [ | eexists; apply encode_recipient_too_long; lia].
  destruct (Z.le_gt_cases (Buf.length (onChainData m)) 1024) as [Hon | Hon];
    [ | eexists; apply encode_onChainData_too_large; lia].
  eexists. apply encode_offChainData_too_large; try lia.
  unfold oversized in H. lia.
Qed.

(** An integer wider than its field is refused by bn.js, whose assertion
    names no field. *)
Lemma encode_integer_too_wide (m : DecodedViaMessage) :
  withinBounds m -> ~ integersFit m ->
  encode m = Throw (ErrorObj "byte array longer than desired length").
Proof.
  intros Hb Hfit. rewrite encode_withinBounds by assumption.
  destruct (Z.lt_ge_cases (Z.abs (txId m)) (2 ^ 128)) as [H1 | H1];
    [ | now rewrite (toArrayLike_le_too_long (txId m) 16)].
  rewrite (toArrayLike_le_fits (txId m) 16) by exact H1. cbn [JS.bind].
  destruct (Z.lt_ge_cases (Z.abs (sourceChainId m)) (2 ^ 64)) as [H2 | H2];
    [ | now rewrite (toArrayLike_le_too_long (sourceChainId m) 8)].
  rewrite (toArrayLike_le_fits (sourceChainId m) 8) by exact H2.
  cbn [JS.bind].
  destruct (Z.lt_ge_cases (Z.abs (destChainId m)) (2 ^ 64)) as [H3 | H3];
    [ | now rewrite (toArrayLike_le_too_long (destChainId m) 8)].
  contradiction Hfit. repeat split; assumption.
Qed.

(** Whatever was encoded is the full layout: every byte of every field. *)
Lemma encode_Ok_inv (m : DecodedViaMessage) (b : Buffer) :
  encode m = Ok b -> b = layout m /\ integersFit m /\ withinBounds m.
Proof.
  intros H.
  destruct (bounds_dec m) as [Hb | Ho].
  - rewrite encode_withinBounds in H by assumption.
    destruct (BN.toArrayLike_le (txId m) 16) as [e1 | ] eqn:E1;
      [ | discriminate].
    destruct (BN.toArrayLike_le (sourceChainId m) 8) as [e2 | ] eqn:E2;
      [ | discriminate].
    destruct (BN.toArrayLike_le (destChainId m) 8) as [e3 | ] eqn:E3;
      [ | discriminate].
    apply toArrayLike_le_inv in E1, E2, E3.
    destruct E1 as [-> F1], E2 as [-> F2], E3 as [-> F3].
    cbn in H. injection H as <-.
    split; [reflexivity | split; [exact (conj F1 (conj F2 F3)) | exact Hb]].
  - destruct (encode_oversized_throws m Ho) as [e He]. congruence.
Qed.

(** ** Decoding an arbitrary buffer *)

Lemma readBytes_cases (buf : Buffer) (off n : Z) (name : string) :
  (Buf.length buf - off < n /\ truncationError (readBytes buf off n name)) \/
  (n <= Buf.length buf - off /\
   readBytes buf off n name = Ok (Buf.slice buf off (off + n), off + n)).
Proof.
  unfold readBytes.
  destruct (Z.gtb_spec (off + n) (Buf.length buf)) as [Hgt | Hle].
  - left. split; [lia | ]. eexists. split; reflexivity.
  - right. split; [lia | reflexivity].
Qed.

Lemma decodeLengthPrefixed_cases (buf : Buffer) (off : Z) (name : string) :
  (Buf.length buf - off < 4 /\
   truncationError (decodeLengthPrefixed buf off name)) \/
  (4 <= Buf.length buf - off /\
   Buf.length buf - off - 4 < Buf.readUInt32LE buf off /\
   truncationError (decodeLengthPrefixed buf off name)) \/
  (4 <= Buf.length buf - off /\
   Buf.readUInt32LE buf off <= Buf.length buf - off - 4 /\
   decodeLengthPrefixed buf off name =
   Ok (Buf.slice buf (off + 4) (off + 4 + Buf.readUInt32LE buf off))).
Proof.
  unfold decodeLengthPrefixed.
  destruct (Z.gtb_spec (off + 4) (Buf.length buf)) as [Hgt | Hle].
  - left. split; [lia | ]. eexists. split; reflexivity.
  - right.
    destruct (Z.gtb_spec (off + 4 + Buf.readUInt32LE buf off)
                (Buf.length buf)) as [Hgt' | Hle'].
    + left. split; [lia | ]. split; [lia | ]. eexists. split; reflexivity.
    + right. split; [lia | ]. split; [lia | reflexivity].
Qed.

Lemma readUInt32LE_nonneg (buf : Buffer) (off : Z) :
  0 <= Buf.readUInt32LE buf off.
Proof. unfold Buf.readUInt32LE. apply le_combine_bound. Qed.

Lemma frame_fixed_at (fs : list Field) (buf : Buffer) (off n : Z) :
  0 <= off <= Buf.length buf -> 0 <= n ->
  frame (FixedWidth n :: fs) (skipn (Z.to_nat off) buf) =
  if Buf.length buf - off <? n then Truncated
  else frame fs (skipn (Z.to_nat (off + n)) buf).
Proof.
  intros Hoff Hn. cbn [frame]. rewrite length_skipn by assumption.
  destruct (Z.ltb_spec (Buf.length buf - off) n); [reflexivity | ].
  rewrite skipn_skipn. do 2 f_equal. lia.
Qed.

Lemma frame_prefixed_at (fs : list Field) (buf : Buffer) (off : Z) :
  0 <= off <= Buf.length buf ->
  frame (LengthPrefixed :: fs) (skipn (Z.to_nat off) buf) =
  if Buf.length buf - off <? 4 then Truncated
  else if Buf.length buf - off - 4 <? Buf.readUInt32LE buf off
       then Truncated
       else frame fs
              (skipn (Z.to_nat (off + 4 + Buf.readUInt32LE buf off)) buf).
Proof.
  intros Hoff. cbn [frame]. rewrite length_skipn by assumption.
  unfold Buf.readUInt32LE. rewrite slice_as_remaining.
  change (Z.to_nat 4) with 4%nat.
  destruct (Z.ltb_spec (Buf.length buf - off) 4); [reflexivity | ].
  pose proof (le_combine_bound (firstn 4 (skipn (Z.to_nat off) buf))) as Hb.
  destruct (Z.ltb_spec (Buf.length buf - off - 4)
              (le_combine (firstn 4 (skipn (Z.to_nat off) buf))));
    [reflexivity | ].
  rewrite skipn_skipn. do 2 f_equal. lia.
Qed.

(** A buffer from [off] on is the slice up to [off + n] and the rest. *)
Lemma skipn_slice (buf : Buffer) (off n : Z) :
  0 <= off -> 0 <= n ->
  skipn (Z.to_nat off) buf =
  Buf.slice buf off (off + n) ++ skipn (Z.to_nat (off + n)) buf.
Proof.
  intros Hoff Hn. rewrite slice_as_remaining.
  replace (Z.to_nat (off + n)) with (Z.to_nat n + Z.to_nat off)%nat by lia.
  rewrite <- skipn_skipn. symmetry. apply firstn_skipn.
Qed.

Lemma le_split_slice (buf : Buffer) (off : Z) (n : nat) :
  0 <= off -> off + Z.of_nat n <= Buf.length buf ->
  le_split n (le_combine (Buf.slice buf off (off + Z.of_nat n))) =
  Buf.slice buf off (off + Z.of_nat n).
Proof.
  intros Hoff Hle. apply split_le_combine'.
  pose proof (length_slice buf off (Z.of_nat n)) as H.
  unfold Buf.length in H at 2. lia.
Qed.

Lemma fixed_slice (buf : Buffer) (o : Z) (n : nat) :
  0 <= o -> o + Z.of_nat n <= Buf.length buf ->
  le_split n (Z.abs (BN.ofBuffer_le (Buf.slice buf o (o + Z.of_nat n)))) ++
  skipn (Z.to_nat (o + Z.of_nat n)) buf =
  skipn (Z.to_nat o) buf.
Proof.
  intros Ho Hle. unfold BN.ofBuffer_le.
  rewrite Z.abs_eq by apply le_combine_bound.
  rewrite le_split_slice by assumption.
  symmetry. apply skipn_slice; lia.
Qed.

Lemma prefixed_slice (buf : Buffer) (o : Z) :
  0 <= o -> o + 4 + Buf.readUInt32LE buf o <= Buf.length buf ->
  LP (Buf.slice buf (o + 4) (o + 4 + Buf.readUInt32LE buf o)) ++
  skipn (Z.to_nat (o + (4 + Buf.readUInt32LE buf o))) buf =
  skipn (Z.to_nat o) buf.
Proof.
  intros Ho Hle. pose proof (readUInt32LE_nonneg buf o) as Hr.
  unfold LP. rewrite length_slice by lia.
  unfold Buf.readUInt32LE at 1.
  change (o + 4) with (o + Z.of_nat 4) at 1.
  rewrite (le_split_slice buf o 4) by lia.
  change (Z.of_nat 4) with 4.
  rewrite <- app_assoc.
  replace (o + (4 + Buf.readUInt32LE buf o))
    with (o + 4 + Buf.readUInt32LE buf o) by lia.
  rewrite <- (skipn_slice buf (o + 4)) by lia.
  symmetry. apply (skipn_slice buf o 4); lia.
Qed.

Ltac truncated Herr :=
  let e := fresh "e" in
  let E := fresh "E" in
  let P := fresh "P" in
  destruct Herr as (e & E & P); rewrite E; exists e;
  split; [reflexivity | exact P].

Ltac fixed_step width name :=
  match goal with
  | |- context [frame (FixedWidth _ :: _) (skipn (Z.to_nat ?o) ?buf)] =>
      let Herr := fresh "Herr" in
      let E := fresh "E" in
      rewrite (frame_fixed_at _ buf o width) by lia;
      destruct (readBytes_cases buf o width name)
        as [[? Herr] | [? E]];
      [ destruct (Z.ltb_spec (Buf.length buf - o) width); [ | lia];
        truncated Herr
      | destruct (Z.ltb_spec (Buf.length buf - o) width); [lia | ];
        rewrite E; cbn [JS.bind] ]
  end.

Ltac prefixed_step name :=
  match goal with
  | |- context [frame (LengthPrefixed :: _) (skipn (Z.to_nat ?o) ?buf)] =>
      let Herr := fresh "Herr" in
      let E := fresh "E" in
      let Hlen := fresh "Hlen" in
      pose proof (readUInt32LE_nonneg buf o);
      rewrite (frame_prefixed_at _ buf o) by lia;
      destruct (decodeLengthPrefixed_cases buf o name)
        as [[? Herr] | [[? [? Herr]] | [? [? E]]]];
      [ destruct (Z.ltb_spec (Buf.length buf - o) 4); [ | lia];
        truncated Herr
      | destruct (Z.ltb_spec (Buf.length buf - o) 4); [lia | ];
        destruct (Z.ltb_spec (Buf.length buf - o - 4)
                    (Buf.readUInt32LE buf o)); [ | lia];
        truncated Herr
      | destruct (Z.ltb_spec (Buf.length buf - o) 4); [lia | ];
        destruct (Z.ltb_spec (Buf.length buf - o - 4)
                    (Buf.readUInt32LE buf o)); [lia | ];
        rewrite E; cbn [JS.bind];
        pose proof (length_slice buf (o + 4) (Buf.readUInt32LE buf o))
          as Hlen;
        rewrite Hlen by lia;
        replace (Z.to_nat (o + 4 + Buf.readUInt32LE buf o))
          with (Z.to_nat (o + (4 + Buf.readUInt32LE buf o))) by lia ]
  end.

Lemma decode_frame (buf : Buffer) :
  match frame fields buf with
  | Truncated => truncationError (decodeViaMessage buf)
  | Complete [] =>
      exists m, decodeViaMessage buf = Ok m /\
                consumed m = Buf.length buf /\ buf = layout m
  | Complete (_ :: _) => trailingError (decodeViaMessage buf)
  end.
Proof.
  pose proof (length_nonneg buf) as HL.
  unfold fields, decodeViaMessage, truncationError, trailingError.
  change (frame ?fs buf) with (frame fs (skipn (Z.to_nat 0) buf)).
  fixed_step 16 "txId".
  fixed_step 8 "sourceChainId".
  fixed_step 8 "destChainId".
  prefixed_step "sender".
  prefixed_step "recipient".
  prefixed_step "onChainData".
  prefixed_step "offChainData".
  cbn [frame].
  set (o3 := 0 + 16 + 8 + 8) in *.
  set (r1 := Buf.readUInt32LE buf o3) in *.
  set (o4 := o3 + (4 + r1)) in *.
  set (r2 := Buf.readUInt32LE buf o4) in *.
  set (o5 := o4 + (4 + r2)) in *.
  set (r3 := Buf.readUInt32LE buf o5) in *.
  set (o6 := o5 + (4 + r3)) in *.
  set (r4 := Buf.readUInt32LE buf o6) in *.
  set (o7 := o6 + (4 + r4)) in *.
  assert (Hrest : Buf.length (skipn (Z.to_nat o7) buf) = Buf.length buf - o7)
    by (apply length_skipn; lia).
  destruct (Z.eqb_spec o7 (Buf.length buf)) as [Heq | Hne]; cbn [negb].
  - destruct (skipn (Z.to_nat o7) buf) as [ | x rest] eqn:Erest;
      [ | unfold Buf.length in *; cbn [List.length] in Hrest; lia].
    eexists. split; [reflexivity | ]. split.
    + unfold consumed.
      cbn [sender recipient onChainData offChainData].
      rewrite Hlen, Hlen0, Hlen1, Hlen2 by lia. lia.
    + unfold layout.
      cbn [txId sourceChainId destChainId sender recipient onChainData
           offChainData].
      rewrite <- (app_nil_r (LP (Buf.slice buf (o6 + 4) (o6 + 4 + r4)))).
      rewrite <- Erest at 1.
      subst o7 r4. rewrite prefixed_slice by lia.
      subst o6 r3. rewrite prefixed_slice by lia.
      subst o5 r2. rewrite prefixed_slice by lia.
      subst o4 r1. rewrite prefixed_slice by lia.
      subst o3.
      pose proof (fixed_slice buf (0 + 16 + 8) 8) as F3.
      pose proof (fixed_slice buf (0 + 16) 8) as F2.
      pose proof (fixed_slice buf 0 16) as F1.
      change (Z.of_nat 8) with 8 in F3, F2.
      change (Z.of_nat 16) with 16 in F1.
      rewrite F3, F2, F1 by lia.
      reflexivity.
  - destruct (skipn (Z.to_nat o7) buf) as [ | x rest] eqn:Erest;
      [change (Buf.length []) with 0 in Hrest; lia | ].
    eexists. split; reflexivity.
Qed.

(** ** The claims on the codec *)

(** C1 (round trip).  For every valid message [m], [encodeViaMessage]
    succeeds and [decodeViaMessage] applied to its result returns [m], field
    by field.  Validity allows the empty byte string in every variable-length
    field and the maximum length in every field. *)
Theorem decode_encode_roundtrip (m : DecodedViaMessage) :
  validMessage m ->
  (encoded <- encodeViaMessage (txId m) (sourceChainId m) (destChainId m)
                (sender m) (recipient m) (onChainData m) (offChainData m) ;;
   decodeViaMessage encoded)%js = Ok m.
Proof.
  intros (Ht & Hs & Hd & Hb).
  assert (Hfit : integersFit m) by (unfold integersFit; lia).
  fold (encode m). rewrite encode_layout by assumption. cbn [JS.bind].
  destruct Hb as (B1 & B2 & B3 & B4).
  rewrite decode_layout by (assumption || lia).
  unfold magnitudes. rewrite !Z.abs_eq by lia. now destruct m.
Qed.

(** C2 (size rejection).  When the three integers fit their widths,
    [encodeViaMessage] throws exactly when some variable-length field
    exceeds its bound; the message of the error names the first offending
    field, its length and the maximum; a message with every field at its
    bound is encoded.  Whatever the input, a successful encoding is the
    full layout of the message: nothing is cut.  Over all inputs the
    encoder throws exactly when a variable-length field exceeds its bound
    or the magnitude of an integer does not fit its width; in the second
    case, with every field within its bound, the error is the one of
    bn.js, which names no field. *)
Theorem encode_rejects_exactly_oversized (m : DecodedViaMessage) :
  (integersFit m ->
   (JS.throws (encode m) <-> oversized m) /\
   (Buf.length (sender m) = 64 -> Buf.length (recipient m) = 64 ->
    Buf.length (onChainData m) = 1024 ->
    Buf.length (offChainData m) = 1024 ->
    encode m = Ok (layout m))) /\
  (Buf.length (sender m) > 64 ->
   encode m =
   Throw (ErrorObj ("Sender too long: " ++
                    JS.showZ (Buf.length (sender m)) ++
                    " bytes (max 64)")%string)) /\
  (Buf.length (sender m) <= 64 -> Buf.length (recipient m) > 64 ->
   encode m =
   Throw (ErrorObj ("Recipient too long: " ++
                    JS.showZ (Buf.length (recipient m)) ++
                    " bytes (max 64)")%string)) /\
  (Buf.length (sender m) <= 64 -> Buf.length (recipient m) <= 64 ->
   Buf.length (onChainData m) > 1024 ->
   encode m =
   Throw (ErrorObj ("On-chain data too large: " ++
                    JS.showZ (Buf.length (onChainData m)) ++
                    " bytes (max 1024)")%string)) /\
  (Buf.length (sender m) <= 64 -> Buf.length (recipient m) <= 64 ->
   Buf.length (onChainData m) <= 1024 ->
   Buf.length (offChainData m) > 1024 ->
   encode m =
   Throw (ErrorObj ("Off-chain data too large: " ++
                    JS.showZ (Buf.length (offChainData m)) ++
                    " bytes (max 1024)")%string)) /\
  (forall encoded, encode m = Ok encoded ->
     encoded = layout m /\ Buf.length encoded = consumed m) /\
  (JS.throws (encode m) <-> oversized m \/ ~ integersFit m) /\
  (withinBounds m -> ~ integersFit m ->
   encode m = Throw (ErrorObj "byte array longer than desired length")).
Proof.
  split; [ | split; [ | split; [ | split; [ | split; [ | split;
    [ | split]]]]]].
  - intros Hfit. split; [split | ].
    + intros [e He]. destruct (bounds_dec m) as [Hb | Ho]; [ | exact Ho].
      rewrite encode_layout in He by assumption. discriminate.
    + apply encode_oversized_throws.
    + intros E1 E2 E3 E4. apply encode_layout; [assumption | ].
      unfold withinBounds. lia.
  - apply encode_sender_too_long.
  - apply encode_recipient_too_long.
  - apply encode_onChainData_too_large.
  - apply encode_offChainData_too_large.
  - intros encoded H. split; [now apply encode_Ok_inv | ].
    apply encode_Ok_inv in H as (-> & _ & _). apply length_layout.
  - split.
    + intros [e He]. destruct (bounds_dec m) as [Hb | Ho]; [ | now left].
      right. intros Hfit. rewrite encode_layout in He by assumption.
      discriminate.
    + intros [Ho | Hfit]; [now apply encode_oversized_throws | ].
      destruct (bounds_dec m) as [Hb | Ho];
        [ | now apply encode_oversized_throws].
      rewrite (encode_integer_too_wide m Hb Hfit). now eexists.
  - apply encode_integer_too_wide.
Qed.

(** C3 (exact consumption).  For every buffer: when fewer bytes remain than
    a fixed-width field needs or than a length prefix needs or declares,
    [decodeViaMessage] throws a "Buffer too short" error; when all seven
    fields are read and bytes remain, it throws a "Buffer has extra data"
    error; it returns a message only for a buffer that its fields fill
    exactly, and then the bytes consumed are the length of the buffer. *)
Theorem decodeViaMessage_consumes_exactly (buf : Buffer) :
  (frame fields buf = Truncated ->
   exists e, decodeViaMessage buf = Throw e /\ isTruncatedBuffer e = true) /\
  (forall rest, frame fields buf = Complete rest -> rest <> [] ->
   exists e, decodeViaMessage buf = Throw e /\ isTrailingBytes e = true) /\
  (forall m, decodeViaMessage buf = Ok m ->
   frame fields buf = Complete [] /\
   consumed m = Buf.length buf /\ buf = layout m).
Proof.
  pose proof (decode_frame buf) as H.
  destruct (frame fields buf) as [ | [ | x rest]].
  - split; [intros _; exact H | ].
    destruct H as (e & E & _).
    split; [discriminate | intros m Hm; congruence].
  - destruct H as (m & E & Hc & Hl).
    split; [discriminate | ].
    split; [intros rest [= <-] Hne; now contradiction Hne | ].
    intros m' Hm. assert (m' = m) as -> by congruence. auto.
  - split; [discriminate | ].
    split; [intros rest' _ _; exact H | ].
    destruct H as (e & E & _). intros m Hm. congruence.
Qed.



(** ** What else the codec does *)

Lemma equals_refl (b : Buffer) : Buf.equals b b = true.
Proof.
  unfold Buf.equals.
  destruct (list_eq_dec Byte.byte_eq_dec b b) as [_ | Hne];
    [reflexivity | now contradiction Hne].
Qed.

Lemma equals_true (a b : Buffer) : Buf.equals a b = true -> a = b.
Proof.
  unfold Buf.equals.
  destruct (list_eq_dec Byte.byte_eq_dec a b) as [E | _];
    [intros _; exact E | discriminate].
Qed.

Lemma ofBuffer_le_slice_bound (buf : Buffer) (off : Z) (n : nat) :
  0 <= BN.ofBuffer_le (Buf.slice buf off (off + Z.of_nat n))
    < 2 ^ (8 * Z.of_nat n).
Proof.
  unfold BN.ofBuffer_le.
  pose proof (le_combine_bound (Buf.slice buf off (off + Z.of_nat n)))
    as [H0 H1].
  split; [exact H0 | ].
  eapply Z.lt_le_trans; [exact H1 | ].
  apply Z.pow_le_mono_r; [lia | ].
  rewrite slice_as_remaining, List.length_firstn. lia.
Qed.

(** The integers of a decoded message are read from 16, 8 and 8 bytes. *)
Lemma decode_Ok_integers (buf : Buffer) (m : DecodedViaMessage) :
  decodeViaMessage buf = Ok m ->
  0 <= txId m < 2 ^ 128 /\ 0 <= sourceChainId m < 2 ^ 64 /\
  0 <= destChainId m < 2 ^ 64.
Proof.
  unfold decodeViaMessage, readBytes. intros H.
  repeat match type of H with
         | context [if ?c then _ else _] =>
             destruct c; cbn [JS.bind] in H; [discriminate | ]
         | context [JS.bind ?c _] =>
             destruct c; cbn [JS.bind] in H; [ | discriminate]
         end.
  injection H as <-. cbn [txId sourceChainId destChainId].
  split; [apply (ofBuffer_le_slice_bound buf 0 16) | ].
  split; [apply (ofBuffer_le_slice_bound buf (0 + 16) 8) | ].
  apply (ofBuffer_le_slice_bound buf (0 + 16 + 8) 8).
Qed.

Lemma decode_Ok_layout (buf : Buffer) (m : DecodedViaMessage) :
  decodeViaMessage buf = Ok m -> buf = layout m.
Proof.
  intros H. pose proof (decode_frame buf) as F.
  destruct (frame fields buf) as [ | [ | x rest]].
  - destruct F as (e & He & _). congruence.
  - destruct F as (m' & Hm' & _ & Hl). congruence.
  - destruct F as (e & He & _). congruence.
Qed.

Lemma magnitudes_nonneg (m : DecodedViaMessage) :
  0 <= txId m -> 0 <= sourceChainId m -> 0 <= destChainId m ->
  magnitudes m = m.
Proof.
  intros H1 H2 H3. destruct m as [t s d a b c e]. unfold magnitudes.
  cbn in *. now rewrite !Z.abs_eq by assumption.
Qed.

Lemma withinBounds_u32 (m : DecodedViaMessage) :
  withinBounds m ->
  Buf.length (sender m) < 2 ^ 32 /\ Buf.length (recipient m) < 2 ^ 32 /\
  Buf.length (onChainData m) < 2 ^ 32 /\
  Buf.length (offChainData m) < 2 ^ 32.
Proof. unfold withinBounds. change (2 ^ 32) with 4294967296. lia. Qed.

Lemma roundtrip_magnitudes (m : DecodedViaMessage) :
  integersFit m -> withinBounds m ->
  (encoded <- encode m ;; decodeViaMessage encoded)%js = Ok (magnitudes m).
Proof.
  intros Hfit Hb. rewrite encode_layout by assumption. cbn [JS.bind].
  destruct (withinBounds_u32 m Hb) as (H1 & H2 & H3 & H4).
  now apply decode_layout.
Qed.


(** X1 (validateMessageEncoding).  [validateMessageEncoding] answers [true]
    exactly for the valid messages of the data model: integers that are
    not negative and fit 128, 64 and 64 bits, sender and recipient of at
    most 64 bytes, payloads of at most 1024 bytes.  For every other input
    it answers [false]; it never throws. *)
Theorem validateMessageEncoding_accepts_exactly_valid
    (m : DecodedViaMessage) :
  validateMessageEncoding (txId m) (sourceChainId m) (destChainId m)
    (sender m) (recipient m) (onChainData m) (offChainData m) = true <->
  validMessage m.
Proof.
  unfold validateMessageEncoding.
  change (encodeViaMessage (txId m) (sourceChainId m) (destChainId m)
            (sender m) (recipient m) (onChainData m) (offChainData m))
    with (encode m).
  split.
  - intros H.
    destruct (encode m) as [encoded | e] eqn:E; [ | discriminate].
    apply encode_Ok_inv in E. destruct E as (-> & Hfit & Hb).
    destruct (withinBounds_u32 m Hb) as (H1 & H2 & H3 & H4).
    cbn [JS.bind] in H. rewrite (decode_layout m Hfit H1 H2 H3 H4) in H.
    cbn [JS.bind magnitudes txId sourceChainId destChainId] in H.
    repeat (apply andb_true_iff in H; destruct H as [H ?]).
    unfold BN.eq in *. destruct Hfit as (F1 & F2 & F3).
    repeat match goal with
           | E : (_ =? _) = true |- _ => apply Z.eqb_eq in E
           end.
    unfold validMessage. repeat split; try lia; apply Hb.
  - intros (Ht & Hs & Hd & Hb).
    assert (Hfit : integersFit m) by (unfold integersFit; lia).
    rewrite encode_layout by assumption. cbn [JS.bind].
    destruct (withinBounds_u32 m Hb) as (H1 & H2 & H3 & H4).
    rewrite (decode_layout m Hfit H1 H2 H3 H4).
    rewrite magnitudes_nonneg by lia. cbn [JS.bind]. unfold BN.eq.
    now rewrite !Z.eqb_refl, !equals_refl.
Qed.

(** X2 (decode, then encode).  A message that [decodeViaMessage] returns
    has integers that fit their widths; when its variable-length fields
    are within the bounds of the encoder, [encodeViaMessage] gives back
    the decoded buffer byte for byte, and otherwise the encoder refuses
    the message. *)
Theorem decoded_message_reencodes (buf : Buffer) (m : DecodedViaMessage) :
  decodeViaMessage buf = Ok m ->
  (0 <= txId m < 2 ^ 128 /\ 0 <= sourceChainId m < 2 ^ 64 /\
   0 <= destChainId m < 2 ^ 64) /\
  (withinBounds m -> encode m = Ok buf) /\
  (oversized m -> JS.throws (encode m)).
Proof.
  intros H. pose proof (decode_Ok_integers buf m H) as Hint.
  split; [exact Hint | ]. split.
  - intros Hb. rewrite (decode_Ok_layout buf m H).
    apply encode_layout; [unfold integersFit; lia | exact Hb].
  - apply encode_oversized_throws.
Qed.

(** X3 (no size bound when decoding).  [decodeViaMessage] checks no field
    against the bounds of the encoder: the canonical layout of any
    message with integers in range and fields shorter than [2^32] bytes
    decodes to that message, also when a field is over its bound and
    [encodeViaMessage] refuses the message. *)
Theorem decodeViaMessage_applies_no_size_bound (m : DecodedViaMessage) :
  0 <= txId m < 2 ^ 128 -> 0 <= sourceChainId m < 2 ^ 64 ->
  0 <= destChainId m < 2 ^ 64 ->
  Buf.length (sender m) < 2 ^ 32 -> Buf.length (recipient m) < 2 ^ 32 ->
  Buf.length (onChainData m) < 2 ^ 32 ->
  Buf.length (offChainData m) < 2 ^ 32 ->
  decodeViaMessage (layout m) = Ok m /\
  (oversized m -> JS.throws (encode m)).
Proof.
  intros Ht Hs Hd H1 H2 H3 H4. split.
  - rewrite decode_layout by (assumption || (unfold integersFit; lia)).
    now rewrite magnitudes_nonneg by lia.
  - apply encode_oversized_throws.
Qed.

(** X4 (one encoding, one message).  Two messages that
    [encodeViaMessage] encodes to the same bytes have the same fields,
    the integers compared by magnitude; two valid messages with the same
    encoding are the same message. *)
Theorem encodeViaMessage_injective (m1 m2 : DecodedViaMessage)
    (encoded : Buffer) :
  encode m1 = Ok encoded -> encode m2 = Ok encoded ->
  magnitudes m1 = magnitudes m2 /\
  (validMessage m1 -> validMessage m2 -> m1 = m2).
Proof.
  intros E1 E2.
  apply encode_Ok_inv in E1, E2.
  destruct E1 as (L1 & F1 & B1), E2 as (L2 & F2 & B2).
  assert (Hm : magnitudes m1 = magnitudes m2).
  { destruct (withinBounds_u32 m1 B1) as (? & ? & ? & ?).
    destruct (withinBounds_u32 m2 B2) as (? & ? & ? & ?).
    assert (D1 : decodeViaMessage encoded = Ok (magnitudes m1))
      by (rewrite L1; now apply decode_layout).
    assert (D2 : decodeViaMessage encoded = Ok (magnitudes m2))
      by (rewrite L2; now apply decode_layout).
    congruence. }
  split; [exact Hm | ].
  intros (T1 & S1 & D1 & _) (T2 & S2 & D2 & _).
  rewrite <- (magnitudes_nonneg m1), <- (magnitudes_nonneg m2) by lia.
  exact Hm.
Qed.

(** X5 (the sign of an integer is not encoded).  For integers whose
    magnitudes fit their widths, negative ones included, encoding and
    then decoding returns the message with every integer replaced by its
    magnitude, and the message and that one have the same encoding. *)
Theorem roundtrip_returns_magnitudes (m : DecodedViaMessage) :
  integersFit m -> withinBounds m ->
  (encoded <- encode m ;; decodeViaMessage encoded)%js = Ok (magnitudes m) /\
  encode (magnitudes m) = encode m.
Proof.
  intros Hfit Hb. split; [now apply roundtrip_magnitudes | ].
  assert (Hfit' : integersFit (magnitudes m)).
  { destruct Hfit as (F1 & F2 & F3). unfold integersFit, magnitudes.
    cbn [txId sourceChainId destChainId].
    now rewrite !(Z.abs_eq (Z.abs _)) by apply Z.abs_nonneg. }
  rewrite (encode_layout m Hfit Hb), (encode_layout (magnitudes m) Hfit' Hb).
  unfold layout, magnitudes.
  cbn [txId sourceChainId destChainId sender recipient onChainData
       offChainData].
  now rewrite !(Z.abs_eq (Z.abs _)) by apply Z.abs_nonneg.
Qed.

(** X6 (length prefix).  For data shorter than [2^32] bytes,
    [encodeLengthPrefixed] yields four bytes and then the data, and
    [decodeLengthPrefixed] reads the data back from the offset where that
    encoding starts, whatever precedes and follows it in the buffer. *)
Theorem lengthPrefixed_roundtrip (data pre post : Buffer) (name : string) :
  Buf.length data <= 4294967295 ->
  exists framed,
    encodeLengthPrefixed data = Ok framed /\
    Buf.length framed = 4 + Buf.length data /\
    decodeLengthPrefixed (pre ++ framed ++ post) (Buf.length pre) name =
    Ok data.
Proof.
  intros H. exists (LP data).
  split; [now apply encodeLengthPrefixed_ok | ].
  split; [apply length_LP | ].
  apply (decodeLengthPrefixed_at _ pre data post); try reflexivity.
  change (2 ^ 32) with 4294967296. lia.
Qed.

End EncodingFacts.

(* ===================================================================== *)
(** * The message hash                                                     *)
(* ===================================================================== *)

Module SignaturesFacts.
Import Encoding Spec Signatures BufFacts EncodingFacts.

(** Two digests of the Keccak team's test vectors: the empty message and
    "abc". *)
Example keccak_256_empty :
  keccak_256 [] =
  "c5d2460186f7233c927e7db2dcc703c0e500b653ca82273b7bfad8045d85a470".
Proof. vm_compute. reflexivity. Qed.

Example keccak_256_abc :
  keccak_256 (Buf.fromString "abc") =
  "4e03657aea45a94fc7d47ba826c8d667c0d1e6e33a64a036ec44f58fa12d6c45".
Proof. vm_compute. reflexivity. Qed.

Lemma length_keccak256 (data : Buffer) :
  Buf.length (Keccak.keccak256 data) = 32.
Proof.
  unfold Buf.length, Keccak.keccak256. cbn [seq map List.concat].
  rewrite !List.length_app, !LittleEndianList.length_le_split. reflexivity.
Qed.

(** The hexadecimal text js-sha3 returns, read back by [Buffer.from], is
    the digest. *)
Lemma createMessageHash_unfold (m : DecodedViaMessage) :
  createMessageHash (txId m) (sourceChainId m) (destChainId m)
    (sender m) (recipient m) (onChainData m) (offChainData m) =
  (encoded <- encode m ;; Ok (Keccak.keccak256 encoded))%js.
Proof.
  unfold createMessageHash, keccak_256, encode.
  destruct (encodeViaMessage _ _ _ _ _ _ _); [ | reflexivity].
  cbn [JS.bind]. now rewrite fromHex_toHex.
Qed.

(** C4 (message hash).  For every valid message [m], [createMessageHash]
    returns the Keccak-256 digest of [encodeViaMessage(m)], which is 32
    bytes long; two calls whose arguments have equal values (numbers equal
    by [eq], buffers with equal bytes) return identical results. *)
Theorem createMessageHash_keccak_of_encoding (m : DecodedViaMessage) :
  validMessage m ->
  (exists encoded,
     encode m = Ok encoded /\
     createMessageHash (txId m) (sourceChainId m) (destChainId m)
       (sender m) (recipient m) (onChainData m) (offChainData m) =
     Ok (Keccak.keccak256 encoded) /\
     Buf.length (Keccak.keccak256 encoded) = 32) /\
  (forall m' : DecodedViaMessage,
     BN.eq (txId m') (txId m) = true ->
     BN.eq (sourceChainId m') (sourceChainId m) = true ->
     BN.eq (destChainId m') (destChainId m) = true ->
     sender m' = sender m -> recipient m' = recipient m ->
     onChainData m' = onChainData m -> offChainData m' = offChainData m ->
     createMessageHash (txId m') (sourceChainId m') (destChainId m')
       (sender m') (recipient m') (onChainData m') (offChainData m') =
     createMessageHash (txId m) (sourceChainId m) (destChainId m)
       (sender m) (recipient m) (onChainData m) (offChainData m)).
Proof.
  intros (Ht & Hs & Hd & Hb). split.
  - exists (layout m).
    assert (E : encode m = Ok (layout m))
      by (apply encode_layout; [unfold integersFit; lia | assumption]).
    split; [exact E | ].
    split; [ | apply length_keccak256].
    now rewrite createMessageHash_unfold, E.
  - intros m' E1 E2 E3 -> -> -> ->.
    apply Z.eqb_eq in E1, E2, E3. now rewrite E1, E2, E3.
Qed.

End SignaturesFacts.

(* ===================================================================== *)
(** * Address seeds                                                        *)
(* ===================================================================== *)

Module PdasFacts.
Import Types Constants Pdas Spec BNFacts.
Local Open Scope list_scope.

Lemma validateChainId_ok (chainId : Z) :
  0 <= chainId -> validateChainId chainId = Ok tt.
Proof.
  intros H. unfold validateChainId, BN.isNeg.
  destruct (Z.ltb_spec chainId 0); [lia | reflexivity].
Qed.

Lemma validateTxId_ok (txId : Z) : 0 <= txId -> validateTxId txId = Ok tt.
Proof.
  intros H. unfold validateTxId, BN.isNeg.
  destruct (Z.ltb_spec txId 0); [lia | reflexivity].
Qed.

Lemma toArrayLike_le_unsigned (v : Z) (n : nat) :
  0 <= v < 2 ^ (8 * Z.of_nat n) -> BN.toArrayLike_le v n = Ok (le_split n v).
Proof.
  intros H. rewrite toArrayLike_le_fits; rewrite Z.abs_eq; tauto || lia.
Qed.

Section WithWeb3.
Variable findProgramAddressSync :
  list Buffer -> PublicKey -> completion (PublicKey * Z).
Variable programId : PublicKey.

Abbreviation getGatewayPda := (getGatewayPda findProgramAddressSync programId).
Abbreviation getSignerRegistryPda :=
  (getSignerRegistryPda findProgramAddressSync programId).
Abbreviation getTxIdPda := (getTxIdPda findProgramAddressSync programId).
Abbreviation getCounterPda := (getCounterPda findProgramAddressSync programId).
Abbreviation derived := (address findProgramAddressSync).

Lemma getGatewayPda_seeds (chainId : Z) :
  0 <= chainId < 2 ^ 64 ->
  getGatewayPda chainId =
  derived [Buf.fromString "gateway"; le_split 8 chainId] programId.
Proof.
  intros H. unfold Pdas.getGatewayPda, CHAIN_ID_BYTES.
  rewrite validateChainId_ok by lia.
  rewrite toArrayLike_le_unsigned by exact H. reflexivity.
Qed.

Lemma getCounterPda_seeds (chainId : Z) :
  0 <= chainId < 2 ^ 64 ->
  getCounterPda chainId =
  derived [Buf.fromString "counter"; le_split 8 chainId] programId.
Proof.
  intros H. unfold Pdas.getCounterPda, CHAIN_ID_BYTES.
  rewrite validateChainId_ok by lia.
  rewrite toArrayLike_le_unsigned by exact H. reflexivity.
Qed.

Lemma getSignerRegistryPda_seeds (registryType : string)
    (discriminant chainId : Z) :
  registryTypeToDiscriminant registryType = Ok discriminant ->
  0 <= chainId < 2 ^ 64 ->
  getSignerRegistryPda registryType chainId =
  derived [Buf.fromString "signer_registry"; [byte.of_Z discriminant];
           le_split 8 chainId] programId.
Proof.
  intros Hd H. unfold Pdas.getSignerRegistryPda, CHAIN_ID_BYTES.
  rewrite validateChainId_ok by lia. rewrite Hd.
  rewrite toArrayLike_le_unsigned by exact H. reflexivity.
Qed.

Lemma getTxIdPda_seeds (sourceChainId txId : Z) :
  0 <= sourceChainId < 2 ^ 64 -> 0 <= txId < 2 ^ 128 ->
  getTxIdPda sourceChainId txId =
  derived [Buf.fromString "tx"; le_split 8 sourceChainId;
           le_split 16 txId] programId.
Proof.
  intros Hc Ht. unfold Pdas.getTxIdPda, CHAIN_ID_BYTES, TX_ID_BYTES.
  rewrite validateChainId_ok, validateTxId_ok by lia.
  rewrite !toArrayLike_le_unsigned by assumption. reflexivity.
Qed.

(** C9 (seed grammar).  For every chain identifier below [2^64] and
    transaction identifier below [2^128]: the signer registry address is
    derived from the seeds "signer_registry", one discriminant byte (0 for
    "via", 1 for "chain", 2 for "project") and the chain identifier as 8
    little-endian bytes; the replay-guard address from "tx", the source
    chain as 8 and the transaction identifier as 16 little-endian bytes;
    the gateway address from "gateway" and the chain as 8 little-endian
    bytes; and each resolver returns the same result for equal inputs. *)
Theorem resolvers_seed_grammar (chainId txId : Z) :
  0 <= chainId < 2 ^ 64 -> 0 <= txId < 2 ^ 128 ->
  getSignerRegistryPda "via" chainId =
    derived [Buf.fromString "signer_registry"; [Byte.x00];
             le_split 8 chainId] programId /\
  getSignerRegistryPda "chain" chainId =
    derived [Buf.fromString "signer_registry"; [Byte.x01];
             le_split 8 chainId] programId /\
  getSignerRegistryPda "project" chainId =
    derived [Buf.fromString "signer_registry"; [Byte.x02];
             le_split 8 chainId] programId /\
  getTxIdPda chainId txId =
    derived [Buf.fromString "tx"; le_split 8 chainId; le_split 16 txId]
      programId /\
  getGatewayPda chainId =
    derived [Buf.fromString "gateway"; le_split 8 chainId] programId /\
  (forall registryType chainId' txId',
     BN.eq chainId' chainId = true -> BN.eq txId' txId = true ->
     getSignerRegistryPda registryType chainId' =
       getSignerRegistryPda registryType chainId /\
     getTxIdPda chainId' txId' = getTxIdPda chainId txId /\
     getGatewayPda chainId' = getGatewayPda chainId).
Proof.
  intros Hc Ht.
  split; [now apply (getSignerRegistryPda_seeds "via" 0) | ].
  split; [now apply (getSignerRegistryPda_seeds "chain" 1) | ].
  split; [now apply (getSignerRegistryPda_seeds "project" 2) | ].
  split; [now apply getTxIdPda_seeds | ].
  split; [now apply getGatewayPda_seeds | ].
  intros registryType chainId' txId' E1 E2.
  apply Z.eqb_eq in E1, E2. now subst.
Qed.


(** ** The other resolvers, and what the resolvers refuse *)

Abbreviation getTxCounterPda :=
  (Pdas.getTxCounterPda findProgramAddressSync programId).

Lemma validateChainId_negative (chainId : Z) :
  chainId < 0 ->
  validateChainId chainId =
  Throw (ErrorObj ("Invalid chain ID: " ++ JS.showZ chainId)%string).
Proof.
  intros H. unfold validateChainId, BN.isNeg.
  destruct (Z.ltb_spec chainId 0); [reflexivity | lia].
Qed.

Lemma validateTxId_negative (txId : Z) :
  txId < 0 ->
  validateTxId txId =
  Throw (ErrorObj ("Invalid TX ID: " ++ JS.showZ txId)%string).
Proof.
  intros H. unfold validateTxId, BN.isNeg.
  destruct (Z.ltb_spec txId 0); [reflexivity | lia].
Qed.

Lemma getTxCounterPda_seeds (chainId : Z) :
  0 <= chainId < 2 ^ 64 ->
  getTxCounterPda chainId =
  derived [Buf.fromString "tx_counter"; le_split 8 chainId] programId.
Proof.
  intros H. unfold Pdas.getTxCounterPda, CHAIN_ID_BYTES.
  rewrite validateChainId_ok by lia.
  rewrite toArrayLike_le_unsigned by exact H. reflexivity.
Qed.

(** X7 (negative identifiers).  A negative chain identifier makes each of
    the five resolvers keyed by a chain throw "Invalid chain ID: " and
    the identifier, whatever the registry type or transaction identifier
    and without any derivation; a negative transaction identifier makes
    [getTxIdPda] and [deriveDecodedMessagePda] throw "Invalid TX ID: "
    and the identifier. *)
Theorem resolvers_refuse_negative_identifiers (chainId txId : Z) :
  chainId < 0 -> txId < 0 ->
  let invalidChain : completion PublicKey :=
    Throw (ErrorObj ("Invalid chain ID: " ++ JS.showZ chainId)%string) in
  getGatewayPda chainId = invalidChain /\
  getCounterPda chainId = invalidChain /\
  getTxCounterPda chainId = invalidChain /\
  (forall registryType,
     getSignerRegistryPda registryType chainId = invalidChain) /\
  (forall anyTxId, getTxIdPda chainId anyTxId = invalidChain) /\
  (forall sourceChainId,
     0 <= sourceChainId ->
     getTxIdPda sourceChainId txId =
     Throw (ErrorObj ("Invalid TX ID: " ++ JS.showZ txId)%string)) /\
  (forall clientProgramId,
     deriveDecodedMessagePda findProgramAddressSync txId clientProgramId =
     Throw (ErrorObj ("Invalid TX ID: " ++ JS.showZ txId)%string)).
Proof.
  intros Hc Ht invalidChain. subst invalidChain.
  unfold Pdas.getGatewayPda, Pdas.getCounterPda, Pdas.getTxCounterPda,
    Pdas.getSignerRegistryPda, Pdas.getTxIdPda, deriveDecodedMessagePda.
  rewrite (validateChainId_negative chainId Hc).
  rewrite (validateTxId_negative txId Ht).
  repeat split; try reflexivity.
  intros sourceChainId Hs. now rewrite validateChainId_ok.
Qed.

(** X8 (identifiers that are too wide).  [validateChainId] and
    [validateTxId] accept every integer that is not negative; a chain
    identifier from [2^64] on, or a transaction identifier from [2^128]
    on, is refused only by bn.js, whose error "byte array longer than
    desired length" names neither the field nor the value. *)
Theorem resolvers_leave_width_to_bn (chainId txId : Z) :
  2 ^ 64 <= chainId -> 2 ^ 128 <= txId ->
  let tooLong : completion PublicKey :=
    Throw (ErrorObj "byte array longer than desired length") in
  validateChainId chainId = Ok tt /\ validateTxId txId = Ok tt /\
  getGatewayPda chainId = tooLong /\
  getCounterPda chainId = tooLong /\
  getTxCounterPda chainId = tooLong /\
  getSignerRegistryPda "via" chainId = tooLong /\
  getSignerRegistryPda "chain" chainId = tooLong /\
  getSignerRegistryPda "project" chainId = tooLong /\
  (forall anyTxId, 0 <= anyTxId -> getTxIdPda chainId anyTxId = tooLong) /\
  (forall sourceChainId,
     0 <= sourceChainId < 2 ^ 64 ->
     getTxIdPda sourceChainId txId = tooLong).
Proof.
  intros Hc Ht tooLong. subst tooLong.
  assert (Hc0 : 0 <= chainId) by lia.
  assert (Ht0 : 0 <= txId) by lia.
  assert (Ec : BN.toArrayLike_le chainId 8 =
               Throw (ErrorObj "byte array longer than desired length"))
    by (apply toArrayLike_le_too_long; rewrite Z.abs_eq by lia; exact Hc).
  assert (Et : BN.toArrayLike_le txId 16 =
               Throw (ErrorObj "byte array longer than desired length"))
    by (apply toArrayLike_le_too_long; rewrite Z.abs_eq by lia; exact Ht).
  unfold Pdas.getGatewayPda, Pdas.getCounterPda, Pdas.getTxCounterPda,
    Pdas.getSignerRegistryPda, Pdas.getTxIdPda, CHAIN_ID_BYTES, TX_ID_BYTES.
  rewrite (validateChainId_ok chainId Hc0), (validateTxId_ok txId Ht0), Ec.
  repeat split; try reflexivity.
  - intros anyTxId H. now rewrite validateTxId_ok.
  - intros sourceChainId H.
    rewrite validateChainId_ok by lia.
    rewrite toArrayLike_le_unsigned by exact H. cbn [JS.bind].
    now rewrite Et.
Qed.

(** X9 (seeds of the other resolvers).  For a chain identifier below
    [2^64] the counter of incoming messages is derived from "counter" and
    the identifier as 8 little-endian bytes, the counter of outgoing
    messages from "tx_counter" and the same bytes, both under the gateway
    program; the fee and gas resolvers derive, under the handler program
    they are given, from their tag and the 32 bytes of the gateway key,
    followed for the client configurations by the 32 bytes of the client
    program. *)
Theorem other_resolvers_seed_grammar (chainId : Z)
    (gatewayKey clientProgramId handlerProgramId : PublicKey) :
  0 <= chainId < 2 ^ 64 ->
  getCounterPda chainId =
    derived [Buf.fromString "counter"; le_split 8 chainId] programId /\
  getTxCounterPda chainId =
    derived [Buf.fromString "tx_counter"; le_split 8 chainId] programId /\
  getFeeConfigPda findProgramAddressSync gatewayKey handlerProgramId =
    derived [Buf.fromString "fee_config"; toBuffer gatewayKey]
      handlerProgramId /\
  getClientFeeConfigPda findProgramAddressSync gatewayKey clientProgramId
    handlerProgramId =
    derived [Buf.fromString "client_fee_config"; toBuffer gatewayKey;
             toBuffer clientProgramId] handlerProgramId /\
  getGasConfigPda findProgramAddressSync gatewayKey handlerProgramId =
    derived [Buf.fromString "gas_config"; toBuffer gatewayKey]
      handlerProgramId /\
  getClientGasConfigPda findProgramAddressSync gatewayKey clientProgramId
    handlerProgramId =
    derived [Buf.fromString "client_gas_config"; toBuffer gatewayKey;
             toBuffer clientProgramId] handlerProgramId /\
  getGasPoolPda findProgramAddressSync gatewayKey handlerProgramId =
    derived [Buf.fromString "gas_pool"; toBuffer gatewayKey]
      handlerProgramId.
Proof.
  intros H.
  split; [now apply getCounterPda_seeds | ].
  split; [now apply getTxCounterPda_seeds | ].
  repeat split.
Qed.


(** ** The seeds of different inputs and of different roles *)

Lemma toArrayLike_le_Ok_unsigned (v : Z) (n : nat) (b : Buffer) :
  0 <= v -> BN.toArrayLike_le v n = Ok b ->
  b = le_split n v /\ 0 <= v < 2 ^ (8 * Z.of_nat n).
Proof.
  intros Hv H. apply toArrayLike_le_inv in H.
  rewrite Z.abs_eq in H by exact Hv. destruct H as [-> H]. split; [ | lia].
  reflexivity.
Qed.

Lemma validateChainId_inv (chainId : Z) :
  validateChainId chainId = Ok tt -> 0 <= chainId.
Proof.
  unfold validateChainId, BN.isNeg.
  destruct (Z.ltb_spec chainId 0); [discriminate | lia].
Qed.

Lemma validateTxId_inv (txId : Z) : validateTxId txId = Ok tt -> 0 <= txId.
Proof.
  unfold validateTxId, BN.isNeg.
  destruct (Z.ltb_spec txId 0); [discriminate | lia].
Qed.

Lemma le_split_inj (n : nat) (a b : Z) :
  0 <= a < 2 ^ (8 * Z.of_nat n) -> 0 <= b < 2 ^ (8 * Z.of_nat n) ->
  le_split n a = le_split n b -> a = b.
Proof.
  intros Ha Hb E. apply (f_equal le_combine) in E.
  rewrite !le_combine_split in E.
  rewrite !Z.mod_small in E by (rewrite Z.mul_comm; assumption).
  exact E.
Qed.

(** What a resolver that returns an address has passed to the
    derivation. *)
Lemma derived_inv (seeds : list Buffer) (owner a : PublicKey) :
  derived seeds owner = Ok a ->
  exists bump, findProgramAddressSync seeds owner = Ok (a, bump).
Proof.
  unfold address.
  destruct (findProgramAddressSync seeds owner) as [[pda bump] | ];
    [ | discriminate].
  cbn. intros [= <-]. now exists bump.
Qed.

Lemma chain_keyed_inv (tag : string) (chainId : Z) (a : PublicKey) :
  (_ <- validateChainId chainId ;;
   idBytes <- BN.toArrayLike_le chainId CHAIN_ID_BYTES ;;
   '(pda, _) <-
     findProgramAddressSync [Buf.fromString tag; idBytes] programId ;;
   Ok pda)%js = Ok a ->
  0 <= chainId < 2 ^ 64 /\
  exists bump,
    findProgramAddressSync [Buf.fromString tag; le_split 8 chainId]
      programId = Ok (a, bump).
Proof.
  intros H.
  destruct (validateChainId chainId) as [[] | ] eqn:V; [ | discriminate].
  apply validateChainId_inv in V. cbn [JS.bind] in H.
  destruct (BN.toArrayLike_le chainId CHAIN_ID_BYTES) as [b | ] eqn:B;
    [ | discriminate].
  apply (toArrayLike_le_Ok_unsigned _ _ _ V) in B. destruct B as [-> R].
  split; [exact R | ]. now apply derived_inv.
Qed.

Lemma getGatewayPda_inv (chainId : Z) (a : PublicKey) :
  getGatewayPda chainId = Ok a ->
  0 <= chainId < 2 ^ 64 /\
  exists bump,
    findProgramAddressSync [Buf.fromString "gateway"; le_split 8 chainId]
      programId = Ok (a, bump).
Proof. apply chain_keyed_inv. Qed.

Lemma getCounterPda_inv (chainId : Z) (a : PublicKey) :
  getCounterPda chainId = Ok a ->
  0 <= chainId < 2 ^ 64 /\
  exists bump,
    findProgramAddressSync [Buf.fromString "counter"; le_split 8 chainId]
      programId = Ok (a, bump).
Proof. apply chain_keyed_inv. Qed.

Lemma getTxCounterPda_inv (chainId : Z) (a : PublicKey) :
  getTxCounterPda chainId = Ok a ->
  0 <= chainId < 2 ^ 64 /\
  exists bump,
    findProgramAddressSync
      [Buf.fromString "tx_counter"; le_split 8 chainId] programId =
    Ok (a, bump).
Proof. apply chain_keyed_inv. Qed.

Lemma registryTypeToDiscriminant_inv (registryType : string) (d : Z) :
  registryTypeToDiscriminant registryType = Ok d ->
  (registryType = "via" /\ d = 0) \/ (registryType = "chain" /\ d = 1) \/
  (registryType = "project" /\ d = 2).
Proof.
  unfold registryTypeToDiscriminant.
  destruct (String.eqb_spec registryType "via") as [-> | _];
    [intros [= <-]; tauto | ].
  destruct (String.eqb_spec registryType "chain") as [-> | _];
    [intros [= <-]; tauto | ].
  destruct (String.eqb_spec registryType "project") as [-> | _];
    [intros [= <-]; tauto | discriminate].
Qed.

Lemma getSignerRegistryPda_inv (registryType : string) (chainId : Z)
    (a : PublicKey) :
  getSignerRegistryPda registryType chainId = Ok a ->
  0 <= chainId < 2 ^ 64 /\
  exists d bump,
    registryTypeToDiscriminant registryType = Ok d /\
    findProgramAddressSync
      [Buf.fromString "signer_registry"; [byte.of_Z d];
       le_split 8 chainId] programId = Ok (a, bump).
Proof.
  unfold Pdas.getSignerRegistryPda. intros H.
  destruct (validateChainId chainId) as [[] | ] eqn:V; [ | discriminate].
  apply validateChainId_inv in V. cbn [JS.bind] in H.
  destruct (registryTypeToDiscriminant registryType) as [d | ] eqn:D;
    [ | discriminate].
  cbn [JS.bind] in H.
  destruct (BN.toArrayLike_le chainId CHAIN_ID_BYTES) as [b | ] eqn:B;
    [ | discriminate].
  apply (toArrayLike_le_Ok_unsigned _ _ _ V) in B. destruct B as [-> R].
  split; [exact R | ]. exists d.
  destruct (derived_inv _ _ _ H) as [bump Hb]. now exists bump.
Qed.

Lemma getTxIdPda_inv (sourceChainId txId : Z) (a : PublicKey) :
  getTxIdPda sourceChainId txId = Ok a ->
  0 <= sourceChainId < 2 ^ 64 /\ 0 <= txId < 2 ^ 128 /\
  exists bump,
    findProgramAddressSync
      [Buf.fromString "tx"; le_split 8 sourceChainId; le_split 16 txId]
      programId = Ok (a, bump).
Proof.
  unfold Pdas.getTxIdPda. intros H.
  destruct (validateChainId sourceChainId) as [[] | ] eqn:V;
    [ | discriminate].
  apply validateChainId_inv in V. cbn [JS.bind] in H.
  destruct (validateTxId txId) as [[] | ] eqn:V'; [ | discriminate].
  apply validateTxId_inv in V'. cbn [JS.bind] in H.
  destruct (BN.toArrayLike_le sourceChainId CHAIN_ID_BYTES) as [b | ] eqn:B;
    [ | discriminate].
  apply (toArrayLike_le_Ok_unsigned _ _ _ V) in B. destruct B as [-> R].
  cbn [JS.bind] in H.
  destruct (BN.toArrayLike_le txId TX_ID_BYTES) as [b' | ] eqn:B';
    [ | discriminate].
  apply (toArrayLike_le_Ok_unsigned _ _ _ V') in B'. destruct B' as [-> R'].
  split; [exact R | ]. split; [exact R' | ]. now apply derived_inv.
Qed.

(** What reaches the derivation is what the resolver returns. *)
Lemma derived_of (seeds : list Buffer) (owner a : PublicKey) (bump : Z) :
  findProgramAddressSync seeds owner = Ok (a, bump) ->
  derived seeds owner = Ok a.
Proof. intros H. unfold address. now rewrite H. Qed.

Lemma chain_seed_differs (c1 c2 : Z) :
  0 <= c1 < 2 ^ 64 -> 0 <= c2 < 2 ^ 64 -> c1 <> c2 ->
  le_split 8 c1 <> le_split 8 c2.
Proof. intros R1 R2 Hne E. now apply (le_split_inj 8) in E. Qed.

Lemma tx_seed_differs (t1 t2 : Z) :
  0 <= t1 < 2 ^ 128 -> 0 <= t2 < 2 ^ 128 -> t1 <> t2 ->
  le_split 16 t1 <> le_split 16 t2.
Proof. intros R1 R2 Hne E. now apply (le_split_inj 16) in E. Qed.

Lemma discriminant_differs (r1 r2 : string) (d1 d2 : Z) :
  registryTypeToDiscriminant r1 = Ok d1 ->
  registryTypeToDiscriminant r2 = Ok d2 ->
  r1 <> r2 -> [byte.of_Z d1] <> [byte.of_Z d2].
Proof.
  intros D1 D2 Hne.
  apply registryTypeToDiscriminant_inv in D1, D2.
  destruct D1 as [[-> ->] | [[-> ->] | [-> ->]]],
           D2 as [[-> ->] | [[-> ->] | [-> ->]]];
    (now contradiction Hne) || discriminate.
Qed.

(** Both seed lists reach the derivation, and their tags differ. *)
Ltac other_tag F1 F2 :=
  split;
  [ let E := fresh "E" in
    intros E; apply (f_equal (fun l => hd [] l)) in E; discriminate E
  | split; [exact (derived_of _ _ _ _ F1) | exact (derived_of _ _ _ _ F2)] ].

(** X10 (other input, other seeds).  Whatever the derivation, a resolver
    that returns an address for each of two different inputs has passed
    two different lists of seeds to it: the gateway and both counters for
    two chain identifiers, the signer registry for two pairs of registry
    type and chain identifier, the replay guard for two pairs of source
    chain and transaction identifier.  The two addresses are therefore
    equal only where the derivation itself takes different seeds to one
    address. *)
Theorem resolvers_tell_inputs_apart (a1 a2 : PublicKey) :
  let apart (seeds1 seeds2 : list Buffer) : Prop :=
    seeds1 <> seeds2 /\
    derived seeds1 programId = Ok a1 /\ derived seeds2 programId = Ok a2 in
  (forall c1 c2,
     getGatewayPda c1 = Ok a1 -> getGatewayPda c2 = Ok a2 -> c1 <> c2 ->
     apart [Buf.fromString "gateway"; le_split 8 c1]
           [Buf.fromString "gateway"; le_split 8 c2]) /\
  (forall c1 c2,
     getCounterPda c1 = Ok a1 -> getCounterPda c2 = Ok a2 -> c1 <> c2 ->
     apart [Buf.fromString "counter"; le_split 8 c1]
           [Buf.fromString "counter"; le_split 8 c2]) /\
  (forall c1 c2,
     getTxCounterPda c1 = Ok a1 -> getTxCounterPda c2 = Ok a2 -> c1 <> c2 ->
     apart [Buf.fromString "tx_counter"; le_split 8 c1]
           [Buf.fromString "tx_counter"; le_split 8 c2]) /\
  (forall r1 c1 r2 c2,
     getSignerRegistryPda r1 c1 = Ok a1 ->
     getSignerRegistryPda r2 c2 = Ok a2 ->
     r1 <> r2 \/ c1 <> c2 ->
     exists d1 d2,
       registryTypeToDiscriminant r1 = Ok d1 /\
       registryTypeToDiscriminant r2 = Ok d2 /\
       apart [Buf.fromString "signer_registry"; [byte.of_Z d1];
              le_split 8 c1]
             [Buf.fromString "signer_registry"; [byte.of_Z d2];
              le_split 8 c2]) /\
  (forall c1 t1 c2 t2,
     getTxIdPda c1 t1 = Ok a1 -> getTxIdPda c2 t2 = Ok a2 ->
     c1 <> c2 \/ t1 <> t2 ->
     apart [Buf.fromString "tx"; le_split 8 c1; le_split 16 t1]
           [Buf.fromString "tx"; le_split 8 c2; le_split 16 t2]).
Proof.
  intros apart. subst apart. cbv beta.
  split; [ | split; [ | split; [ | split]]].
  - intros c1 c2 H1 H2 Hne.
    apply getGatewayPda_inv in H1, H2.
    destruct H1 as (R1 & b1 & F1), H2 as (R2 & b2 & F2).
    split; [ | split; [exact (derived_of _ _ _ _ F1)
                      | exact (derived_of _ _ _ _ F2)]].
    intros E. apply (chain_seed_differs c1 c2); try assumption.
    exact (f_equal (fun l => nth 1 l []) E).
  - intros c1 c2 H1 H2 Hne.
    apply getCounterPda_inv in H1, H2.
    destruct H1 as (R1 & b1 & F1), H2 as (R2 & b2 & F2).
    split; [ | split; [exact (derived_of _ _ _ _ F1)
                      | exact (derived_of _ _ _ _ F2)]].
    intros E. apply (chain_seed_differs c1 c2); try assumption.
    exact (f_equal (fun l => nth 1 l []) E).
  - intros c1 c2 H1 H2 Hne.
    apply getTxCounterPda_inv in H1, H2.
    destruct H1 as (R1 & b1 & F1), H2 as (R2 & b2 & F2).
    split; [ | split; [exact (derived_of _ _ _ _ F1)
                      | exact (derived_of _ _ _ _ F2)]].
    intros E. apply (chain_seed_differs c1 c2); try assumption.
    exact (f_equal (fun l => nth 1 l []) E).
  - intros r1 c1 r2 c2 H1 H2 Hne.
    apply getSignerRegistryPda_inv in H1, H2.
    destruct H1 as (R1 & d1 & b1 & D1 & F1), H2 as (R2 & d2 & b2 & D2 & F2).
    exists d1, d2. split; [exact D1 | split; [exact D2 | ]].
    split; [ | split; [exact (derived_of _ _ _ _ F1)
                      | exact (derived_of _ _ _ _ F2)]].
    intros E.
    assert (Ed : [byte.of_Z d1] = [byte.of_Z d2])
      by exact (f_equal (fun l => nth 1 l []) E).
    assert (Ec : le_split 8 c1 = le_split 8 c2)
      by exact (f_equal (fun l => nth 2 l []) E).
    destruct Hne as [Hr | Hc].
    + now apply (discriminant_differs r1 r2 d1 d2).
    + now apply (chain_seed_differs c1 c2).
  - intros c1 t1 c2 t2 H1 H2 Hne.
    apply getTxIdPda_inv in H1, H2.
    destruct H1 as (R1 & T1 & b1 & F1), H2 as (R2 & T2 & b2 & F2).
    split; [ | split; [exact (derived_of _ _ _ _ F1)
                      | exact (derived_of _ _ _ _ F2)]].
    intros E.
    assert (Ec : le_split 8 c1 = le_split 8 c2)
      by exact (f_equal (fun l => nth 1 l []) E).
    assert (Et : le_split 16 t1 = le_split 16 t2)
      by exact (f_equal (fun l => nth 2 l []) E).
    destruct Hne as [Hc | Ht].
    + now apply (chain_seed_differs c1 c2).
    + now apply (tx_seed_differs t1 t2).
Qed.

(** X11 (other role, other seeds).  Whatever the derivation and whatever
    their inputs, two different resolvers among the five keyed by a chain
    that each return an address have passed two different lists of seeds
    to it, lists that differ already in their tag.  An address of one
    role is therefore an address of another role only where the
    derivation itself takes different seeds to one address. *)
Theorem resolvers_keep_roles_apart (a1 a2 : PublicKey) :
  let apart (seeds1 seeds2 : list Buffer) : Prop :=
    seeds1 <> seeds2 /\
    derived seeds1 programId = Ok a1 /\ derived seeds2 programId = Ok a2 in
  let gateway c := [Buf.fromString "gateway"; le_split 8 c] in
  let counter c := [Buf.fromString "counter"; le_split 8 c] in
  let txCounter c := [Buf.fromString "tx_counter"; le_split 8 c] in
  let registry d c :=
    [Buf.fromString "signer_registry"; [byte.of_Z d]; le_split 8 c] in
  let tx c t := [Buf.fromString "tx"; le_split 8 c; le_split 16 t] in
  (forall c c',
     getGatewayPda c = Ok a1 -> getCounterPda c' = Ok a2 ->
     apart (gateway c) (counter c')) /\
  (forall c c',
     getGatewayPda c = Ok a1 -> getTxCounterPda c' = Ok a2 ->
     apart (gateway c) (txCounter c')) /\
  (forall c r c',
     getGatewayPda c = Ok a1 -> getSignerRegistryPda r c' = Ok a2 ->
     exists d, registryTypeToDiscriminant r = Ok d /\
               apart (gateway c) (registry d c')) /\
  (forall c c' t,
     getGatewayPda c = Ok a1 -> getTxIdPda c' t = Ok a2 ->
     apart (gateway c) (tx c' t)) /\
  (forall c c',
     getCounterPda c = Ok a1 -> getTxCounterPda c' = Ok a2 ->
     apart (counter c) (txCounter c')) /\
  (forall c r c',
     getCounterPda c = Ok a1 -> getSignerRegistryPda r c' = Ok a2 ->
     exists d, registryTypeToDiscriminant r = Ok d /\
               apart (counter c) (registry d c')) /\
  (forall c c' t,
     getCounterPda c = Ok a1 -> getTxIdPda c' t = Ok a2 ->
     apart (counter c) (tx c' t)) /\
  (forall c r c',
     getTxCounterPda c = Ok a1 -> getSignerRegistryPda r c' = Ok a2 ->
     exists d, registryTypeToDiscriminant r = Ok d /\
               apart (txCounter c) (registry d c')) /\
  (forall c c' t,
     getTxCounterPda c = Ok a1 -> getTxIdPda c' t = Ok a2 ->
     apart (txCounter c) (tx c' t)) /\
  (forall r c c' t,
     getSignerRegistryPda r c = Ok a1 -> getTxIdPda c' t = Ok a2 ->
     exists d, registryTypeToDiscriminant r = Ok d /\
               apart (registry d c) (tx c' t)).
Proof.
  intros apart gateway counter txCounter registry tx.
  subst apart gateway counter txCounter registry tx. cbv beta.
  split; [ | split; [ | split; [ | split; [ | split; [ | split;
    [ | split; [ | split; [ | split]]]]]]]].
  - intros c c' H H'.
    apply getGatewayPda_inv in H. apply getCounterPda_inv in H'.
    destruct H as (_ & b & F), H' as (_ & b' & F'). other_tag F F'.
  - intros c c' H H'.
    apply getGatewayPda_inv in H. apply getTxCounterPda_inv in H'.
    destruct H as (_ & b & F), H' as (_ & b' & F'). other_tag F F'.
  - intros c r c' H H'.
    apply getGatewayPda_inv in H. apply getSignerRegistryPda_inv in H'.
    destruct H as (_ & b & F), H' as (_ & d & b' & D & F').
    exists d. split; [exact D | ]. other_tag F F'.
  - intros c c' t H H'.
    apply getGatewayPda_inv in H. apply getTxIdPda_inv in H'.
    destruct H as (_ & b & F), H' as (_ & _ & b' & F'). other_tag F F'.
  - intros c c' H H'.
    apply getCounterPda_inv in H. apply getTxCounterPda_inv in H'.
    destruct H as (_ & b & F), H' as (_ & b' & F'). other_tag F F'.
  - intros c r c' H H'.
    apply getCounterPda_inv in H. apply getSignerRegistryPda_inv in H'.
    destruct H as (_ & b & F), H' as (_ & d & b' & D & F').
    exists d. split; [exact D | ]. other_tag F F'.
  - intros c c' t H H'.
    apply getCounterPda_inv in H. apply getTxIdPda_inv in H'.
    destruct H as (_ & b & F), H' as (_ & _ & b' & F'). other_tag F F'.
  - intros c r c' H H'.
    apply getTxCounterPda_inv in H. apply getSignerRegistryPda_inv in H'.
    destruct H as (_ & b & F), H' as (_ & d & b' & D & F').
    exists d. split; [exact D | ]. other_tag F F'.
  - intros c c' t H H'.
    apply getTxCounterPda_inv in H. apply getTxIdPda_inv in H'.
    destruct H as (_ & b & F), H' as (_ & _ & b' & F'). other_tag F F'.
  - intros r c c' t H H'.
    apply getSignerRegistryPda_inv in H. apply getTxIdPda_inv in H'.
    destruct H as (_ & d & b & D & F), H' as (_ & _ & b' & F').
    exists d. split; [exact D | ]. other_tag F F'.
Qed.

End WithWeb3.

End PdasFacts.

(* ===================================================================== *)
(** * The retry wrapper                                                    *)
(* ===================================================================== *)

Module RetryFacts.
Import Sdk RetrySchedule.
Local Open Scope list_scope.

Lemma prefix_toLowerCase (a b : string) :
  String.prefix a b = true ->
  String.prefix (JS.toLowerCase a) (JS.toLowerCase b) = true.
Proof.
  revert b. induction a as [ | c a IH]; intros b H;
    [now destruct b | ].
  destruct b as [ | c' b]; [discriminate | ].
  cbn [String.prefix JS.toLowerCase] in *.
  destruct (ascii_dec c c') as [-> | Hne]; [ | discriminate].
  destruct (ascii_dec (JS.lowerAscii c') (JS.lowerAscii c')) as [_ | Hne];
    [now apply IH | now contradiction Hne].
Qed.

(** A fragment found in a message is found, in lower case, in the message
    in lower case. *)
Lemma includes_toLowerCase (hay needle : string) :
  JS.includes hay needle = true ->
  JS.includes (JS.toLowerCase hay) (JS.toLowerCase needle) = true.
Proof.
  induction hay as [ | c hay IH]; cbn [JS.includes JS.toLowerCase];
    intros H; apply orb_true_iff in H; apply orb_true_iff.
  - destruct H as [H | H]; [left | discriminate].
    now apply (prefix_toLowerCase needle EmptyString).
  - destruct H as [H | H]; [left | right; now apply IH].
    now apply (prefix_toLowerCase needle (String c hay)).
Qed.

Lemma isNonRetryable_vocabulary (m entry : string) :
  In entry nonRetryableErrors ->
  JS.includes (JS.toLowerCase m) (JS.toLowerCase entry) = true ->
  isNonRetryable (ErrorObj m) = true.
Proof.
  intros Hin H. unfold isNonRetryable. apply existsb_exists.
  exists entry. split; [exact Hin | exact H].
Qed.

Lemma isNonRetryable_TxIdNotFound (m : string) :
  JS.includes m "TxIdNotFound" = true -> isNonRetryable (ErrorObj m) = true.
Proof.
  intros H. apply (isNonRetryable_vocabulary m "TxIdNotFound").
  - cbn. tauto.
  - now apply includes_toLowerCase.
Qed.

Section Run.
Context {rt : Runtime} {T : Type}.
Variable name : string.
Variable operation : M T.
Variable maxRetries : Z.
Variable w0 : World.

Local Abbreviation n := (Z.to_nat maxRetries).
Local Abbreviation attemptsFrom := (RetrySchedule.attemptsFrom maxRetries).

Lemma attemptNumbers_all : attemptNumbers maxRetries = attemptsFrom 0.
Proof.
  unfold attemptNumbers, RetrySchedule.attemptsFrom. now rewrite Nat.sub_0_r.
Qed.

Lemma attemptsFrom_step (j : nat) :
  (j < n)%nat -> attemptsFrom j = Z.of_nat (S j) :: attemptsFrom (S j).
Proof.
  intros H. unfold RetrySchedule.attemptsFrom.
  replace (n - j)%nat with (S (n - S j)) by lia. reflexivity.
Qed.

Lemma attemptsFrom_end : attemptsFrom n = [].
Proof. unfold RetrySchedule.attemptsFrom. now rewrite Nat.sub_diag. Qed.

Lemma backoffMs_delayAfter (j : nat) :
  backoffMs (Z.of_nat (S j)) = delayAfter j.
Proof. unfold backoffMs, delayAfter. do 2 f_equal. lia. Qed.

Lemma below_cap (j : nat) :
  (S j < n)%nat -> (Z.of_nat (S j) <? maxRetries) = true.
Proof. intros H. apply Z.ltb_lt. lia. Qed.

Lemma at_cap (j : nat) :
  S j = n -> (Z.of_nat (S j) <? maxRetries) = false.
Proof. intros H. apply Z.ltb_ge. lia. Qed.

(** Attempts that fail and are retried put their calls, a warning and a
    sleep in front of what the later attempts do. *)
Lemma retryLoop_retried (d : nat) :
  forall (j : nat) (lastError : option thrown),
    (j + d < n)%nat ->
    (forall i, (j <= i < j + d)%nat ->
               retriedFailure operation w0 i) ->
    exists lastError',
      retryLoop name operation maxRetries (attemptsFrom j) lastError
        (startOf operation w0 j) =
      let '(r, w, t) :=
        retryLoop name operation maxRetries (attemptsFrom (j + d))
          lastError' (startOf operation w0 (j + d)) in
      (r, w, eventsFrom name operation w0 j d ++ t).
Proof.
  induction d as [ | d IH]; intros j lastError Hlt Hfail.
  - exists lastError. rewrite Nat.add_0_r. cbn [eventsFrom app].
    now destruct (retryLoop _ _ _ _ _ _) as [[r w] t].
  - destruct (Hfail j ltac:(lia)) as (e & He & Hretry).
    destruct (IH (S j) (Some e) ltac:(lia)
                ltac:(intros i Hi; apply Hfail; lia))
      as (lastError' & IH').
    exists lastError'.
    rewrite attemptsFrom_step by lia. cbn [retryLoop eventsFrom].
    unfold resultOf, outcomeOf in He. unfold outcomeOf, eventsOf.
    cbn [startOf] in IH'. unfold worldOf in IH'.
    destruct (operation (startOf operation w0 j)) as [[r w1] t1].
    cbn [fst snd] in *. subst r. rewrite Hretry.
    rewrite below_cap by lia. rewrite backoffMs_delayAfter.
    rewrite IH'. clear IH'.
    replace (S j + d)%nat with (j + S d)%nat by lia.
    destruct (retryLoop name operation maxRetries (attemptsFrom (j + S d))
                lastError' (startOf operation w0 (j + S d)))
      as [[r w] t].
    unfold warning. now rewrite <- !app_assoc.
Qed.

(** The attempt that ends the loop. *)
Lemma retryLoop_success (k : nat) (lastError : option thrown)
    (v : T) (w : World) (t : list Event) :
  (k < n)%nat -> outcomeOf operation w0 k = (Ok v, w, t) ->
  retryLoop name operation maxRetries (attemptsFrom k) lastError
    (startOf operation w0 k) = (Ok v, w, t).
Proof.
  intros Hk Ho. rewrite attemptsFrom_step by lia. cbn [retryLoop].
  unfold outcomeOf in Ho. now rewrite Ho.
Qed.

Lemma retryLoop_nonRetryable (k : nat) (lastError : option thrown)
    (e : thrown) (w : World) (t : list Event) :
  (k < n)%nat -> outcomeOf operation w0 k = (Throw e, w, t) ->
  isNonRetryable e = true ->
  retryLoop name operation maxRetries (attemptsFrom k) lastError
    (startOf operation w0 k) =
  (Throw (ErrorObj (name ++ " failed: " ++ JS.messageOrSelf e)%string),
   w, t).
Proof.
  intros Hk Ho He. rewrite attemptsFrom_step by lia. cbn [retryLoop].
  unfold outcomeOf in Ho. now rewrite Ho, He.
Qed.

Lemma retryLoop_exhausted (k : nat) (lastError : option thrown)
    (e : thrown) (w : World) (t : list Event) :
  S k = n -> outcomeOf operation w0 k = (Throw e, w, t) ->
  isNonRetryable e = false ->
  retryLoop name operation maxRetries (attemptsFrom k) lastError
    (startOf operation w0 k) =
  (Throw (ErrorObj (name ++ " failed after " ++ JS.showZ maxRetries ++
                    " attempts: " ++ JS.messageOrSelf e)%string),
   w, t).
Proof.
  intros Hk Ho He. rewrite attemptsFrom_step by lia. cbn [retryLoop].
  unfold outcomeOf in Ho. rewrite Ho, He, at_cap by assumption.
  rewrite Hk, attemptsFrom_end. cbn [retryLoop]. unfold raise.
  now rewrite app_nil_r.
Qed.

Lemma executeWithRetry_run (k : nat) :
  (k < n)%nat ->
  (forall i, (i < k)%nat -> retriedFailure operation w0 i) ->
  exists lastError,
    executeWithRetry name operation maxRetries w0 =
    let '(r, w, t) :=
      retryLoop name operation maxRetries (attemptsFrom k) lastError
        (startOf operation w0 k) in
    (r, w, eventsBefore name operation w0 k ++ t).
Proof.
  intros Hk Hfail. unfold executeWithRetry. rewrite attemptNumbers_all.
  destruct (retryLoop_retried k 0 None ltac:(lia)
              ltac:(intros i Hi; apply Hfail; lia)) as (lastError & H).
  exists lastError. exact H.
Qed.



End Run.

End RetryFacts.

(* ===================================================================== *)
(** * Signature-enabled submissions                                        *)
(* ===================================================================== *)

Module SdkFacts.
Import Encoding Signatures Sdk AssemblySpec Spec.
Import SdkOps(notLoaded).
Local Open Scope list_scope.

Section WithRuntime.
Context {rt : Runtime}.
Variable this : ViaLabsSDK.

(** ** Sequencing *)

Lemma bind_lift_Ok {A B : Type} (a : A) (k : A -> M B) (w : World) :
  bindM (lift (Ok a)) k w = k a w.
Proof. unfold bindM, lift. now destruct (k a w) as [[r w'] t]. Qed.

Lemma bind_lift_Throw {A B : Type} (e : thrown) (k : A -> M B)
    (w : World) :
  bindM (lift (Throw e)) k w = (Throw e, w, []).
Proof. reflexivity. Qed.

Lemma bind_Ok {A B : Type} (m : M A) (k : A -> M B) (w w1 : World)
    (a : A) (t1 : list Event) :
  m w = (Ok a, w1, t1) ->
  bindM m k w = let '(r, w2, t2) := k a w1 in (r, w2, t1 ++ t2).
Proof. intros H. unfold bindM. now rewrite H. Qed.

Lemma bind_Throw {A B : Type} (m : M A) (k : A -> M B) (w w1 : World)
    (e : thrown) (t1 : list Event) :
  m w = (Throw e, w1, t1) -> bindM m k w = (Throw e, w1, t1).
Proof. intros H. unfold bindM. now rewrite H. Qed.

Lemma instruction_Ok (c : MethodCall) (w w1 : World) (ix : Instruction) :
  anchorInstruction c w = (Ok ix, w1) ->
  instruction c w = (Ok ix, w1, [EvInstruction c]).
Proof. intros H. unfold instruction, call. now rewrite H. Qed.

(** ** The loop over the signatures *)

Lemma addEd25519Instructions_ordered (hash : Buffer)
    (signatures : list MessageSignature) (eds : list Instruction) :
  verificationsOf hash signatures eds ->
  forall instructions,
    addEd25519Instructions instructions signatures hash =
    Ok (instructions ++ eds).
Proof.
  induction 1 as [ | sig ix signatures eds Hix _ IH]; intros instructions.
  - cbn. now rewrite app_nil_r.
  - cbn [addEd25519Instructions]. unfold verificationOf in Hix.
    rewrite Hix. cbn [JS.bind]. rewrite IH. now rewrite <- app_assoc.
Qed.

Lemma addEd25519Instructions_inv (hash : Buffer)
    (signatures : list MessageSignature) :
  forall instructions result,
    addEd25519Instructions instructions signatures hash = Ok result ->
    exists eds, result = instructions ++ eds /\
                verificationsOf hash signatures eds.
Proof.
  induction signatures as [ | sig signatures IH];
    intros instructions result H.
  - cbn in H. injection H as <-. exists []. split;
      [now rewrite app_nil_r | constructor].
  - cbn [addEd25519Instructions] in H.
    destruct (createEd25519Instruction _ _ _ _) as [ix | ] eqn:Hix;
      [ | discriminate].
    cbn [JS.bind] in H. destruct (IH _ _ H) as (eds & -> & Heds).
    exists (ix :: eds). split; [now rewrite <- app_assoc | ].
    constructor; assumption.
Qed.

(** Two signatures, in either order. *)
Lemma verificationsOf_pair (hash : Buffer) (A B : MessageSignature)
    (eds : list Instruction) :
  verificationsOf hash [A; B] eds ->
  exists a b, eds = [a; b] /\ verificationOf hash A a /\
              verificationOf hash B b /\
              verificationsOf hash [B; A] [b; a].
Proof.
  intros H. inversion H as [ | ? a ? eds1 Ha H1]; subst.
  inversion H1 as [ | ? b ? eds2 Hb H2]; subst.
  inversion H2; subst.
  exists a, b. repeat split; try assumption.
  repeat constructor; assumption.
Qed.

(** ** The instruction lists *)

Lemma createTxPdaInstructions_built (m : DecodedViaMessage)
    (signatures : list MessageSignature) (hash : Buffer)
    (eds : list Instruction) (accts : list (string * option PublicKey))
    (main : Instruction) (w w1 : World) :
  messageHash m = Ok hash ->
  verificationsOf hash signatures eds ->
  createTxPdaAccounts this m = Ok accts ->
  anchorInstruction (createTxPdaCall m accts) w = (Ok main, w1) ->
  createTxPdaInstructions this m signatures w =
  (Ok (eds ++ [main]), w1, [EvInstruction (createTxPdaCall m accts)]).
Proof.
  intros Hh He Ha Hi. unfold createTxPdaInstructions.
  rewrite Hh, bind_lift_Ok.
  rewrite (addEd25519Instructions_ordered hash signatures eds He).
  rewrite bind_lift_Ok, Ha, bind_lift_Ok.
  rewrite (bind_Ok _ _ w w1 main _ (instruction_Ok _ _ _ _ Hi)).
  reflexivity.
Qed.

Lemma processMessageInstructions_built (m : DecodedViaMessage)
    (signatures : list MessageSignature) (include : bool)
    (hash : Buffer) (eds : list Instruction)
    (accts : list (string * option PublicKey))
    (main : Instruction) (w w1 : World) :
  messageHash m = Ok hash ->
  verificationsOf hash signatures eds ->
  processMessageAccounts this m include = Ok accts ->
  anchorInstruction (processMessageCall m accts []) w = (Ok main, w1) ->
  processMessageInstructions this m signatures include w =
  (Ok (eds ++ [main]), w1,
   [EvInstruction (processMessageCall m accts [])]).
Proof.
  intros Hh He Ha Hi. unfold processMessageInstructions.
  rewrite Hh, bind_lift_Ok.
  rewrite (addEd25519Instructions_ordered hash signatures eds He).
  rewrite bind_lift_Ok, Ha, bind_lift_Ok.
  rewrite (bind_Ok _ _ w w1 main _ (instruction_Ok _ _ _ _ Hi)).
  reflexivity.
Qed.

Lemma processMessageV0Instructions_built (m : DecodedViaMessage)
    (signatures : list MessageSignature) (include : bool)
    (remaining : option (list PublicKey))
    (hash : Buffer) (eds : list Instruction)
    (decoded config client : option PublicKey)
    (gas accts : list (string * option PublicKey))
    (main : Instruction) (w wg w1 : World) (tg : list Event) :
  messageHash m = Ok hash ->
  verificationsOf hash signatures eds ->
  clientAccounts m remaining = Ok (decoded, config, client) ->
  gasHandlerAccounts this m client w = (Ok gas, wg, tg) ->
  processMessageV0Accounts this m include decoded config gas = Ok accts ->
  anchorInstruction
    (processMessageCall m accts (remainingMetas remaining)) wg =
  (Ok main, w1) ->
  processMessageV0Instructions this m signatures include remaining w =
  (Ok (eds ++ [main]), w1,
   tg ++ [EvInstruction
            (processMessageCall m accts (remainingMetas remaining))]).
Proof.
  intros Hh He Hc Hg Ha Hi. unfold processMessageV0Instructions.
  rewrite Hh, bind_lift_Ok.
  rewrite (addEd25519Instructions_ordered hash signatures eds He).
  rewrite bind_lift_Ok, Hc, bind_lift_Ok.
  rewrite (bind_Ok _ _ w wg gas tg Hg).
  rewrite Ha, bind_lift_Ok.
  rewrite (bind_Ok _ _ wg w1 main _ (instruction_Ok _ _ _ _ Hi)).
  reflexivity.
Qed.

(** Whenever a list is built, it is the verification instructions in the
    order of the signatures and then one main instruction. *)
Lemma createTxPdaInstructions_shape (m : DecodedViaMessage)
    (signatures : list MessageSignature) (w w1 : World)
    (built : list Instruction) (t : list Event) :
  createTxPdaInstructions this m signatures w = (Ok built, w1, t) ->
  orderedBeforeMain m signatures built.
Proof.
  unfold createTxPdaInstructions, bindM, lift, instruction, call, ret.
  destruct (messageHash m) as [hash | ] eqn:Hh; [ | discriminate].
  destruct (addEd25519Instructions [] signatures hash) as [tx | ] eqn:He;
    [ | discriminate].
  destruct (createTxPdaAccounts this m) as [accts | ]; [ | discriminate].
  destruct (anchorInstruction _ w) as [[main | ] w'] eqn:Hi;
    [ | discriminate].
  intros [= <- _ _].
  destruct (addEd25519Instructions_inv hash signatures [] tx He)
    as (eds & -> & Heds).
  exists hash, eds, main. auto.
Qed.

Lemma processMessageInstructions_shape (m : DecodedViaMessage)
    (signatures : list MessageSignature) (include : bool) (w w1 : World)
    (built : list Instruction) (t : list Event) :
  processMessageInstructions this m signatures include w =
    (Ok built, w1, t) ->
  orderedBeforeMain m signatures built.
Proof.
  unfold processMessageInstructions, bindM, lift, instruction, call, ret.
  destruct (messageHash m) as [hash | ] eqn:Hh; [ | discriminate].
  destruct (addEd25519Instructions [] signatures hash) as [tx | ] eqn:He;
    [ | discriminate].
  destruct (processMessageAccounts this m include) as [accts | ];
    [ | discriminate].
  destruct (anchorInstruction _ w) as [[main | ] w'] eqn:Hi;
    [ | discriminate].
  intros [= <- _ _].
  destruct (addEd25519Instructions_inv hash signatures [] tx He)
    as (eds & -> & Heds).
  exists hash, eds, main. auto.
Qed.

Lemma processMessageV0Instructions_shape (m : DecodedViaMessage)
    (signatures : list MessageSignature) (include : bool)
    (remaining : option (list PublicKey)) (w w1 : World)
    (built : list Instruction) (t : list Event) :
  processMessageV0Instructions this m signatures include remaining w =
    (Ok built, w1, t) ->
  orderedBeforeMain m signatures built.
Proof.
  unfold processMessageV0Instructions, bindM, lift, instruction, call, ret.
  destruct (messageHash m) as [hash | ] eqn:Hh; [ | discriminate].
  destruct (addEd25519Instructions [] signatures hash) as [tx | ] eqn:He;
    [ | discriminate].
  destruct (clientAccounts m remaining) as [[[decoded config] client] | ];
    [ | discriminate].
  destruct (gasHandlerAccounts this m client w) as [[[gas | ] wg] tg];
    [ | discriminate].
  destruct (processMessageV0Accounts this m include decoded config gas)
    as [accts | ]; [ | discriminate].
  destruct (anchorInstruction _ wg) as [[main | ] w'] eqn:Hi;
    [ | discriminate].
  intros [= <- _ _].
  destruct (addEd25519Instructions_inv hash signatures [] tx He)
    as (eds & -> & Heds).
  exists hash, eds, main. auto.
Qed.

(** ** The checks of the V0 operations *)

Lemma validateSignatureCountV0_ok (signatures : list MessageSignature) :
  signatures <> [] -> (List.length signatures <= 3)%nat ->
  validateSignatureCountV0 signatures = Ok tt.
Proof.
  intros Hne Hle. unfold validateSignatureCountV0, MAX_SIGNATURES_V0.
  destruct (Z.gtb_spec (Z.of_nat (List.length signatures)) 3); [lia | ].
  destruct (Z.eqb_spec (Z.of_nat (List.length signatures)) 0) as [E | _];
    [ | reflexivity].
  destruct signatures; [now contradiction Hne | cbn in E; lia].
Qed.

Lemma validateSignatureCountV0_too_many
    (signatures : list MessageSignature) :
  (4 <= List.length signatures)%nat ->
  validateSignatureCountV0 signatures =
  Throw (tooManySignatures (Z.of_nat (List.length signatures))).
Proof.
  intros H. unfold validateSignatureCountV0, MAX_SIGNATURES_V0.
  destruct (Z.gtb_spec (Z.of_nat (List.length signatures)) 3);
    [reflexivity | lia].
Qed.


(** ** The claims on the submissions *)

Lemma messageHash_valid (m : DecodedViaMessage) :
  validMessage m -> messageHash m = Ok (Keccak.keccak256 (layout m)).
Proof.
  intros (Ht & Hs & Hd & Hb). unfold messageHash.
  rewrite SignaturesFacts.createMessageHash_unfold.
  rewrite EncodingFacts.encode_layout;
    [reflexivity | unfold integersFit; lia | assumption].
Qed.

(** C5 (signer ordering).  Every instruction list that the operations
    build is the verification instructions, one per signature in the order
    of the signatures, followed by the single main instruction.  And the
    lists are built: for a valid message and a non-empty list of signatures,
    each accepted by the Ed25519 instruction builder, once Anchor has built
    the main instruction each of the four operations hands exactly that list
    over for submission (the V0 variants with at most three signatures).
    With two signatures [A; B] the instruction of [A] precedes that of [B],
    and the list [B; A] yields them swapped. *)
Theorem verification_instructions_in_caller_order
    (m : DecodedViaMessage) (signatures : list MessageSignature)
    (w : World) :
  (forall built w1 t,
     createTxPdaInstructions this m signatures w = (Ok built, w1, t) \/
     (exists include,
        processMessageInstructions this m signatures include w =
        (Ok built, w1, t)) \/
     (exists include remaining,
        processMessageV0Instructions this m signatures include remaining w =
        (Ok built, w1, t)) ->
     orderedBeforeMain m signatures built) /\
  forall eds,
  validMessage m ->
  signatures <> [] ->
  verificationsOf (Keccak.keccak256 (layout m)) signatures eds ->
  (forall accts main w1,
     createTxPdaAccounts this m = Ok accts ->
     anchorInstruction (createTxPdaCall m accts) w = (Ok main, w1) ->
     createTxPdaWithSignatures this m signatures w =
     (let '(r, w2) := sendAndConfirm (eds ++ [main]) w1 in
      (r, w2, [EvInstruction (createTxPdaCall m accts);
               EvSendAndConfirm (eds ++ [main])])) /\
     ((List.length signatures <= 3)%nat ->
      createTxPdaWithSignaturesV0 this m signatures w =
      (let '(r, w2, t) :=
         executeV0Transaction this "createTxPda" (eds ++ [main]) 3 w1 in
       (r, w2, EvInstruction (createTxPdaCall m accts) :: t)))) /\
  (forall include accts main w1,
     processMessageAccounts this m include = Ok accts ->
     anchorInstruction (processMessageCall m accts []) w = (Ok main, w1) ->
     processMessageWithSignatures this m signatures include w =
     (let '(r, w2) := sendAndConfirm (eds ++ [main]) w1 in
      (r, w2, [EvInstruction (processMessageCall m accts []);
               EvSendAndConfirm (eds ++ [main])]))) /\
  (forall include remaining decoded config client gas wg tg accts main w1,
     (List.length signatures <= 3)%nat ->
     clientAccounts m remaining = Ok (decoded, config, client) ->
     gasHandlerAccounts this m client w = (Ok gas, wg, tg) ->
     processMessageV0Accounts this m include decoded config gas =
       Ok accts ->
     anchorInstruction
       (processMessageCall m accts (remainingMetas remaining)) wg =
       (Ok main, w1) ->
     processMessageWithSignaturesV0 this m signatures include remaining w =
     (let '(r, w2, t) :=
        executeV0Transaction this "processMessage" (eds ++ [main]) 3 w1 in
      (r, w2,
       tg ++
       EvInstruction
         (processMessageCall m accts (remainingMetas remaining)) :: t))) /\
  (forall A B,
     signatures = [A; B] ->
     exists a b,
       eds = [a; b] /\
       verificationOf (Keccak.keccak256 (layout m)) A a /\
       verificationOf (Keccak.keccak256 (layout m)) B b /\
       verificationsOf (Keccak.keccak256 (layout m)) [B; A] [b; a]).
Proof.
  split.
  { intros built w1 t [H | [[include H] | [include [remaining H]]]].
    - exact (createTxPdaInstructions_shape _ _ _ _ _ _ H).
    - exact (processMessageInstructions_shape _ _ _ _ _ _ _ H).
    - exact (processMessageV0Instructions_shape _ _ _ _ _ _ _ _ H). }
  intros eds Hm Hne He. pose proof (messageHash_valid m Hm) as Hh.
  split; [ | split; [ | split]].
  - intros accts main w1 Ha Hi.
    pose proof (createTxPdaInstructions_built m signatures _ eds accts
                  main w w1 Hh He Ha Hi) as Hb.
    split.
    + unfold createTxPdaWithSignatures.
      rewrite (bind_Ok _ _ _ _ _ _ Hb). unfold call.
      now destruct (sendAndConfirm (eds ++ [main]) w1) as [r w2].
    + intros Hle. unfold createTxPdaWithSignaturesV0.
      rewrite (validateSignatureCountV0_ok signatures Hne Hle).
      rewrite bind_lift_Ok, (bind_Ok _ _ _ _ _ _ Hb).
      now destruct (executeV0Transaction _ _ _ _ _) as [[r w2] t].
  - intros include accts main w1 Ha Hi.
    pose proof (processMessageInstructions_built m signatures include _
                  eds accts main w w1 Hh He Ha Hi) as Hb.
    unfold processMessageWithSignatures.
    rewrite (bind_Ok _ _ _ _ _ _ Hb). unfold call.
    now destruct (sendAndConfirm (eds ++ [main]) w1) as [r w2].
  - intros include remaining decoded config client gas wg tg accts main
      w1 Hle Hc Hg Ha Hi.
    pose proof (processMessageV0Instructions_built m signatures include
                  remaining _ eds decoded config client gas accts main
                  w wg w1 tg Hh He Hc Hg Ha Hi) as Hb.
    unfold processMessageWithSignaturesV0.
    rewrite (validateSignatureCountV0_ok signatures Hne Hle).
    rewrite bind_lift_Ok, (bind_Ok _ _ _ _ _ _ Hb).
    destruct (executeV0Transaction _ _ _ _ _) as [[r w2] t].
    now rewrite <- app_assoc.
  - intros A B ->. now apply verificationsOf_pair.
Qed.

(** C7 (cap of the V0 variants).  With four signatures or more, both V0
    operations throw the "Too many signatures" error at once: nothing is
    built, nothing is sent, the world is untouched.  With exactly three
    the count is accepted and the operation goes on to build its
    instructions and hand them over. *)
Theorem v0_signature_cap (m : DecodedViaMessage)
    (signatures : list MessageSignature) (include : bool)
    (remaining : option (list PublicKey)) (w : World) :
  ((4 <= List.length signatures)%nat ->
   createTxPdaWithSignaturesV0 this m signatures w =
     (Throw (tooManySignatures (Z.of_nat (List.length signatures))),
      w, []) /\
   processMessageWithSignaturesV0 this m signatures include remaining w =
     (Throw (tooManySignatures (Z.of_nat (List.length signatures))),
      w, []) /\
   exists rest,
     tooManySignatures (Z.of_nat (List.length signatures)) =
     ErrorObj ("Too many signatures for V0 transaction: " ++
               JS.showZ (Z.of_nat (List.length signatures)) ++
               " provided, maximum 3 supported." ++ rest)%string) /\
  (List.length signatures = 3%nat ->
   validateSignatureCountV0 signatures = Ok tt /\
   createTxPdaWithSignaturesV0 this m signatures w =
     bindM (createTxPdaInstructions this m signatures)
       (fun instructions =>
          executeV0Transaction this "createTxPda" instructions 3) w /\
   processMessageWithSignaturesV0 this m signatures include remaining w =
     bindM (processMessageV0Instructions this m signatures include
              remaining)
       (fun instructions =>
          executeV0Transaction this "processMessage" instructions 3) w).
Proof.
  split.
  - intros H.
    unfold createTxPdaWithSignaturesV0, processMessageWithSignaturesV0.
    rewrite (validateSignatureCountV0_too_many signatures H).
    rewrite !bind_lift_Throw.
    split; [reflexivity | split; [reflexivity | ]].
    eexists. unfold tooManySignatures. reflexivity.
  - intros H.
    assert (Hok : validateSignatureCountV0 signatures = Ok tt).
    { apply validateSignatureCountV0_ok; [ | lia].
      intros ->. discriminate. }
    unfold createTxPdaWithSignaturesV0, processMessageWithSignaturesV0.
    rewrite Hok, !bind_lift_Ok. auto.
Qed.

(** C8 (empty signature list).  The V0 operations refuse the empty list
    before anything is built or sent.  The Standard operations do not:
    for a valid message they build the main instruction and submit a
    transaction that holds nothing else. *)
Theorem empty_signature_list (m : DecodedViaMessage) (include : bool)
    (remaining : option (list PublicKey)) (w : World) :
  createTxPdaWithSignaturesV0 this m [] w = (Throw noSignatures, w, []) /\
  processMessageWithSignaturesV0 this m [] include remaining w =
    (Throw noSignatures, w, []) /\
  (validMessage m ->
   (forall accts main w1,
      createTxPdaAccounts this m = Ok accts ->
      anchorInstruction (createTxPdaCall m accts) w = (Ok main, w1) ->
      createTxPdaWithSignatures this m [] w =
      (let '(r, w2) := sendAndConfirm [main] w1 in
       (r, w2, [EvInstruction (createTxPdaCall m accts);
                EvSendAndConfirm [main]]))) /\
   (forall accts main w1,
      processMessageAccounts this m include = Ok accts ->
      anchorInstruction (processMessageCall m accts []) w =
        (Ok main, w1) ->
      processMessageWithSignatures this m [] include w =
      (let '(r, w2) := sendAndConfirm [main] w1 in
       (r, w2, [EvInstruction (processMessageCall m accts []);
                EvSendAndConfirm [main]])))).
Proof.
  split; [reflexivity | split; [reflexivity | ]].
  intros Hm. pose proof (messageHash_valid m Hm) as Hh.
  assert (He : verificationsOf (Keccak.keccak256 (layout m)) [] [])
    by constructor.
  split.
  - intros accts main w1 Ha Hi.
    pose proof (createTxPdaInstructions_built m [] _ [] accts
                  main w w1 Hh He Ha Hi) as Hb.
    unfold createTxPdaWithSignatures.
    rewrite (bind_Ok _ _ _ _ _ _ Hb). unfold call. cbn [app].
    now destruct (sendAndConfirm [main] w1) as [r w2].
  - intros accts main w1 Ha Hi.
    pose proof (processMessageInstructions_built m [] include _
                  [] accts main w w1 Hh He Ha Hi) as Hb.
    unfold processMessageWithSignatures.
    rewrite (bind_Ok _ _ _ _ _ _ Hb). unfold call. cbn [app].
    now destruct (sendAndConfirm [main] w1) as [r w2].
Qed.


(** ** The two derivations of the DecodedMessage address *)

Lemma copyInto_le16 (v : Z) :
  copyInto (le_split 16 v) (repeat Byte.x00 16) = le_split 16 v.
Proof.
  unfold copyInto.
  rewrite repeat_length, LittleEndianList.length_le_split.
  rewrite firstn_all2
    by (rewrite LittleEndianList.length_le_split; lia).
  rewrite skipn_all2 by (rewrite repeat_length; lia).
  apply app_nil_r.
Qed.

Lemma decodedSeeds_le16 (txId : Z) :
  0 <= txId < 2 ^ 128 ->
  decodedSeeds txId = Ok [Buf.fromString "decoded"; le_split 16 txId].
Proof.
  intros H. unfold decodedSeeds.
  rewrite (PdasFacts.toArrayLike_le_unsigned txId 16) by exact H.
  cbn [JS.bind]. now rewrite copyInto_le16.
Qed.

(** C10 (DecodedMessage address).  The exported helper and the V0
    operation do not derive it from the same seeds: for a transaction
    identifier below [2^64] the helper passes "decoded" and the identifier
    as 8 little-endian bytes, the operation passes "decoded" and the
    identifier as 16 little-endian bytes, and the two seed lists differ;
    from [2^64] on the helper throws while the operation still derives an
    address. *)
Theorem decoded_message_seeds_disagree (m : DecodedViaMessage)
    (clientProgramId : PublicKey) (others : list PublicKey) :
  (0 <= txId m < 2 ^ 64 ->
   Pdas.deriveDecodedMessagePda findProgramAddressSync (txId m)
     clientProgramId =
   ('(pda, bump) <-
      findProgramAddressSync
        [Buf.fromString "decoded"; le_split 8 (txId m)] clientProgramId ;;
    Ok (pda, bump))%js /\
   clientAccounts m (Some (clientProgramId :: others)) =
   ('(config, _) <-
      findProgramAddressSync [Buf.fromString "client_config"]
        clientProgramId ;;
    '(pda, _) <-
      findProgramAddressSync
        [Buf.fromString "decoded"; le_split 16 (txId m)] clientProgramId ;;
    Ok (Some pda, Some config, Some clientProgramId))%js /\
   [Buf.fromString "decoded"; le_split 8 (txId m)] <>
   [Buf.fromString "decoded"; le_split 16 (txId m)]) /\
  (2 ^ 64 <= txId m < 2 ^ 128 ->
   Pdas.deriveDecodedMessagePda findProgramAddressSync (txId m)
     clientProgramId =
   Throw (ErrorObj "byte array longer than desired length") /\
   decodedSeeds (txId m) =
   Ok [Buf.fromString "decoded"; le_split 16 (txId m)]).
Proof.
  split.
  - intros H.
    assert (H16 : 0 <= txId m < 2 ^ 128) by lia.
    split; [ | split].
    + unfold Pdas.deriveDecodedMessagePda.
      rewrite PdasFacts.validateTxId_ok by lia.
      rewrite (PdasFacts.toArrayLike_le_unsigned (txId m) 8) by exact H.
      cbn [JS.bind].
      now destruct (findProgramAddressSync _ _) as [[pda bump] | ].
    + unfold clientAccounts.
      rewrite decodedSeeds_le16 by exact H16. reflexivity.
    + intros E. injection E as E.
      apply (f_equal (@List.length byte)) in E.
      rewrite !LittleEndianList.length_le_split in E. discriminate.
  - intros H. split.
    + unfold Pdas.deriveDecodedMessagePda.
      rewrite PdasFacts.validateTxId_ok by lia.
      rewrite (BNFacts.toArrayLike_le_too_long (txId m) 8)
        by (rewrite Z.abs_eq by lia; apply H).
      reflexivity.
    + apply decodedSeeds_le16. lia.
Qed.


(** ** The V0 operations and the lookup table *)

Lemma executeV0Transaction_not_loaded (name : string)
    (instructions : list Instruction) (maxRetries : Z) (w : World) :
  lookupTableAccount this = None ->
  executeV0Transaction this name instructions maxRetries w =
  (Throw notLoaded, w, []).
Proof. intros H. unfold executeV0Transaction. now rewrite H. Qed.

Lemma bindM_not_loaded {A : Type} (build : M A)
    (submit : A -> M string) (w : World) :
  (forall a w', submit a w' = (Throw notLoaded, w', [])) ->
  (forall a w1 t, build w = (Ok a, w1, t) ->
                  bindM build submit w = (Throw notLoaded, w1, t)) /\
  JS.throws (fst (fst (bindM build submit w))).
Proof.
  intros Hs. unfold bindM.
  destruct (build w) as [[[a | e] w1] t].
  - rewrite Hs. split.
    + intros a' w1' t' [= <- <- <-]. now rewrite app_nil_r.
    + now exists notLoaded.
  - split; [discriminate | now exists e].
Qed.

(** X12 (V0 needs the lookup table).  While no lookup table is loaded
    neither V0 operation succeeds on any input.  With an accepted number
    of signatures and instructions that build, both throw "Lookup table
    not loaded. Call loadLookupTable() first." after the instructions
    were built: the world and the trace are those the building left, and
    nothing is sent or retried. *)
Theorem v0_operations_need_lookup_table (m : DecodedViaMessage)
    (signatures : list MessageSignature) (include : bool)
    (remaining : option (list PublicKey)) (w : World) :
  lookupTableAccount this = None ->
  (forall instructions w1 t,
     validateSignatureCountV0 signatures = Ok tt ->
     createTxPdaInstructions this m signatures w = (Ok instructions, w1, t) ->
     createTxPdaWithSignaturesV0 this m signatures w =
     (Throw notLoaded, w1, t)) /\
  (forall instructions w1 t,
     validateSignatureCountV0 signatures = Ok tt ->
     processMessageV0Instructions this m signatures include remaining w =
     (Ok instructions, w1, t) ->
     processMessageWithSignaturesV0 this m signatures include remaining w =
     (Throw notLoaded, w1, t)) /\
  JS.throws (fst (fst (createTxPdaWithSignaturesV0 this m signatures w))) /\
  JS.throws
    (fst (fst (processMessageWithSignaturesV0 this m signatures include
                 remaining w))).
Proof.
  intros Hnone.
  pose proof (bindM_not_loaded (createTxPdaInstructions this m signatures)
                (fun ixs => executeV0Transaction this "createTxPda" ixs 3) w
                (fun a w' => executeV0Transaction_not_loaded
                               "createTxPda" a 3 w' Hnone)) as [C1 C2].
  pose proof (bindM_not_loaded
                (processMessageV0Instructions this m signatures include
                   remaining)
                (fun ixs =>
                   executeV0Transaction this "processMessage" ixs 3) w
                (fun a w' => executeV0Transaction_not_loaded
                               "processMessage" a 3 w' Hnone)) as [P1 P2].
  unfold createTxPdaWithSignaturesV0, processMessageWithSignaturesV0.
  destruct (validateSignatureCountV0 signatures) as [[] | e] eqn:V.
  - rewrite !bind_lift_Ok.
    split; [intros ixs w1 t _; apply C1 | ].
    split; [intros ixs w1 t _; apply P1 | ].
    split; assumption.
  - rewrite !bind_lift_Throw.
    split; [discriminate | ]. split; [discriminate | ].
    split; now exists e.
Qed.


(** X13 (what is signed is what is verified).  For a valid message,
    [createMessageSignature] signs the Keccak-256 digest of the encoded
    message with the secret key and names the public key of the same
    pair as the signer; the submission built from that signature holds
    one verification instruction, of that signature, for that public
    key, over the very digest that was signed, and then the main
    instruction. *)
Theorem signed_digest_is_verified_digest
    (detached : Buffer -> Buffer -> completion Buffer)
    (m : DecodedViaMessage) (keypair : Keypair) (sig : MessageSignature) :
  validMessage m ->
  createMessageSignature detached (txId m) (sourceChainId m)
    (destChainId m) (sender m) (recipient m) (onChainData m)
    (offChainData m) keypair = Ok sig ->
  let digest := Keccak.keccak256 (layout m) in
  detached digest (secretKey keypair) = Ok (signature sig) /\
  signer sig = publicKey keypair /\
  forall w built w1 t,
    createTxPdaInstructions this m [sig] w = (Ok built, w1, t) ->
    exists verification main,
      createInstructionWithPublicKey (toBuffer (publicKey keypair)) digest
        (signature sig) = Ok verification /\
      built = [verification; main].
Proof.
  intros Hm Hsig digest.
  pose proof (messageHash_valid m Hm) as Hh. fold digest in Hh.
  unfold createMessageSignature, signMessage in Hsig.
  unfold messageHash in Hh. rewrite Hh in Hsig. cbn [JS.bind] in Hsig.
  destruct (detached digest (secretKey keypair)) as [s | ] eqn:Hd;
    [ | discriminate].
  cbn [JS.bind] in Hsig. injection Hsig as <-.
  cbn [signature signer].
  split; [reflexivity | split; [reflexivity | ]].
  intros w built w1 t Hb.
  destruct (createTxPdaInstructions_shape _ _ _ _ _ _ Hb)
    as (hash & eds & main & Hh' & Heds & ->).
  unfold messageHash in Hh'. rewrite Hh in Hh'. injection Hh' as <-.
  inversion Heds as [ | sig' ix sigs' eds' Hix Hrest]; subst.
  inversion Hrest; subst.
  exists ix, main. split; [exact Hix | reflexivity].
Qed.


(** X26 (the gas handler that cannot be looked up).  In the V0 operation
    that processes a message, a lookup of the gas handler program that
    throws, finds no account or finds an account that is not executable
    fails nothing: the main instruction is built all the same, with the
    four gas handler accounts [null], after one lookup. *)
Theorem gas_handler_lookup_failure_is_swallowed (m : DecodedViaMessage)
    (signatures : list MessageSignature) (include : bool)
    (remaining : option (list PublicKey))
    (hash : Buffer) (eds : list Instruction)
    (decoded config client : option PublicKey)
    (accts : list (string * option PublicKey))
    (main : Instruction) (w wg w1 : World)
    (found : completion (option AccountInfo)) :
  getAccountInfo (gasHandlerProgramId this) w = (found, wg) ->
  match found with
  | Ok (Some info) => executable info = false
  | Ok None | Throw _ => True
  end ->
  messageHash m = Ok hash ->
  verificationsOf hash signatures eds ->
  clientAccounts m remaining = Ok (decoded, config, client) ->
  processMessageV0Accounts this m include decoded config
    [ ("gasHandlerProgram", None); ("gasConfig", None);
      ("clientGasConfig", None); ("gasPool", None) ] = Ok accts ->
  anchorInstruction
    (processMessageCall m accts (remainingMetas remaining)) wg =
  (Ok main, w1) ->
  processMessageV0Instructions this m signatures include remaining w =
  (Ok (eds ++ [main]), w1,
   [EvGetAccountInfo (gasHandlerProgramId this);
    EvInstruction
      (processMessageCall m accts (remainingMetas remaining))]).
Proof.
  intros Hinfo Hnot Hh He Hc Ha Hi.
  assert (Hg : gasHandlerAccounts this m client w =
               (Ok noGasHandlerAccounts, wg,
                [EvGetAccountInfo (gasHandlerProgramId this)])).
  { unfold gasHandlerAccounts. rewrite Hinfo.
    destruct found as [[info | ] | e]; try reflexivity.
    now rewrite Hnot. }
  exact (processMessageV0Instructions_built m signatures include remaining
           hash eds decoded config client noGasHandlerAccounts accts main
           w wg w1 _ Hh He Hc Hg Ha Hi).
Qed.

End WithRuntime.

End SdkFacts.

(* ===================================================================== *)
(** * Public keys, ABI decoding and validation                             *)
(* ===================================================================== *)

Module Web3Facts.
Import BufFacts.
Local Open Scope list_scope.

Lemma ofBuffer_be_bound (b : Buffer) :
  0 <= BN.ofBuffer_be b < 2 ^ (8 * Buf.length b).
Proof.
  unfold BN.ofBuffer_be, Buf.length.
  pose proof (le_combine_bound (rev b)) as H.
  now rewrite List.length_rev in H.
Qed.

Lemma toBuffer_be_ofBuffer_be (b : Buffer) (n : nat) :
  List.length b = n -> BN.toBuffer_be (BN.ofBuffer_be b) n = b.
Proof.
  intros H. unfold BN.toBuffer_be, BN.ofBuffer_be.
  rewrite Z.abs_eq by apply le_combine_bound.
  rewrite split_le_combine' by (now rewrite List.length_rev).
  apply rev_involutive.
Qed.

Lemma ofBuffer_be_toBuffer_be (v : Z) (n : nat) :
  0 <= v < 2 ^ (8 * Z.of_nat n) ->
  BN.ofBuffer_be (BN.toBuffer_be v n) = v.
Proof.
  intros H. unfold BN.toBuffer_be, BN.ofBuffer_be.
  rewrite rev_involutive, Z.abs_eq by lia.
  rewrite le_combine_split. apply Z.mod_small. now rewrite Z.mul_comm.
Qed.

Lemma ofBuffer_be_inj (a b : Buffer) :
  List.length a = List.length b ->
  BN.ofBuffer_be a = BN.ofBuffer_be b -> a = b.
Proof.
  intros Hl H. unfold BN.ofBuffer_be in H.
  apply le_combine_inj in H; [ | now rewrite !List.length_rev].
  apply (f_equal (@rev byte)) in H. now rewrite !rev_involutive in H.
Qed.

(** Leading zero bytes do not change the number. *)
Lemma ofBuffer_be_zeros (n : nat) (b : Buffer) :
  BN.ofBuffer_be (repeat Byte.x00 n ++ b) = BN.ofBuffer_be b.
Proof.
  unfold BN.ofBuffer_be.
  rewrite rev_app_distr, rev_repeat. apply le_combine_app_0.
Qed.

Lemma byteLength_ofBuffer_be (b : Buffer) :
  BN.byteLength (BN.ofBuffer_be b) <= Buf.length b.
Proof.
  unfold Buf.length. apply BNFacts.byteLength_le.
  rewrite Z.abs_eq by apply ofBuffer_be_bound.
  apply ofBuffer_be_bound.
Qed.

(** A key made of 32 bytes holds those bytes. *)
Lemma newPublicKey_32 (value : Buffer) :
  Buf.length value = 32 ->
  Web3.newPublicKey value = Ok (mkPublicKey value).
Proof.
  intros H. unfold Web3.newPublicKey, Web3.PUBLIC_KEY_LENGTH.
  pose proof (byteLength_ofBuffer_be value) as Hb.
  destruct (Z.gtb_spec (BN.byteLength (BN.ofBuffer_be value)) 32);
    [lia | ].
  rewrite toBuffer_be_ofBuffer_be; [reflexivity | ].
  unfold Buf.length in H. lia.
Qed.

Lemma equals_iff (a b : PublicKey) :
  Buf.length (toBuffer a) = 32 -> Buf.length (toBuffer b) = 32 ->
  Web3.equals a b = true <-> a = b.
Proof.
  intros Ha Hb. unfold Web3.equals, BN.eq. rewrite Z.eqb_eq. split.
  - intros H. apply ofBuffer_be_inj in H.
    + destruct a, b. cbn in *. now subst.
    + unfold Buf.length in *. lia.
  - now intros ->.
Qed.

Lemma publicKey_equals_refl (a : PublicKey) : Web3.equals a a = true.
Proof. unfold Web3.equals, BN.eq. apply Z.eqb_refl. Qed.

End Web3Facts.


Module AbiFacts.
Import Abi BufFacts Web3Facts.
Local Open Scope list_scope.

(** ** The amount *)

Lemma at_app (pre : Buffer) (x : byte) (post : Buffer) :
  Buf.at_ (pre ++ x :: post) (Buf.length pre) = byte.unsigned x.
Proof.
  unfold Buf.at_, Buf.length. rewrite Nat2Z.id.
  now rewrite app_nth2, Nat.sub_diag by lia.
Qed.

Lemma unsigned_zero (x : byte) : byte.unsigned x = 0 -> x = Byte.x00.
Proof.
  intros H. rewrite <- (byte.of_Z_unsigned x), H. reflexivity.
Qed.

(** The loop finds the first high byte that is not zero. *)
Lemma highBytesAreZero_zeros (pre : Buffer) (n : nat) (post : Buffer) :
  highBytesAreZero (pre ++ repeat Byte.x00 n ++ post) (Buf.length pre) n =
  Ok tt.
Proof.
  revert pre. induction n as [ | n IH]; intros pre; [reflexivity | ].
  cbn [repeat highBytesAreZero app]. rewrite at_app.
  change (byte.unsigned Byte.x00 =? 0) with true. cbn [negb].
  specialize (IH (pre ++ [Byte.x00])).
  rewrite length_app, <- app_assoc in IH. exact IH.
Qed.

Lemma highBytesAreZero_first (pre : Buffer) (k n : nat) (x : byte)
    (post : Buffer) :
  (k < n)%nat -> x <> Byte.x00 ->
  highBytesAreZero (pre ++ repeat Byte.x00 k ++ x :: post)
    (Buf.length pre) n =
  Throw (highByteError (Buf.length pre + Z.of_nat k) (byte.unsigned x)).
Proof.
  revert pre n. induction k as [ | k IH]; intros pre n Hk Hx.
  - destruct n as [ | n]; [lia | ].
    cbn [repeat app highBytesAreZero]. rewrite at_app.
    destruct (Z.eqb_spec (byte.unsigned x) 0) as [E | _];
      [now apply unsigned_zero in E | ].
    cbn [negb]. now rewrite Z.add_0_r.
  - destruct n as [ | n]; [lia | ].
    cbn [repeat app highBytesAreZero]. rewrite at_app.
    change (byte.unsigned Byte.x00 =? 0) with true. cbn [negb].
    specialize (IH (pre ++ [Byte.x00]) n ltac:(lia) Hx).
    rewrite length_app, <- app_assoc in IH. cbn [app] in IH.
    change (Buf.length [Byte.x00]) with 1 in IH.
    rewrite IH. do 2 f_equal. unfold Buf.length. cbn [List.length]. lia.
Qed.

(** A list of bytes starts with zero bytes up to its first byte that is
    not zero, if it has one. *)
Lemma leading_zeros (b : Buffer) :
  b = repeat Byte.x00 (List.length b) \/
  exists k x rest,
    x <> Byte.x00 /\ b = repeat Byte.x00 k ++ x :: rest.
Proof.
  induction b as [ | y b IH]; [now left | ].
  destruct (Byte.byte_eq_dec y Byte.x00) as [-> | Hy].
  - destruct IH as [IH | (k & x & rest & Hx & IH)].
    + left. cbn [List.length repeat]. now rewrite <- IH.
    + right. exists (S k), x, rest. split; [exact Hx | ].
      cbn [repeat app]. now rewrite <- IH.
  - right. now exists 0%nat, y, b.
Qed.

Lemma split_32 (b : Buffer) :
  Buf.length b = 32 ->
  exists hi lo, b = hi ++ lo /\ List.length hi = 24%nat /\
                List.length lo = 8%nat.
Proof.
  intros H. exists (firstn 24 b), (skipn 24 b).
  unfold Buf.length in H.
  rewrite firstn_skipn, List.length_firstn, List.length_skipn.
  repeat split; lia.
Qed.

Lemma slice_low (hi lo : Buffer) :
  List.length hi = 24%nat -> List.length lo = 8%nat ->
  Buf.slice (hi ++ lo) 24 32 = lo.
Proof.
  intros Hh Hl.
  pose proof (slice_app hi lo []) as H.
  rewrite app_nil_r in H. unfold Buf.length in H. rewrite Hh, Hl in H.
  exact H.
Qed.

Lemma low_below_max (lo : Buffer) :
  List.length lo = 8%nat -> BN.gt (BN.ofBuffer_be lo) U64_MAX = false.
Proof.
  intros H. pose proof (ofBuffer_be_bound lo) as Hb.
  unfold Buf.length in Hb. rewrite H in Hb.
  unfold BN.gt, U64_MAX.
  destruct (Z.gtb_spec (BN.ofBuffer_be lo) 18446744073709551615);
    [ | reflexivity].
  change (2 ^ (8 * Z.of_nat 8)) with 18446744073709551616 in Hb. lia.
Qed.

(** The two outcomes on 32 bytes. *)
Lemma u256ToU64_zero_high (lo : Buffer) :
  List.length lo = 8%nat ->
  u256ToU64 (repeat Byte.x00 24 ++ lo) = Ok (BN.ofBuffer_be lo).
Proof.
  intros Hl. unfold u256ToU64.
  replace (Buf.length (repeat Byte.x00 24 ++ lo)) with 32
    by (unfold Buf.length; rewrite List.length_app, repeat_length; lia).
  cbn [Z.eqb Pos.eqb negb].
  pose proof (highBytesAreZero_zeros [] 24 lo) as Hz.
  cbn [app] in Hz. change (Buf.length []) with 0 in Hz.
  rewrite Hz. cbn [JS.bind].
  rewrite slice_low by (assumption || apply repeat_length).
  now rewrite low_below_max.
Qed.

Lemma u256ToU64_high_byte (k : nat) (x : byte) (rest : Buffer) :
  (k < 24)%nat -> x <> Byte.x00 ->
  Buf.length (repeat Byte.x00 k ++ x :: rest) = 32 ->
  u256ToU64 (repeat Byte.x00 k ++ x :: rest) =
  Throw (highByteError (Z.of_nat k) (byte.unsigned x)).
Proof.
  intros Hk Hx Hl. unfold u256ToU64. rewrite Hl.
  cbn [Z.eqb Pos.eqb negb].
  pose proof (highBytesAreZero_first [] k 24 x rest Hk Hx) as Hf.
  cbn [app] in Hf. change (Buf.length []) with 0 in Hf.
  now rewrite Hf.
Qed.

Lemma lor_above (a b : Z) :
  0 <= a -> 2 ^ 64 <= b -> 2 ^ 64 <= Z.lor a b.
Proof.
  intros Ha Hb.
  assert (Hb0 : 0 < b) by lia.
  assert (HL : 0 <= Z.lor a b) by (apply Z.lor_nonneg; lia).
  pose proof (Z.log2_lor a b Ha ltac:(lia)) as Hlog.
  assert (H64 : 64 <= Z.log2 b) by (apply Z.log2_le_pow2; lia).
  assert (Hpos : 0 < Z.lor a b).
  { destruct (Z.eq_dec (Z.lor a b) 0) as [E | Hne]; [ | lia].
    rewrite E in Hlog. change (Z.log2 0) with 0 in Hlog. lia. }
  apply Z.log2_le_pow2; lia.
Qed.

(** The high bytes are zero exactly when the number is below [2^64]. *)
Lemma high_zero_iff (hi lo : Buffer) :
  List.length hi = 24%nat -> List.length lo = 8%nat ->
  BN.ofBuffer_be (hi ++ lo) < 2 ^ 64 <-> hi = repeat Byte.x00 24.
Proof.
  intros Hh Hl. split.
  - intros H. unfold BN.ofBuffer_be in H.
    rewrite rev_app_distr, le_combine_app, List.length_rev, Hl in H.
    pose proof (le_combine_bound (rev lo)) as Blo.
    pose proof (le_combine_bound (rev hi)) as Bhi.
    rewrite List.length_rev in Blo, Bhi. rewrite Hl in Blo.
    assert (Z0 : le_combine (rev hi) = 0).
    { destruct (Z.eq_dec (le_combine (rev hi)) 0) as [E | Hne];
        [exact E | exfalso].
      assert (Hge : 2 ^ 64 <= Z.shiftl (le_combine (rev hi))
                                (Z.of_nat 8 * 8)).
      { rewrite Z.shiftl_mul_pow2 by lia.
        change (2 ^ (Z.of_nat 8 * 8)) with (2 ^ 64). nia. }
      pose proof (lor_above (le_combine (rev lo))
                    (Z.shiftl (le_combine (rev hi)) (Z.of_nat 8 * 8))
                    ltac:(lia) Hge).
      lia. }
    rewrite <- (le_combine_0 24) in Z0.
    apply le_combine_inj in Z0;
      [ | now rewrite List.length_rev, repeat_length].
    apply (f_equal (@rev byte)) in Z0.
    now rewrite rev_involutive, rev_repeat in Z0.
  - intros ->. rewrite ofBuffer_be_zeros.
    pose proof (ofBuffer_be_bound lo) as Hb.
    unfold Buf.length in Hb. rewrite Hl in Hb. apply Hb.
Qed.


Lemma u256ToU64_cases (uint256Bytes : Buffer) :
  Buf.length uint256Bytes = 32 ->
  (BN.ofBuffer_be uint256Bytes < 2 ^ 64 /\
   u256ToU64 uint256Bytes = Ok (BN.ofBuffer_be uint256Bytes)) \/
  (2 ^ 64 <= BN.ofBuffer_be uint256Bytes /\
   exists k x rest,
     (k < 24)%nat /\ x <> Byte.x00 /\
     uint256Bytes = repeat Byte.x00 k ++ x :: rest /\
     u256ToU64 uint256Bytes =
     Throw (highByteError (Z.of_nat k) (byte.unsigned x))).
Proof.
  intros H. destruct (split_32 _ H) as (hi & lo & -> & Hh & Hl).
  destruct (leading_zeros hi) as [Hz | (k & x & rest & Hx & Hhi)].
  - left. rewrite Hh in Hz. subst hi.
    rewrite ofBuffer_be_zeros. split; [ | now apply u256ToU64_zero_high].
    pose proof (ofBuffer_be_bound lo) as Hb.
    unfold Buf.length in Hb. rewrite Hl in Hb. apply Hb.
  - right.
    assert (Hk : (k < 24)%nat).
    { rewrite Hhi, List.length_app, repeat_length in Hh.
      cbn [List.length] in Hh. lia. }
    split.
    + destruct (Z.lt_ge_cases (BN.ofBuffer_be (hi ++ lo)) (2 ^ 64))
        as [Hlt | Hge]; [exfalso | exact Hge].
      apply (high_zero_iff hi lo Hh Hl) in Hlt.
      rewrite Hhi in Hlt.
      apply (f_equal (fun l => nth k l Byte.x00)) in Hlt.
      rewrite app_nth2, repeat_length, Nat.sub_diag in Hlt
        by (rewrite repeat_length; lia).
      cbn [nth] in Hlt. rewrite nth_repeat in Hlt. contradiction.
    + exists k, x, (rest ++ lo).
      split; [exact Hk | split; [exact Hx | ]].
      assert (E : hi ++ lo = repeat Byte.x00 k ++ x :: rest ++ lo)
        by (rewrite Hhi, <- app_assoc; reflexivity).
      split; [exact E | ].
      rewrite E. apply u256ToU64_high_byte; try assumption.
      rewrite <- E. exact H.
Qed.

(** X14 (uint256 to u64).  [u256ToU64] refuses every input that is not 32
    bytes long.  On 32 bytes it returns the big-endian number they hold
    exactly when that number is below [2^64]; otherwise it throws the
    error that names the first of the 24 high bytes that is not zero and
    prints its value in hexadecimal.  The later comparison with
    [U64_MAX] fails for no input. *)
Theorem u256ToU64_accepts_exactly_u64 (uint256Bytes : Buffer) :
  (Buf.length uint256Bytes <> 32 ->
   u256ToU64 uint256Bytes =
   Throw (ErrorObj ("Invalid uint256 size: expected 32 bytes, got " ++
                    JS.showZ (Buf.length uint256Bytes) ++
                    " bytes")%string)) /\
  (Buf.length uint256Bytes = 32 ->
   (BN.ofBuffer_be uint256Bytes < 2 ^ 64 ->
    u256ToU64 uint256Bytes = Ok (BN.ofBuffer_be uint256Bytes)) /\
   (2 ^ 64 <= BN.ofBuffer_be uint256Bytes ->
    exists k x rest,
      (k < 24)%nat /\ x <> Byte.x00 /\
      uint256Bytes = repeat Byte.x00 k ++ x :: rest /\
      u256ToU64 uint256Bytes =
      Throw (highByteError (Z.of_nat k) (byte.unsigned x)))).
Proof.
  split.
  - intros H. unfold u256ToU64.
    destruct (Z.eqb_spec (Buf.length uint256Bytes) 32);
      [contradiction | reflexivity].
  - intros H.
    destruct (u256ToU64_cases uint256Bytes H) as [[Hlt E] | [Hge E]].
    + split; [intros _; exact E | lia].
    + split; [lia | intros _; exact E].
Qed.

(** ** The three words of the token bridge data *)

Lemma slices_96 (b : Buffer) :
  96 <= Buf.length b ->
  Buf.length (Buf.slice b 0 32) = 32 /\
  Buf.length (Buf.slice b 32 64) = 32 /\
  Buf.length (Buf.slice b 64 96) = 32.
Proof.
  intros H.
  split; [apply (length_slice b 0 32); lia | ].
  split; [apply (length_slice b 32 32); lia | ].
  apply (length_slice b 64 32); lia.
Qed.

Lemma decodeTokenBridgeData_long (onChainData : Buffer) :
  96 <= Buf.length onChainData ->
  decodeTokenBridgeData onChainData =
  match u256ToU64 (Buf.slice onChainData 32 64) with
  | Ok value =>
      Ok {| recipient := mkPublicKey (Buf.slice onChainData 0 32);
            amount := value;
            tokenMint := mkPublicKey (Buf.slice onChainData 64 96) |}
  | Throw error =>
      Throw (ErrorObj ("Failed to decode token bridge data: " ++
                       JS.messageOrString error)%string)
  end.
Proof.
  intros H. unfold decodeTokenBridgeData.
  destruct (Z.ltb_spec (Buf.length onChainData) 96); [lia | ].
  destruct (slices_96 onChainData H) as (H1 & H2 & H3).
  rewrite !newPublicKey_32 by assumption. cbn [JS.bind].
  now destruct (u256ToU64 (Buf.slice onChainData 32 64)).
Qed.


(** X15 (token bridge data, read back).  The ABI layout of a recipient
    key, an amount below [2^64] as a 32-byte big-endian word and a mint
    key decodes to these three values, whatever bytes follow the third
    word. *)
Theorem decodeTokenBridgeData_reads_abi_layout
    (recipientKey mintKey : PublicKey) (value : Z) (extra : Buffer) :
  Buf.length (toBuffer recipientKey) = 32 ->
  Buf.length (toBuffer mintKey) = 32 ->
  0 <= value < 2 ^ 64 ->
  decodeTokenBridgeData
    (toBuffer recipientKey ++ BN.toBuffer_be value 32 ++
     toBuffer mintKey ++ extra) =
  Ok {| recipient := recipientKey; amount := value;
        tokenMint := mintKey |}.
Proof.
  intros Hr Hm Hv.
  set (word := BN.toBuffer_be value 32).
  assert (Hw : Buf.length word = 32).
  { unfold word, BN.toBuffer_be, Buf.length.
    now rewrite List.length_rev, LittleEndianList.length_le_split. }
  assert (Hval : BN.ofBuffer_be word = value).
  { apply ofBuffer_be_toBuffer_be.
    change (2 ^ (8 * Z.of_nat 32)) with (2 ^ 64 * 2 ^ 192). nia. }
  set (data := toBuffer recipientKey ++ word ++ toBuffer mintKey ++ extra).
  assert (S1 : Buf.slice data 0 32 = toBuffer recipientKey).
  { pose proof (slice_app [] (toBuffer recipientKey)
                  (word ++ toBuffer mintKey ++ extra)) as S.
    rewrite Hr in S. exact S. }
  assert (S2 : Buf.slice data 32 64 = word).
  { pose proof (slice_app (toBuffer recipientKey) word
                  (toBuffer mintKey ++ extra)) as S.
    rewrite Hr, Hw in S. exact S. }
  assert (S3 : Buf.slice data 64 96 = toBuffer mintKey).
  { pose proof (slice_app (toBuffer recipientKey ++ word)
                  (toBuffer mintKey) extra) as S.
    rewrite length_app, Hr, Hw, Hm, <- app_assoc in S. exact S. }
  assert (Hlen : 96 <= Buf.length data).
  { unfold data. rewrite !length_app, Hr, Hw, Hm.
    pose proof (length_nonneg extra). lia. }
  rewrite (decodeTokenBridgeData_long data Hlen), S1, S2, S3.
  destruct (u256ToU64_cases word Hw) as [[_ ->] | [Hge _]];
    [ | rewrite Hval in Hge; lia].
  rewrite Hval. now destruct recipientKey, mintKey.
Qed.

(** X16 (token bridge data, every outcome).  Data shorter than 96 bytes is
    refused with its length.  Longer data decodes exactly when its second
    word, read as a big-endian number, is below [2^64]: the result holds
    the first word as the recipient key, that number as the amount and
    the third word as the mint key, and no byte after the third word is
    looked at.  Otherwise the overflow error of [u256ToU64] is thrown
    again behind "Failed to decode token bridge data: ". *)
Theorem decodeTokenBridgeData_outcomes (onChainData : Buffer) :
  (Buf.length onChainData < 96 ->
   decodeTokenBridgeData onChainData = Throw (tooShort onChainData)) /\
  (96 <= Buf.length onChainData ->
   let word := Buf.slice onChainData 32 64 in
   (BN.ofBuffer_be word < 2 ^ 64 ->
    decodeTokenBridgeData onChainData =
    Ok {| recipient := mkPublicKey (Buf.slice onChainData 0 32);
          amount := BN.ofBuffer_be word;
          tokenMint := mkPublicKey (Buf.slice onChainData 64 96) |}) /\
   (2 ^ 64 <= BN.ofBuffer_be word ->
    exists i byteValue,
      0 <= i < 24 /\
      decodeTokenBridgeData onChainData =
      Throw (ErrorObj ("Failed to decode token bridge data: " ++
                       JS.messageOrString
                         (highByteError i byteValue))%string))).
Proof.
  split.
  - intros H. unfold decodeTokenBridgeData.
    destruct (Z.ltb_spec (Buf.length onChainData) 96); [reflexivity | lia].
  - intros H word. rewrite (decodeTokenBridgeData_long onChainData H).
    destruct (slices_96 onChainData H) as (_ & Hw & _).
    fold word in Hw |- *.
    destruct (u256ToU64_cases word Hw)
      as [[Hlt ->] | [Hge (k & x & rest & Hk & _ & _ & ->)]].
    + split; [reflexivity | lia].
    + split; [lia | ]. intros _.
      exists (Z.of_nat k), (byte.unsigned x). split; [lia | reflexivity].
Qed.

Lemma decodeTokenBridgeData_Ok_inv (onChainData : Buffer)
    (data : TokenBridgeData) :
  decodeTokenBridgeData onChainData = Ok data ->
  Buf.length (toBuffer (recipient data)) = 32 /\
  Buf.length (toBuffer (tokenMint data)) = 32 /\
  0 <= amount data < 2 ^ 64.
Proof.
  intros H.
  destruct (Z.lt_ge_cases (Buf.length onChainData) 96) as [Hs | Hl].
  - unfold decodeTokenBridgeData in H.
    destruct (Z.ltb_spec (Buf.length onChainData) 96);
      [discriminate | lia].
  - rewrite (decodeTokenBridgeData_long onChainData Hl) in H.
    destruct (slices_96 onChainData Hl) as (H1 & H2 & H3).
    destruct (u256ToU64_cases _ H2)
      as [[Hlt E] | [_ (k & x & r & _ & _ & _ & E)]];
      rewrite E in H; [ | discriminate].
    injection H as <-. cbn [recipient tokenMint amount toBuffer].
    split; [exact H1 | split; [exact H3 | ]].
    split; [apply ofBuffer_be_bound | exact Hlt].
Qed.

End AbiFacts.


Module ValidationFacts.
Import Validation Web3Facts.
Local Open Scope list_scope.

(** ** White space *)

Lemma trimStart_empty (s : string) :
  JS.trimStart s = EmptyString <->
  (forall c, In c (list_ascii_of_string s) -> JS.isWhiteSpace c = true).
Proof.
  induction s as [ | c s IH]; cbn [JS.trimStart list_ascii_of_string In].
  - split; [intros _ c [] | reflexivity].
  - destruct (JS.isWhiteSpace c) eqn:Hc.
    + rewrite IH. split.
      * intros H c' [<- | Hin]; [exact Hc | now apply H].
      * intros H c' Hin. apply H. now right.
    + split; [discriminate | ].
      intros H. specialize (H c (or_introl eq_refl)). congruence.
Qed.

Lemma trimStart_head (s : string) (c : ascii) (rest : string) :
  JS.trimStart s = String c rest -> JS.isWhiteSpace c = false.
Proof.
  induction s as [ | c' s IH]; cbn [JS.trimStart]; [discriminate | ].
  destruct (JS.isWhiteSpace c') eqn:Hc; [exact IH | ].
  now intros [= <- _].
Qed.

Lemma trimEnd_empty (s : string) :
  JS.trimEnd s = EmptyString <->
  (forall c, In c (list_ascii_of_string s) -> JS.isWhiteSpace c = true).
Proof.
  induction s as [ | c s IH]; cbn [JS.trimEnd list_ascii_of_string In].
  - split; [intros _ c [] | reflexivity].
  - destruct (JS.trimEnd s) as [ | k kept] eqn:E.
    + destruct (JS.isWhiteSpace c) eqn:Hc.
      * split; [ | reflexivity].
        intros _ c' [<- | Hin]; [exact Hc | ].
        now apply (proj1 IH eq_refl).
      * split; [discriminate | ].
        intros H. specialize (H c (or_introl eq_refl)). congruence.
    + split; [discriminate | ].
      intros H.
      assert (Hs : String k kept = EmptyString)
        by (apply IH; intros c' Hin; apply H; now right).
      discriminate Hs.
Qed.

(** Nothing is left of a string by [trim] exactly when it holds white
    space only. *)
Lemma trim_empty (s : string) :
  JS.trim s = EmptyString <->
  (forall c, In c (list_ascii_of_string s) -> JS.isWhiteSpace c = true).
Proof.
  unfold JS.trim. split.
  - intros H. apply trimStart_empty.
    destruct (JS.trimStart s) as [ | c rest] eqn:E; [reflexivity | ].
    pose proof (trimStart_head s c rest E) as Hc.
    pose proof (proj1 (trimEnd_empty (String c rest)) H c
                  (or_introl eq_refl)).
    congruence.
  - intros H. apply trimStart_empty in H. now rewrite H.
Qed.

Lemma length_zero (s : string) :
  (String.length s =? 0)%nat = true <-> s = EmptyString.
Proof. destruct s; cbn; split; congruence. Qed.

(** ** Amounts *)

Lemma validateAmount_cases (amount : Z) :
  validateAmount amount =
  if amount =? 0 then Throw (ErrorObj "Amount cannot be zero")
  else if amount <? 0 then Throw (ErrorObj "Amount cannot be negative")
  else if amount >? 18446744073709551615 then
    Throw (ErrorObj ("Amount overflow: " ++ JS.showZ amount ++
                     " exceeds u64::MAX (18446744073709551615)")%string)
  else Ok tt.
Proof. reflexivity. Qed.

Lemma validateAmount_Ok (amount : Z) :
  validateAmount amount = Ok tt <-> 0 < amount <= 18446744073709551615.
Proof.
  rewrite validateAmount_cases.
  destruct (Z.eqb_spec amount 0); [split; [discriminate | lia] | ].
  destruct (Z.ltb_spec amount 0); [split; [discriminate | lia] | ].
  destruct (Z.gtb_spec amount 18446744073709551615);
    [split; [discriminate | lia] | split; [lia | reflexivity]].
Qed.

(** X17 (amounts).  [validateAmount] accepts exactly the integers from 1 to
    [2^64 - 1].  Zero, a negative integer and an integer above
    [2^64 - 1] are each refused with the error of their own, the last of
    them printing the amount in base ten. *)
Theorem validateAmount_accepts_exactly_positive_u64 (amount : Z) :
  (validateAmount amount = Ok tt <-> 0 < amount < 2 ^ 64) /\
  (amount = 0 ->
   validateAmount amount = Throw (ErrorObj "Amount cannot be zero")) /\
  (amount < 0 ->
   validateAmount amount = Throw (ErrorObj "Amount cannot be negative")) /\
  (2 ^ 64 <= amount ->
   validateAmount amount =
   Throw (ErrorObj ("Amount overflow: " ++ JS.showZ amount ++
                    " exceeds u64::MAX (18446744073709551615)")%string)).
Proof.
  change (2 ^ 64) with 18446744073709551616.
  split; [rewrite validateAmount_Ok; lia | ].
  rewrite validateAmount_cases.
  split; [intros ->; reflexivity | ].
  split; intros H.
  - destruct (Z.eqb_spec amount 0); [lia | ].
    destruct (Z.ltb_spec amount 0); [reflexivity | lia].
  - destruct (Z.eqb_spec amount 0); [lia | ].
    destruct (Z.ltb_spec amount 0); [lia | ].
    destruct (Z.gtb_spec amount 18446744073709551615);
      [reflexivity | lia].
Qed.


(** ** The stored message *)

Lemma validateGatewayAuthority_Ok (provided expected : PublicKey) :
  validateGatewayAuthority provided expected = Ok tt <->
  Web3.equals provided expected = true.
Proof.
  unfold validateGatewayAuthority.
  destruct (Web3.equals provided expected); cbn [negb];
    split; congruence.
Qed.

Lemma validatePublicKey_Ok (key : PublicKey) (fieldName : string) :
  validatePublicKey key fieldName = Ok tt <->
  Web3.equals key Web3.default = false.
Proof.
  unfold validatePublicKey.
  destruct (Web3.equals key Web3.default); split; congruence.
Qed.

Lemma white_or_not (s : string) :
  (forall c, In c (list_ascii_of_string s) -> JS.isWhiteSpace c = true) \/
  (exists c, In c (list_ascii_of_string s) /\ JS.isWhiteSpace c = false).
Proof.
  induction s as [ | c s IH]; cbn [list_ascii_of_string In].
  - left. intros c [].
  - destruct (JS.isWhiteSpace c) eqn:Hc.
    + destruct IH as [Hall | (c' & Hin & Hc')].
      * left. intros c' [<- | Hin]; [exact Hc | now apply Hall].
      * right. exists c'. split; [now right | exact Hc'].
    + right. exists c. split; [now left | exact Hc].
Qed.

Lemma not_blank (s : string) :
  (String.length s =? 0)%nat || (String.length (JS.trim s) =? 0)%nat =
  false <->
  exists c, In c (list_ascii_of_string s) /\ JS.isWhiteSpace c = false.
Proof.
  rewrite orb_false_iff. split.
  - intros [_ H].
    destruct (white_or_not s) as [Hall | Hex]; [ | exact Hex].
    apply trim_empty in Hall. rewrite Hall in H. discriminate H.
  - intros (c & Hin & Hc).
    assert (Hne : JS.trim s <> EmptyString).
    { rewrite trim_empty. intros Hall. specialize (Hall c Hin). congruence. }
    split.
    + destruct s; [contradiction Hin | reflexivity].
    + destruct (String.length (JS.trim s) =? 0)%nat eqn:E;
        [ | reflexivity].
      now apply length_zero in E.
Qed.

(** X18 (the stored message).  For a destination chain written in ASCII,
    [validateDecodedMessage] accepts a stored message exactly when its
    gateway authority equals the expected program, its amount is between
    1 and [2^64 - 1], neither its recipient nor its token mint is the
    default key, its transaction identifier is positive, its destination
    chain holds a character that is not white space and its sender is 32
    bytes long.  The transaction identifier has no upper bound, and the
    creation time and the bump are not looked at. *)
Theorem validateDecodedMessage_accepts_exactly
    (decodedMessage : DecodedMessagePda)
    (expectedGatewayProgramId : PublicKey) :
  JS.isAscii (destChainId decodedMessage) ->
  validateDecodedMessage decodedMessage expectedGatewayProgramId = Ok tt <->
  Web3.equals (gatewayAuthority decodedMessage) expectedGatewayProgramId =
    true /\
  0 < amount decodedMessage < 2 ^ 64 /\
  Web3.equals (recipient decodedMessage) Web3.default = false /\
  Web3.equals (tokenMint decodedMessage) Web3.default = false /\
  0 < txId decodedMessage /\
  (exists c,
     In c (list_ascii_of_string (destChainId decodedMessage)) /\
     JS.isWhiteSpace c = false) /\
  Buf.length (sender decodedMessage) = 32.
Proof.
  intros _. unfold validateDecodedMessage.
  change (2 ^ 64) with 18446744073709551616.
  pose proof (validateGatewayAuthority_Ok (gatewayAuthority decodedMessage)
                expectedGatewayProgramId) as HA.
  pose proof (validateAmount_Ok (amount decodedMessage)) as HM.
  pose proof (validatePublicKey_Ok (recipient decodedMessage) "recipient")
    as HR.
  pose proof (validatePublicKey_Ok (tokenMint decodedMessage) "tokenMint")
    as HT.
  pose proof (not_blank (destChainId decodedMessage)) as HD.
  destruct (validateGatewayAuthority _ _) as [[] | ]; cbn [JS.bind];
    [ | split; [discriminate | intros (H & _); now apply HA in H]].
  destruct (validateAmount _) as [[] | ]; cbn [JS.bind];
    [ | split; [discriminate
              | intros (_ & H & _);
                assert (Throw e = Ok tt) by (apply HM; lia);
                discriminate]].
  destruct (validatePublicKey (recipient decodedMessage) _) as [[] | ];
    cbn [JS.bind];
    [ | split; [discriminate | intros (_ & _ & H & _); now apply HR in H]].
  destruct (validatePublicKey (tokenMint decodedMessage) _) as [[] | ];
    cbn [JS.bind];
    [ | split; [discriminate
              | intros (_ & _ & _ & H & _); now apply HT in H]].
  unfold BN.isZero, BN.isNeg.
  destruct (Z.eqb_spec (txId decodedMessage) 0); cbn [orb];
    [split; [discriminate | lia] | ].
  destruct (Z.ltb_spec (txId decodedMessage) 0);
    [split; [discriminate | lia] | ].
  destruct ((String.length (destChainId decodedMessage) =? 0)%nat ||
            (String.length (JS.trim (destChainId decodedMessage)) =? 0)%nat)
    eqn:B.
  - split; [discriminate | ].
    intros (_ & _ & _ & _ & _ & Hc & _). apply HD in Hc. congruence.
  - destruct (Z.eqb_spec (Buf.length (sender decodedMessage)) 32);
      cbn [negb].
    + split; [ | reflexivity]. intros _.
      split; [now apply HA | ].
      split; [assert (0 < amount decodedMessage <= 18446744073709551615)
                by (now apply HM); lia | ].
      split; [now apply HR | ]. split; [now apply HT | ].
      split; [lia | ]. split; [now apply HD | assumption].
    + split; [discriminate | ]. intros (_ & _ & _ & _ & _ & _ & Hs).
      contradiction.
Qed.

(** X19 (validation after decoding).  The amount of token bridge data
    that [decodeTokenBridgeData] returned is never negative and never
    above [2^64 - 1]: [validateTokenBridgeData] accepts the data exactly
    when the amount is not zero and neither key is the default key, and
    [validateAmount] accepts the amount exactly when it is not zero. *)
Theorem decoded_bridge_data_validation (onChainData : Buffer)
    (data : Abi.TokenBridgeData) :
  Abi.decodeTokenBridgeData onChainData = Ok data ->
  0 <= Abi.amount data < 2 ^ 64 /\
  (Abi.validateTokenBridgeData data = Ok tt <->
   Abi.recipient data <> Web3.default /\ Abi.amount data <> 0 /\
   Abi.tokenMint data <> Web3.default) /\
  (validateAmount (Abi.amount data) = Ok tt <-> Abi.amount data <> 0).
Proof.
  intros H. apply AbiFacts.decodeTokenBridgeData_Ok_inv in H.
  destruct H as (Hr & Hm & Ha). split; [exact Ha | ].
  assert (Hd : Buf.length (toBuffer Web3.default) = 32) by reflexivity.
  pose proof (equals_iff (Abi.recipient data) Web3.default Hr Hd) as ER.
  pose proof (equals_iff (Abi.tokenMint data) Web3.default Hm Hd) as EM.
  split.
  - unfold Abi.validateTokenBridgeData, BN.isZero, BN.isNeg.
    destruct (Web3.equals (Abi.recipient data) Web3.default).
    + split; [discriminate | ]. intros (Hne & _).
      exfalso. now apply Hne, ER.
    + destruct (Z.eqb_spec (Abi.amount data) 0);
        [split; [discriminate | tauto] | ].
      destruct (Z.ltb_spec (Abi.amount data) 0); [lia | ].
      destruct (Web3.equals (Abi.tokenMint data) Web3.default).
      * split; [discriminate | ]. intros (_ & _ & Hne).
        exfalso. now apply Hne, EM.
      * split; [ | reflexivity]. intros _.
        split; [intros E; apply ER in E; discriminate | ].
        split; [assumption | intros E; apply EM in E; discriminate].
  - rewrite validateAmount_Ok.
    change (2 ^ 64) with 18446744073709551616 in Ha. lia.
Qed.

End ValidationFacts.


(* ===================================================================== *)
(** * The operations sent with [rpc]                                       *)
(* ===================================================================== *)

Module SdkOpsFacts.
Import Types Sdk SdkOps.
Local Open Scope list_scope.

Section WithClient.
Context {rt : Runtime} {client : Client}.
Variable this : ViaLabsSDK.

(** ** Three attempts, spelled out *)

Lemma retry3_success (name : string) (operation : M string) (w w1 : World)
    (v : string) (t : list Event) :
  operation w = (Ok v, w1, t) ->
  executeWithRetry name operation 3 w = (Ok v, w1, t).
Proof.
  intros H. unfold executeWithRetry.
  change (attemptNumbers 3) with [1; 2; 3]. cbn [retryLoop].
  now rewrite H.
Qed.

Lemma retry3_nonRetryable (name : string) (operation : M string)
    (w w1 : World) (e : thrown) (t : list Event) :
  operation w = (Throw e, w1, t) -> isNonRetryable e = true ->
  executeWithRetry name operation 3 w =
  (Throw (ErrorObj (name ++ " failed: " ++ JS.messageOrSelf e)%string),
   w1, t).
Proof.
  intros H He. unfold executeWithRetry.
  change (attemptNumbers 3) with [1; 2; 3]. cbn [retryLoop].
  now rewrite H, He.
Qed.

(** A first failure that is retried: the warning, the sleep of 1000 ms
    and then the two attempts that are left. *)
Lemma retry3_retried (name : string) (operation : M string)
    (w w1 : World) (e : thrown) (t : list Event) :
  operation w = (Throw e, w1, t) -> isNonRetryable e = false ->
  executeWithRetry name operation 3 w =
  let '(r, w2, t2) :=
    retryLoop name operation 3 [2; 3] (Some e) (elapse 1000 w1) in
  (r, w2, t ++ warned name 1 1000 ++ t2).
Proof.
  intros H He. unfold executeWithRetry.
  change (attemptNumbers 3) with [1; 2; 3]. cbn [retryLoop].
  rewrite H, He. change (1 <? 3) with true. cbv iota.
  change (backoffMs 1) with 1000. reflexivity.
Qed.

Lemma retryLoop_second_success (name : string) (operation : M string)
    (lastError : option thrown) (w w1 : World) (v : string)
    (t : list Event) :
  operation w = (Ok v, w1, t) ->
  retryLoop name operation 3 [2; 3] lastError w = (Ok v, w1, t).
Proof. intros H. cbn [retryLoop]. now rewrite H. Qed.

(** An operation that fails before it reaches the cluster fails the same
    way at every attempt. *)
Lemma retry3_local_failure (name : string) (operation : M string)
    (e : thrown) (w : World) :
  (forall w', operation w' = (Throw e, w', [])) ->
  executeWithRetry name operation 3 w =
  if isNonRetryable e then
    (Throw (ErrorObj (name ++ " failed: " ++ JS.messageOrSelf e)%string),
     w, [])
  else
    (Throw (ErrorObj (name ++ " failed after 3 attempts: " ++
                      JS.messageOrSelf e)%string),
     elapse 2000 (elapse 1000 w),
     warned name 1 1000 ++ warned name 2 2000).
Proof.
  intros H. unfold executeWithRetry.
  change (attemptNumbers 3) with [1; 2; 3]. cbn [retryLoop].
  rewrite !H. destruct (isNonRetryable e); [reflexivity | ].
  change (1 <? 3) with true. change (2 <? 3) with true.
  change (3 <? 3) with false. cbv iota.
  change (backoffMs 1) with 1000. change (backoffMs 2) with 2000.
  reflexivity.
Qed.

Lemma confirmed_local_failure {A : Type} (e : thrown)
    (k : A -> M string) (w : World) :
  bindM (bindM (lift (Throw e)) k)
    (fun signature =>
       bindM (request (confirmTransaction signature))
         (fun confirmation =>
            match confirmation with
            | Some err => raise (ErrorObj ("Transaction failed: " ++ err))
            | None => ret signature
            end)) w =
  (Throw e, w, []).
Proof. reflexivity. Qed.

Lemma invalid_nonRetryable (rest : string) :
  isNonRetryable (ErrorObj ("Invalid " ++ rest)) = true.
Proof.
  apply (RetryFacts.isNonRetryable_vocabulary _ "invalid");
    [cbn; tauto | reflexivity].
Qed.

Lemma too_long_retryable :
  isNonRetryable (ErrorObj "byte array longer than desired length") = false.
Proof. reflexivity. Qed.


(** ** Failures before the cluster is reached *)

Lemma pdaGateway_negative (chainId : Z) :
  chainId < 0 ->
  pdaGateway this chainId =
  Throw (ErrorObj ("Invalid chain ID: " ++ JS.showZ chainId)%string).
Proof.
  intros H. unfold pdaGateway, Pdas.getGatewayPda.
  now rewrite PdasFacts.validateChainId_negative.
Qed.

Lemma pdaGateway_too_wide (chainId : Z) :
  2 ^ 64 <= chainId ->
  pdaGateway this chainId =
  Throw (ErrorObj "byte array longer than desired length").
Proof.
  intros H. unfold pdaGateway, Pdas.getGatewayPda, Constants.CHAIN_ID_BYTES.
  rewrite PdasFacts.validateChainId_ok by lia.
  rewrite BNFacts.toArrayLike_le_too_long; [reflexivity | ].
  rewrite Z.abs_eq by lia. exact H.
Qed.

Lemma getRegistryEnum_known (type : string) :
  In type ["via"; "chain"; "project"]%string ->
  getRegistryEnum type = Ok (ArgEnum type).
Proof.
  intros [<- | [<- | [<- | []]]]; reflexivity.
Qed.

Lemma getRegistryEnum_unknown (type : string) :
  ~ In type ["via"; "chain"; "project"]%string ->
  getRegistryEnum type =
  Throw (ErrorObj ("Invalid registry type: " ++ type)%string).
Proof.
  intros H. unfold getRegistryEnum.
  destruct (String.eqb_spec type "via") as [-> | _];
    [contradiction H; cbn; tauto | ].
  destruct (String.eqb_spec type "chain") as [-> | _];
    [contradiction H; cbn; tauto | ].
  destruct (String.eqb_spec type "project") as [-> | _];
    [contradiction H; cbn; tauto | reflexivity].
Qed.

(** The operations, once the gateway address of [chainId] cannot be
    derived. *)
Ltac local_failure e He :=
  unfold initializeGateway, setSystemEnabled, initializeCounter,
    _sendMessageInternal, initializeRegistry, addSigner, removeSigner,
    updateSigners, updateThreshold, setRegistryEnabled, executeTransaction,
    registryAccounts;
  rewrite ?getRegistryEnum_known by assumption;
  rewrite He;
  rewrite (retry3_local_failure _ _ e) by (intros ?; reflexivity).

(** X20 (negative chain identifier).  The gateway, counter and registry
    operations derive their addresses inside the retried operation.  With
    a negative chain identifier each of them fails at the first attempt
    with its own name and "Invalid chain ID: " and the identifier: no
    transaction is sent, nothing is slept, the world is untouched. *)
Theorem operations_refuse_negative_chain (chainId : Z) (w : World) :
  chainId < 0 ->
  let refused (name : string) : completion string * World * list Event :=
    (Throw (ErrorObj (name ++ " failed: Invalid chain ID: " ++
                      JS.showZ chainId)%string), w, []) in
  initializeGateway this chainId w = refused "initializeGateway" /\
  (forall enabled,
     setSystemEnabled this chainId enabled w = refused "setSystemEnabled") /\
  initializeCounter this chainId w = refused "initializeCounter" /\
  (forall programId recipient destChainId chainData confirmations,
     _sendMessageInternal this chainId programId recipient destChainId
       chainData confirmations w = refused "_sendMessageInternal") /\
  (forall type,
     In type ["via"; "chain"; "project"]%string ->
     (forall signers threshold,
        initializeRegistry this type chainId signers threshold w =
        refused ("initializeRegistry(" ++ type ++ ")")%string) /\
     (forall signer,
        addSigner this type chainId signer w =
        refused ("addSigner(" ++ type ++ ")")%string) /\
     (forall signer,
        removeSigner this type chainId signer w =
        refused ("removeSigner(" ++ type ++ ")")%string) /\
     (forall signers threshold,
        updateSigners this type chainId signers threshold w =
        refused ("updateSigners(" ++ type ++ ")")%string) /\
     (forall threshold,
        updateThreshold this type chainId threshold w =
        refused ("updateThreshold(" ++ type ++ ")")%string) /\
     (forall enabled,
        setRegistryEnabled this type chainId enabled w =
        refused ("setRegistryEnabled(" ++ type ++ ")")%string)).
Proof.
  intros Hc refused. subst refused.
  pose proof (pdaGateway_negative chainId Hc) as He.
  assert (Hnr : isNonRetryable
                  (ErrorObj ("Invalid chain ID: " ++ JS.showZ chainId)) =
                true)
    by exact (invalid_nonRetryable ("chain ID: " ++ JS.showZ chainId)).
  set (e := ErrorObj ("Invalid chain ID: " ++ JS.showZ chainId)) in *.
  repeat match goal with
         | |- _ /\ _ => split
         | |- forall _, _ => intro
         end;
    local_failure e He; rewrite Hnr; reflexivity.
Qed.


(** X21 (chain identifier that is too wide).  A chain identifier from
    [2^64] on passes [validateChainId] and fails in bn.js, with a message
    that is in no entry of the vocabulary: the same local failure is
    retried.  Each operation makes three attempts, sleeps 1000 ms and
    2000 ms between them, sends no transaction and throws its name with
    "failed after 3 attempts: byte array longer than desired length". *)
Theorem operations_retry_too_wide_chain (chainId : Z) (w : World) :
  2 ^ 64 <= chainId ->
  let exhausted (name : string)
    : completion string * World * list Event :=
    (Throw (ErrorObj (name ++ " failed after 3 attempts: " ++
                      "byte array longer than desired length")%string),
     elapse 2000 (elapse 1000 w),
     warned name 1 1000 ++ warned name 2 2000) in
  initializeGateway this chainId w = exhausted "initializeGateway" /\
  (forall enabled,
     setSystemEnabled this chainId enabled w =
     exhausted "setSystemEnabled") /\
  initializeCounter this chainId w = exhausted "initializeCounter" /\
  (forall programId recipient destChainId chainData confirmations,
     _sendMessageInternal this chainId programId recipient destChainId
       chainData confirmations w = exhausted "_sendMessageInternal") /\
  (forall type,
     In type ["via"; "chain"; "project"]%string ->
     (forall signers threshold,
        initializeRegistry this type chainId signers threshold w =
        exhausted ("initializeRegistry(" ++ type ++ ")")%string) /\
     (forall signer,
        addSigner this type chainId signer w =
        exhausted ("addSigner(" ++ type ++ ")")%string) /\
     (forall signer,
        removeSigner this type chainId signer w =
        exhausted ("removeSigner(" ++ type ++ ")")%string) /\
     (forall signers threshold,
        updateSigners this type chainId signers threshold w =
        exhausted ("updateSigners(" ++ type ++ ")")%string) /\
     (forall threshold,
        updateThreshold this type chainId threshold w =
        exhausted ("updateThreshold(" ++ type ++ ")")%string) /\
     (forall enabled,
        setRegistryEnabled this type chainId enabled w =
        exhausted ("setRegistryEnabled(" ++ type ++ ")")%string)).
Proof.
  intros Hc exhausted. subst exhausted.
  pose proof (pdaGateway_too_wide chainId Hc) as He.
  pose proof too_long_retryable as Hr.
  set (e := ErrorObj "byte array longer than desired length") in *.
  repeat match goal with
         | |- _ /\ _ => split
         | |- forall _, _ => intro
         end;
    local_failure e He; rewrite Hr; reflexivity.
Qed.

(** X22 (registry type that is not one of the three).  A registry type
    other than "via", "chain" and "project" makes each of the six
    registry operations fail at the first attempt, whatever the chain
    identifier, with "Invalid registry type: " and the type under the
    name of the operation; no address is derived and no transaction is
    sent. *)
Theorem registry_operations_refuse_unknown_type (type : string)
    (chainId : Z) (w : World) :
  ~ In type ["via"; "chain"; "project"]%string ->
  let refused (name : string) : completion string * World * list Event :=
    (Throw (ErrorObj (name ++ " failed: Invalid registry type: " ++
                      type)%string), w, []) in
  (forall signers threshold,
     initializeRegistry this type chainId signers threshold w =
     refused ("initializeRegistry(" ++ type ++ ")")%string) /\
  (forall signer,
     addSigner this type chainId signer w =
     refused ("addSigner(" ++ type ++ ")")%string) /\
  (forall signer,
     removeSigner this type chainId signer w =
     refused ("removeSigner(" ++ type ++ ")")%string) /\
  (forall signers threshold,
     updateSigners this type chainId signers threshold w =
     refused ("updateSigners(" ++ type ++ ")")%string) /\
  (forall threshold,
     updateThreshold this type chainId threshold w =
     refused ("updateThreshold(" ++ type ++ ")")%string) /\
  (forall enabled,
     setRegistryEnabled this type chainId enabled w =
     refused ("setRegistryEnabled(" ++ type ++ ")")%string).
Proof.
  intros Ht refused. subst refused.
  pose proof (getRegistryEnum_unknown type Ht) as He.
  assert (Hnr : isNonRetryable
                  (ErrorObj ("Invalid registry type: " ++ type)) = true)
    by exact (invalid_nonRetryable ("registry type: " ++ type)).
  set (e := ErrorObj ("Invalid registry type: " ++ type)) in *.
  repeat match goal with
         | |- _ /\ _ => split
         | |- forall _, _ => intro
         end;
    unfold initializeRegistry, addSigner, removeSigner, updateSigners,
      updateThreshold, setRegistryEnabled, executeTransaction;
    rewrite He;
    rewrite (retry3_local_failure _ _ e) by (intros ?; reflexivity);
    rewrite Hnr; reflexivity.
Qed.


(** ** Confirmation *)

Lemma confirmed_run (txBuilder : M string) (w w1 w1' : World)
    (signature : string) (confirmation : option string)
    (t : list Event) :
  txBuilder w = (Ok signature, w1, t) ->
  confirmTransaction signature w1 = (Ok confirmation, w1') ->
  bindM txBuilder
    (fun signature =>
       bindM (request (confirmTransaction signature))
         (fun confirmation =>
            match confirmation with
            | Some err => raise (ErrorObj ("Transaction failed: " ++ err))
            | None => ret signature
            end)) w =
  (match confirmation with
   | Some err => Throw (ErrorObj ("Transaction failed: " ++ err)%string)
   | None => Ok signature
   end, w1', t).
Proof.
  intros Hb Hc. unfold bindM, request. rewrite Hb, Hc.
  destruct confirmation; cbn; now rewrite !app_nil_r.
Qed.

(** X23 (a transaction that fails on the cluster).  When the transaction
    of the first attempt is confirmed with an error, the attempt fails
    with "Transaction failed: " and the error as JSON.  If that text
    holds an entry of the vocabulary the operation ends there, under its
    name.  If not, the builder runs again after 1000 ms and a second
    transaction is sent; when that one is confirmed without error its
    signature is the result. *)
Theorem executeTransaction_sends_again (name : string)
    (txBuilder : M string) (w0 w1 w1' : World) (signature1 err : string)
    (t1 : list Event) :
  txBuilder w0 = (Ok signature1, w1, t1) ->
  confirmTransaction signature1 w1 = (Ok (Some err), w1') ->
  (isNonRetryable (ErrorObj ("Transaction failed: " ++ err)) = true ->
   executeTransaction name txBuilder 3 w0 =
   (Throw (ErrorObj (name ++ " failed: Transaction failed: " ++
                     err)%string),
    w1', t1)) /\
  (isNonRetryable (ErrorObj ("Transaction failed: " ++ err)) = false ->
   forall signature2 w2 w2' t2,
     txBuilder (elapse 1000 w1') = (Ok signature2, w2, t2) ->
     confirmTransaction signature2 w2 = (Ok None, w2') ->
     executeTransaction name txBuilder 3 w0 =
     (Ok signature2, w2', t1 ++ warned name 1 1000 ++ t2)).
Proof.
  intros Hb Hc. unfold executeTransaction.
  pose proof (confirmed_run txBuilder w0 w1 w1' signature1 (Some err) t1
                Hb Hc) as H1.
  split.
  - intros Hnr.
    now rewrite (retry3_nonRetryable _ _ _ _ _ _ H1 Hnr).
  - intros Hr signature2 w2 w2' t2 Hb2 Hc2.
    rewrite (retry3_retried _ _ _ _ _ _ H1 Hr).
    pose proof (confirmed_run txBuilder (elapse 1000 w1') w2 w2'
                  signature2 None t2 Hb2 Hc2) as H2.
    now rewrite (retryLoop_second_success _ _ _ _ _ _ _ H2).
Qed.

(** ** The lookup table *)

Lemma loadLookupTable_found (lookupTableAddress : PublicKey)
    (table : LookupTable) (w w1 : World) :
  getAddressLookupTable lookupTableAddress w = (Ok (Some table), w1) ->
  loadLookupTable this lookupTableAddress w =
  (Ok (withLookupTable this table), w1,
   if existsb (fun addr => Web3.equals addr (gasHandlerProgramId this))
        (addresses table)
   then []
   else [EvWarn (gasHandlerMissing this lookupTableAddress)]).
Proof.
  intros H. unfold loadLookupTable, bindM, request. rewrite H.
  destruct (existsb _ (addresses table)); reflexivity.
Qed.

(** X24 (loading the lookup table).  When the cluster knows no table at
    the address, [loadLookupTable] throws "Lookup table not found: " and
    the address in base 58.  When it returns a table, the table is kept
    whether or not it lists the gas handler program: a table without it
    only brings the warning that names the table and the expected
    program, and a table that lists it brings none. *)
Theorem loadLookupTable_keeps_any_table (lookupTableAddress : PublicKey)
    (w w1 : World) :
  (getAddressLookupTable lookupTableAddress w = (Ok None, w1) ->
   loadLookupTable this lookupTableAddress w =
   (Throw (ErrorObj ("Lookup table not found: " ++
                     Web3.toBase58 lookupTableAddress)%string), w1, [])) /\
  (forall table,
     getAddressLookupTable lookupTableAddress w = (Ok (Some table), w1) ->
     (~ (exists addr,
           In addr (addresses table) /\
           Web3.equals addr (gasHandlerProgramId this) = true) ->
      loadLookupTable this lookupTableAddress w =
      (Ok (withLookupTable this table), w1,
       [EvWarn (gasHandlerMissing this lookupTableAddress)])) /\
     ((exists addr,
         In addr (addresses table) /\
         Web3.equals addr (gasHandlerProgramId this) = true) ->
      loadLookupTable this lookupTableAddress w =
      (Ok (withLookupTable this table), w1, [])) /\
     lookupTableAccount (withLookupTable this table) = Some table /\
     gasHandlerProgramId (withLookupTable this table) =
     gasHandlerProgramId this).
Proof.
  split.
  - intros H. unfold loadLookupTable, bindM, request. now rewrite H.
  - intros table H. rewrite (loadLookupTable_found _ _ _ _ H).
    destruct (existsb _ (addresses table)) eqn:E.
    + apply existsb_exists in E.
      split; [intros Hno; now contradiction Hno | ].
      split; [reflexivity | split; reflexivity].
    + split; [reflexivity | ].
      split; [ | split; reflexivity].
      intros Hyes. apply existsb_exists in Hyes. congruence.
Qed.

(** X25 (the table that was loaded is the table that is used).  After
    [loadLookupTable] has returned, the V0 operations no longer stop at
    the missing table: with an accepted number of signatures and
    instructions that build, they hand the instructions to the retry
    wrapper, which sends them against the very table the cluster
    returned, at most three times. *)
Theorem v0_operations_use_loaded_table (lookupTableAddress : PublicKey)
    (w w1 : World) (loaded : ViaLabsSDK) (t : list Event) :
  loadLookupTable this lookupTableAddress w = (Ok loaded, w1, t) ->
  exists table,
    getAddressLookupTable lookupTableAddress w = (Ok (Some table), w1) /\
    lookupTableAccount loaded = Some table /\
    (forall m signatures instructions w2 w3 t2,
       validateSignatureCountV0 signatures = Ok tt ->
       createTxPdaInstructions loaded m signatures w2 =
       (Ok instructions, w3, t2) ->
       createTxPdaWithSignaturesV0 loaded m signatures w2 =
       let '(r, w4, t4) :=
         executeWithRetry "createTxPda"
           (call (EvSendV0 instructions) (sendV0 table instructions)) 3
           w3 in
       (r, w4, t2 ++ t4)) /\
    (forall m signatures include remaining instructions w2 w3 t2,
       validateSignatureCountV0 signatures = Ok tt ->
       processMessageV0Instructions loaded m signatures include remaining
         w2 = (Ok instructions, w3, t2) ->
       processMessageWithSignaturesV0 loaded m signatures include
         remaining w2 =
       let '(r, w4, t4) :=
         executeWithRetry "processMessage"
           (call (EvSendV0 instructions) (sendV0 table instructions)) 3
           w3 in
       (r, w4, t2 ++ t4)).
Proof.
  intros H.
  destruct (getAddressLookupTable lookupTableAddress w)
    as [[[table | ] | e] w'] eqn:G.
  - rewrite (loadLookupTable_found _ _ _ _ G) in H.
    injection H as <- <- _. exists table.
    split; [reflexivity | split; [reflexivity | split]].
    + intros m signatures instructions w2 w3 t2 Hv Hb.
      unfold createTxPdaWithSignaturesV0.
      rewrite Hv, SdkFacts.bind_lift_Ok.
      now rewrite (SdkFacts.bind_Ok _ _ _ _ _ _ Hb).
    + intros m signatures include remaining instructions w2 w3 t2 Hv Hb.
      unfold processMessageWithSignaturesV0.
      rewrite Hv, SdkFacts.bind_lift_Ok.
      now rewrite (SdkFacts.bind_Ok _ _ _ _ _ _ Hb).
  - unfold loadLookupTable, bindM, request in H. rewrite G in H.
    discriminate H.
  - unfold loadLookupTable, bindM, request in H. rewrite G in H.
    discriminate H.
Qed.

End WithClient.

End SdkOpsFacts.


(* ===================================================================== *)
(** * The theorems at concrete inputs                                      *)
(* ===================================================================== *)

Module Scenarios.
Import Encoding Spec Signatures Sdk AssemblySpec RetrySchedule Sim.
Local Open Scope list_scope.

Ltac evaluate := vm_compute; (reflexivity || discriminate).

Lemma largest_valid : validMessage largest.
Proof. repeat split; evaluate. Defined.

Lemma scenario_valid : validMessage scenario.
Proof. repeat split; evaluate. Defined.

Lemma blank_valid : validMessage blank.
Proof. repeat split; evaluate. Defined.

(** The scenario occupies 16+8+8+4+20+4+32+4+96+4+0 bytes. *)
Example scenario_encoded_length :
  exists encoded, encode scenario = Ok encoded /\ Buf.length encoded = 196.
Proof. eexists. split; reflexivity. Qed.

(** The round trip with every field at its maximum and with every
    variable-length field empty. *)
Lemma decode_encode_roundtrip_witness :
  (validMessage largest /\
   (encoded <- encodeViaMessage (txId largest) (sourceChainId largest)
                 (destChainId largest) (sender largest) (recipient largest)
                 (onChainData largest) (offChainData largest) ;;
    decodeViaMessage encoded)%js = Ok largest) /\
  (validMessage blank /\
   (encoded <- encodeViaMessage (txId blank) (sourceChainId blank)
                 (destChainId blank) (sender blank) (recipient blank)
                 (onChainData blank) (offChainData blank) ;;
    decodeViaMessage encoded)%js = Ok blank).
Proof.
  split; (split; [ | apply EncodingFacts.decode_encode_roundtrip]).
  - exact largest_valid.
  - exact largest_valid.
  - exact blank_valid.
  - exact blank_valid.
Defined.

(** A message with every field at its bound is encoded to its layout. *)
Lemma encode_rejects_exactly_oversized_witness :
  integersFit largest /\ encode largest = Ok (layout largest).
Proof.
  assert (Hfit : integersFit largest) by (repeat split; evaluate).
  split; [exact Hfit | ].
  destruct (EncodingFacts.encode_rejects_exactly_oversized largest)
    as [H _].
  destruct (H Hfit) as [_ Hbound].
  apply Hbound; reflexivity.
Defined.

(** Thirty-five zero bytes stop inside the prefix of the sender; forty-nine
    hold one byte more than four empty fields. *)
Lemma decodeViaMessage_consumes_exactly_witness :
  (frame fields (repeat Byte.x00 35) = Truncated /\
   exists e, decodeViaMessage (repeat Byte.x00 35) = Throw e /\
             isTruncatedBuffer e = true) /\
  (frame fields (repeat Byte.x00 49) = Complete [Byte.x00] /\
   exists e, decodeViaMessage (repeat Byte.x00 49) = Throw e /\
             isTrailingBytes e = true).
Proof.
  split.
  - split; [reflexivity | ].
    apply (EncodingFacts.decodeViaMessage_consumes_exactly
             (repeat Byte.x00 35)).
    reflexivity.
  - split; [reflexivity | ].
    apply (proj1 (proj2 (EncodingFacts.decodeViaMessage_consumes_exactly
                           (repeat Byte.x00 49))) [Byte.x00]).
    + reflexivity.
    + discriminate.
Defined.

Lemma createMessageHash_keccak_of_encoding_witness :
  validMessage scenario /\
  exists encoded,
    encode scenario = Ok encoded /\
    createMessageHash (txId scenario) (sourceChainId scenario)
      (destChainId scenario) (sender scenario) (recipient scenario)
      (onChainData scenario) (offChainData scenario) =
    Ok (Keccak.keccak256 encoded) /\
    Buf.length (Keccak.keccak256 encoded) = 32.
Proof.
  split; [exact scenario_valid | ].
  apply (SignaturesFacts.createMessageHash_keccak_of_encoding scenario).
  exact scenario_valid.
Defined.


(** ** On the simulated runtime *)

#[local] Existing Instance simulated.

(** With signatures [A; B] the transaction sent is the instruction of [A],
    that of [B], then the main instruction. *)
Lemma verification_instructions_in_caller_order_witness :
  validMessage scenario /\ [sigA; sigB] <> [] /\
  @verificationsOf (runtime timeout) digest [sigA; sigB] [verifyA; verifyB] /\
  exists accts,
    createTxPdaWithSignatures (sdk timeout None) scenario [sigA; sigB]
      start =
    (Ok "signature"%string, submit start,
     [EvInstruction (createTxPdaCall scenario accts);
      EvSendAndConfirm
        [verifyA; verifyB; AnchorCall (createTxPdaCall scenario accts)]]).
Proof.
  assert (Hv : @verificationsOf (runtime timeout) digest [sigA; sigB]
                 [verifyA; verifyB])
    by (repeat constructor).
  split; [exact scenario_valid | ].
  split; [discriminate | ].
  split; [exact Hv | ].
  destruct (proj2 (SdkFacts.verification_instructions_in_caller_order
                     (sdk timeout None) scenario [sigA; sigB] start)
              [verifyA; verifyB] scenario_valid ltac:(discriminate) Hv)
    as (H & _).
  eexists.
  apply (H _ (AnchorCall _) start); reflexivity.
Defined.


(** Four signatures are refused by the V0 operation; three reach the
    cluster. *)
Lemma v0_signature_cap_witness :
  createTxPdaWithSignaturesV0 (sdk timeout (Some [])) scenario
    (repeat sigA 4) start =
    (Throw (tooManySignatures 4), start, []) /\
  validateSignatureCountV0 (repeat sigA 3) = Ok tt.
Proof.
  split.
  - apply (proj1 (SdkFacts.v0_signature_cap (sdk timeout (Some []))
                    scenario (repeat sigA 4) false None start)).
    apply le_n.
  - apply (proj2 (SdkFacts.v0_signature_cap (sdk timeout (Some []))
                    scenario (repeat sigA 3) false None start)).
    reflexivity.
Defined.

(** Without signatures the Standard operation sends a transaction that
    holds the main instruction alone. *)
Lemma empty_signature_list_witness :
  validMessage scenario /\
  exists accts,
    createTxPdaWithSignatures (sdk timeout None) scenario [] start =
    (Ok "signature"%string, submit start,
     [EvInstruction (createTxPdaCall scenario accts);
      EvSendAndConfirm [AnchorCall (createTxPdaCall scenario accts)]]).
Proof.
  split; [exact scenario_valid | ].
  destruct (SdkFacts.empty_signature_list (sdk timeout None) scenario
              false None start) as (_ & _ & H).
  destruct (H scenario_valid) as (Hcreate & _).
  eexists. apply (Hcreate _ (AnchorCall _) start); reflexivity.
Defined.

Lemma resolvers_seed_grammar_witness :
  0 <= 43113 < 2 ^ 64 /\ 0 <= 1 < 2 ^ 128 /\
  Pdas.getTxIdPda derive someProgram 43113 1 =
  address derive
    [Buf.fromString "tx"; le_split 8 43113; le_split 16 1] someProgram.
Proof.
  assert (Hc : 0 <= 43113 < 2 ^ 64) by (split; evaluate).
  assert (Ht : 0 <= 1 < 2 ^ 128) by (split; evaluate).
  split; [exact Hc | ]. split; [exact Ht | ].
  destruct (PdasFacts.resolvers_seed_grammar derive someProgram 43113 1
              Hc Ht) as (_ & _ & _ & Htx & _).
  exact Htx.
Defined.

(** For the transaction 1 the helper derives from 8 bytes and the operation
    from 16; the simulated derivation gives them two addresses. *)
Lemma decoded_message_seeds_disagree_witness :
  0 <= txId scenario < 2 ^ 64 /\
  [Buf.fromString "decoded"; le_split 8 (txId scenario)] <>
  [Buf.fromString "decoded"; le_split 16 (txId scenario)] /\
  (forall helper bump operation config client,
     Pdas.deriveDecodedMessagePda derive (txId scenario) someProgram =
       Ok (helper, bump) ->
     clientAccounts scenario (Some [someProgram]) =
       Ok (Some operation, config, client) ->
     helper <> operation).
Proof.
  assert (H : 0 <= txId scenario < 2 ^ 64) by (split; evaluate).
  split; [exact H | ].
  destruct (proj1 (SdkFacts.decoded_message_seeds_disagree
                     (rt := simulated) scenario someProgram []) H)
    as (Hhelper & Hoperation & Hseeds).
  split; [exact Hseeds | ].
  intros helper bump operation config client Hh Ho.
  vm_compute in Hh. vm_compute in Ho.
  injection Hh as <- _. injection Ho as <- _ _. discriminate.
Defined.


(** ** More on the codec *)

(** The layout of the scenario decodes, and encodes back to itself. *)
Lemma decoded_message_reencodes_witness :
  decodeViaMessage (layout scenario) = Ok scenario /\
  encode scenario = Ok (layout scenario).
Proof.
  assert (Hd : decodeViaMessage (layout scenario) = Ok scenario)
    by evaluate.
  split; [exact Hd | ].
  destruct (EncodingFacts.decoded_message_reencodes (layout scenario)
              scenario Hd) as (_ & Hb & _).
  apply Hb. apply scenario_valid.
Defined.

(** A sender of 65 bytes: refused when encoding, accepted when
    decoding. *)
Lemma decodeViaMessage_applies_no_size_bound_witness :
  oversized SimOps.longSender /\
  decodeViaMessage (layout SimOps.longSender) = Ok SimOps.longSender /\
  JS.throws (encode SimOps.longSender).
Proof.
  assert (Ho : oversized SimOps.longSender) by (left; evaluate).
  split; [exact Ho | ].
  destruct (EncodingFacts.decodeViaMessage_applies_no_size_bound
              SimOps.longSender)
    as [Hd Ht]; try (split; evaluate); try evaluate.
  split; [exact Hd | exact (Ht Ho)].
Defined.

(** The transaction identifiers 1 and -1 are encoded to the same bytes. *)
Lemma encodeViaMessage_injective_witness :
  encode SimOps.negated = Ok (layout scenario) /\
  encode scenario = Ok (layout scenario) /\
  magnitudes SimOps.negated = magnitudes scenario.
Proof.
  assert (H1 : encode SimOps.negated = Ok (layout scenario)) by evaluate.
  assert (H2 : encode scenario = Ok (layout scenario)) by evaluate.
  split; [exact H1 | split; [exact H2 | ]].
  exact (proj1 (EncodingFacts.encodeViaMessage_injective SimOps.negated
                  scenario (layout scenario) H1 H2)).
Defined.

(** The transaction identifier -1 comes back as 1. *)
Lemma roundtrip_returns_magnitudes_witness :
  (encoded <- encode SimOps.negated ;; decodeViaMessage encoded)%js =
  Ok scenario.
Proof.
  assert (Hfit : integersFit SimOps.negated) by (repeat split; evaluate).
  assert (Hb : withinBounds SimOps.negated) by (repeat split; evaluate).
  exact (proj1 (EncodingFacts.roundtrip_returns_magnitudes SimOps.negated
                  Hfit Hb)).
Defined.

(** Three bytes behind their prefix, between two other bytes. *)
Lemma lengthPrefixed_roundtrip_witness :
  exists framed,
    encodeLengthPrefixed [Byte.x01; Byte.x02; Byte.x03] = Ok framed /\
    Buf.length framed = 4 + 3 /\
    decodeLengthPrefixed ([Byte.x09] ++ framed ++ [Byte.x08]) 1 "sender" =
    Ok [Byte.x01; Byte.x02; Byte.x03].
Proof.
  apply (EncodingFacts.lengthPrefixed_roundtrip
           [Byte.x01; Byte.x02; Byte.x03] [Byte.x09] [Byte.x08] "sender").
  evaluate.
Defined.


(** ** More on the resolvers *)

(** The chain -1 and the transaction -5. *)
Lemma resolvers_refuse_negative_identifiers_witness :
  Pdas.getGatewayPda derive someProgram (-1) =
    Throw (ErrorObj "Invalid chain ID: -1") /\
  Pdas.getTxIdPda derive someProgram 43113 (-5) =
    Throw (ErrorObj "Invalid TX ID: -5").
Proof.
  destruct (PdasFacts.resolvers_refuse_negative_identifiers derive
              someProgram (-1) (-5))
    as (Hg & _ & _ & _ & _ & Ht & _); try evaluate.
  split; [exact Hg | ]. apply Ht. evaluate.
Defined.

(** The chain [2^64] and the transaction [2^128]. *)
Lemma resolvers_leave_width_to_bn_witness :
  Types.validateChainId (2 ^ 64) = Ok tt /\
  Pdas.getGatewayPda derive someProgram (2 ^ 64) =
    Throw (ErrorObj "byte array longer than desired length") /\
  Pdas.getTxIdPda derive someProgram 43113 (2 ^ 128) =
    Throw (ErrorObj "byte array longer than desired length").
Proof.
  destruct (PdasFacts.resolvers_leave_width_to_bn derive someProgram
              (2 ^ 64) (2 ^ 128))
    as (Hv & _ & Hg & _ & _ & _ & _ & _ & _ & Ht); try evaluate.
  split; [exact Hv | split; [exact Hg | ]].
  apply Ht. split; evaluate.
Defined.

(** The two counters of Avalanche Fuji. *)
Lemma other_resolvers_seed_grammar_witness :
  Pdas.getCounterPda derive someProgram 43113 =
    address derive [Buf.fromString "counter"; le_split 8 43113]
      someProgram /\
  Pdas.getTxCounterPda derive someProgram 43113 =
    address derive [Buf.fromString "tx_counter"; le_split 8 43113]
      someProgram.
Proof.
  destruct (PdasFacts.other_resolvers_seed_grammar derive someProgram
              43113 someProgram someProgram someProgram)
    as (Hc & Ht & _); [split; evaluate | ].
  split; [exact Hc | exact Ht].
Defined.

(** The gateways of two chains: two lists of seeds. *)
Lemma resolvers_tell_inputs_apart_witness :
  exists a1 a2,
    Pdas.getGatewayPda derive someProgram 43113 = Ok a1 /\
    Pdas.getGatewayPda derive someProgram 1 = Ok a2 /\
    [Buf.fromString "gateway"; le_split 8 43113] <>
    [Buf.fromString "gateway"; le_split 8 1].
Proof.
  eexists. eexists.
  split; [reflexivity | ]. split; [reflexivity | ].
  refine (proj1 (proj1 (PdasFacts.resolvers_tell_inputs_apart derive
                          someProgram _ _) 43113 1 _ _ _)).
  - reflexivity.
  - reflexivity.
  - lia.
Defined.

(** The gateway and the counter of one chain: two lists of seeds. *)
Lemma resolvers_keep_roles_apart_witness :
  exists a1 a2,
    Pdas.getGatewayPda derive someProgram 43113 = Ok a1 /\
    Pdas.getCounterPda derive someProgram 43113 = Ok a2 /\
    [Buf.fromString "gateway"; le_split 8 43113] <>
    [Buf.fromString "counter"; le_split 8 43113].
Proof.
  eexists. eexists.
  split; [reflexivity | ]. split; [reflexivity | ].
  refine (proj1 (proj1 (PdasFacts.resolvers_keep_roles_apart derive
                          someProgram _ _) 43113 43113 _ _)).
  - reflexivity.
  - reflexivity.
Defined.

(** A transaction identifier of [2^128] among empty fields: the encoder
    throws, and no variable-length field is over its bound. *)
Lemma encode_throws_without_oversized_field :
  let wide := {| txId := 2 ^ 128; sourceChainId := 0; destChainId := 0;
                 sender := []; recipient := []; onChainData := [];
                 offChainData := [] |} in
  encode wide = Throw (ErrorObj "byte array longer than desired length") /\
  ~ oversized wide /\
  ~ (JS.throws (encode wide) <-> oversized wide).
Proof.
  intros wide.
  assert (He : encode wide =
               Throw (ErrorObj "byte array longer than desired length"))
    by (vm_compute; reflexivity).
  assert (Hno : ~ oversized wide)
    by (unfold oversized, wide; cbn; lia).
  split; [exact He | split; [exact Hno | ]].
  intros [Hthrows _]. apply Hno, Hthrows. rewrite He. now eexists.
Qed.


(** ** More on the operations *)

(** One signature and no lookup table: the instructions are built, and
    nothing is sent. *)
Lemma v0_operations_need_lookup_table_witness :
  exists built t,
    createTxPdaInstructions SimOps.sdk scenario [sigA] start =
    (Ok built, start, t) /\
    createTxPdaWithSignaturesV0 SimOps.sdk scenario [sigA] start =
    (Throw SdkOps.notLoaded, start, t).
Proof.
  do 2 eexists.
  assert (Hb : createTxPdaInstructions SimOps.sdk scenario [sigA] start =
               (Ok _, start, _)) by (vm_compute; reflexivity).
  split; [exact Hb | ].
  destruct (SdkFacts.v0_operations_need_lookup_table SimOps.sdk scenario
              [sigA] false None start eq_refl) as (Hc & _).
  exact (Hc _ _ _ eq_refl Hb).
Defined.

(** The key pair that signs the scenario is the one whose signature the
    submission verifies. *)
Lemma signed_digest_is_verified_digest_witness :
  exists sig main,
    createMessageSignature SimOps.sign (txId scenario)
      (sourceChainId scenario) (destChainId scenario) (sender scenario)
      (recipient scenario) (onChainData scenario) (offChainData scenario)
      SimOps.keypair = Ok sig /\
    signature sig = repeat Byte.x0c 64 ++ digest /\
    fst (fst (createTxPdaInstructions SimOps.sdk scenario [sig] start)) =
    Ok [Ed25519Verify (repeat Byte.x0a 32) digest (signature sig); main].
Proof.
  assert (Hs : createMessageSignature SimOps.sign (txId scenario)
                 (sourceChainId scenario) (destChainId scenario)
                 (sender scenario) (recipient scenario)
                 (onChainData scenario) (offChainData scenario)
                 SimOps.keypair =
               Ok {| signature := repeat Byte.x0c 64 ++ digest;
                     signer := mkPublicKey (repeat Byte.x0a 32) |})
    by evaluate.
  destruct (SdkFacts.signed_digest_is_verified_digest SimOps.sdk
              SimOps.sign scenario SimOps.keypair _ scenario_valid Hs)
    as (_ & _ & Hb).
  destruct (createTxPdaInstructions SimOps.sdk scenario
              [{| signature := repeat Byte.x0c 64 ++ digest;
                  signer := mkPublicKey (repeat Byte.x0a 32) |}] start)
    as [[[built | e] w1] t] eqn:E; [ | vm_compute in E; discriminate E].
  destruct (Hb start built w1 t E) as (verification & main & Hv & ->).
  exists {| signature := repeat Byte.x0c 64 ++ digest;
            signer := mkPublicKey (repeat Byte.x0a 32) |}, main.
  split; [exact Hs | split; [reflexivity | ]].
  rewrite E. cbn [fst]. injection Hv as <-. reflexivity.
Defined.



(** The simulated cluster holds no gas handler program: the message of
    the scenario is processed with the four accounts left out. *)
Lemma gas_handler_lookup_failure_is_swallowed_witness :
  exists accts main,
    processMessageV0Accounts SimOps.sdk scenario false None None
      noGasHandlerAccounts = Ok accts /\
    processMessageV0Instructions SimOps.sdk scenario [sigA] false None
      start =
    (Ok [verifyA; main], start,
     [EvGetAccountInfo (gasHandlerProgramId SimOps.sdk);
      EvInstruction (processMessageCall scenario accts [])]).
Proof.
  assert (Ha : exists accts,
             processMessageV0Accounts SimOps.sdk scenario false None None
               noGasHandlerAccounts = Ok accts)
    by (eexists; vm_compute; reflexivity).
  destruct Ha as [accts Ha].
  exists accts, (AnchorCall (processMessageCall scenario accts [])).
  split; [exact Ha | ].
  apply (SdkFacts.gas_handler_lookup_failure_is_swallowed SimOps.sdk
           scenario [sigA] false None digest [verifyA] None None None
           accts (AnchorCall (processMessageCall scenario accts []))
           start start start (Ok None));
    try reflexivity; try exact Ha; try exact I.
  all: try (apply SdkFacts.messageHash_valid; exact scenario_valid).
  all: repeat constructor.
Defined.

(** ** The operations sent with [rpc] *)

(** The gateway of the chain -1 is asked for: nothing reaches the
    cluster. *)
Lemma operations_refuse_negative_chain_witness :
  @SdkOps.initializeGateway simulated (SimOps.client SimOps.healthy None)
    SimOps.sdk (-1) start =
  (Throw (ErrorObj "initializeGateway failed: Invalid chain ID: -1"),
   start, []).
Proof.
  destruct (@SdkOpsFacts.operations_refuse_negative_chain simulated
              (SimOps.client SimOps.healthy None) SimOps.sdk (-1) start)
    as (Hg & _); [evaluate | exact Hg].
Defined.

(** The gateway of the chain [2^64]: three seconds pass, and nothing
    reaches the cluster. *)
Lemma operations_retry_too_wide_chain_witness :
  @SdkOps.initializeGateway simulated (SimOps.client SimOps.healthy None)
    SimOps.sdk (2 ^ 64) start =
  (Throw (ErrorObj ("initializeGateway failed after 3 attempts: " ++
                    "byte array longer than desired length")%string),
   {| submissions := 0; clock := 3000 |},
   [EvWarn "initializeGateway attempt 1 failed, retrying in 1000ms...";
    EvSleep 1000;
    EvWarn "initializeGateway attempt 2 failed, retrying in 2000ms...";
    EvSleep 2000]).
Proof.
  destruct (@SdkOpsFacts.operations_retry_too_wide_chain simulated
              (SimOps.client SimOps.healthy None) SimOps.sdk (2 ^ 64)
              start)
    as (Hg & _); [evaluate | exact Hg].
Defined.

(** A signer is added to a registry of the type "admin". *)
Lemma registry_operations_refuse_unknown_type_witness :
  @SdkOps.addSigner simulated (SimOps.client SimOps.healthy None)
    SimOps.sdk "admin" 43113 someProgram start =
  (Throw (ErrorObj ("addSigner(admin) failed: " ++
                    "Invalid registry type: admin")%string),
   start, []).
Proof.
  destruct (@SdkOpsFacts.registry_operations_refuse_unknown_type simulated
              (SimOps.client SimOps.healthy None) SimOps.sdk "admin" 43113
              start)
    as (_ & Ha & _).
  - intros [H | [H | [H | []]]]; discriminate H.
  - exact (Ha someProgram).
Defined.

(** The program fails the first transaction that initializes the gateway
    of Avalanche Fuji: a second one is sent a second later. *)
Lemma executeTransaction_sends_again_witness :
  @SdkOps.initializeGateway simulated (SimOps.client SimOps.failsOnce None)
    SimOps.sdk 43113 start =
  (Ok "signature", {| submissions := 2; clock := 1000 |},
   [EvWarn "initializeGateway attempt 1 failed, retrying in 1000ms...";
    EvSleep 1000]).
Proof.
  refine (proj2 (@SdkOpsFacts.executeTransaction_sends_again simulated
                   (SimOps.client SimOps.failsOnce None)
                   "initializeGateway" _
                   start {| submissions := 1; clock := 0 |}
                   {| submissions := 1; clock := 0 |}
                   "signature" SimOps.programError [] _ _) _
            "signature" {| submissions := 2; clock := 1000 |}
            {| submissions := 2; clock := 1000 |} [] _ _);
    evaluate.
Defined.

(** The table that lists the gas handler is loaded, and the V0 operation
    that follows sends its instructions against it, three times. *)
Lemma v0_operations_use_loaded_table_witness :
  exists loaded,
    @SdkOps.loadLookupTable simulated
      (SimOps.client SimOps.healthy (Some SimOps.table)) SimOps.sdk
      someProgram start = (Ok loaded, start, []) /\
    lookupTableAccount loaded = Some SimOps.table /\
    fst (createTxPdaWithSignaturesV0 loaded scenario [sigA] start) =
    (Throw (ErrorObj "createTxPda failed after 3 attempts: timeout"),
     {| submissions := 3; clock := 3000 |}).
Proof.
  destruct (@SdkOpsFacts.v0_operations_use_loaded_table simulated
              (SimOps.client SimOps.healthy (Some SimOps.table))
              SimOps.sdk someProgram start start
              (SdkOps.withLookupTable SimOps.sdk SimOps.table) [] eq_refl)
    as (table & Hg & Ht & Hc & _).
  exists (SdkOps.withLookupTable SimOps.sdk SimOps.table).
  split; [reflexivity | split; [reflexivity | ]].
  cbv in Hg. injection Hg as Hg. subst table.
  destruct (createTxPdaInstructions
              (SdkOps.withLookupTable SimOps.sdk SimOps.table) scenario
              [sigA] start) as [[[built | e] w1] t] eqn:E;
    [ | vm_compute in E; discriminate E].
  rewrite (Hc scenario [sigA] built start w1 t eq_refl E).
  vm_compute in E. injection E as <- <- <-.
  vm_compute. reflexivity.
Defined.


(** ** ABI decoding and validation *)

(** The three words of a transfer of 1000 tokens, with one byte more. *)
Lemma decodeTokenBridgeData_reads_abi_layout_witness :
  Abi.decodeTokenBridgeData (SimOps.bridged ++ [Byte.x09]) =
  Ok {| Abi.recipient := SimOps.recipientKey; Abi.amount := 1000;
        Abi.tokenMint := SimOps.mintKey |}.
Proof.
  unfold SimOps.bridged. rewrite <- !app_assoc.
  apply AbiFacts.decodeTokenBridgeData_reads_abi_layout;
    try evaluate; split; evaluate.
Defined.

(** The transfer of 1000 tokens is decoded and passes both checks. *)
Lemma decoded_bridge_data_validation_witness :
  exists data,
    Abi.decodeTokenBridgeData SimOps.bridged = Ok data /\
    Abi.validateTokenBridgeData data = Ok tt /\
    Validation.validateAmount (Abi.amount data) = Ok tt.
Proof.
  assert (Hd : Abi.decodeTokenBridgeData SimOps.bridged =
               Ok {| Abi.recipient := SimOps.recipientKey;
                     Abi.amount := 1000;
                     Abi.tokenMint := SimOps.mintKey |}) by evaluate.
  destruct (ValidationFacts.decoded_bridge_data_validation SimOps.bridged
              _ Hd) as (_ & Hv & Ha).
  eexists. split; [exact Hd | ].
  split; [apply Hv | apply Ha]; repeat split; discriminate.
Defined.

(** A stored message of the gateway [someProgram]. *)
Lemma validateDecodedMessage_accepts_exactly_witness :
  JS.isAscii (Validation.destChainId SimOps.stored) /\
  Validation.validateDecodedMessage SimOps.stored someProgram = Ok tt.
Proof.
  assert (Ha : JS.isAscii (Validation.destChainId SimOps.stored))
    by (repeat constructor).
  split; [exact Ha | ].
  apply (ValidationFacts.validateDecodedMessage_accepts_exactly
           SimOps.stored someProgram Ha).
  repeat split; try evaluate.
  exists "4"%char. split; [now left | reflexivity].
Defined.

End Scenarios.
